(** * Multi-agent coding system: structured response recovery, message bus,
      agent pipeline and task protocol

    A shallow embedding of
    - [src/core/llm_client.py]  ([parse_structured_response],
      [_extract_json_from_response], [generate_response] with its rate
      limiter and provider routing, [generate_with_schema]),
    - [src/communication/message_bus.py]  ([MessageBus]),
    - [src/core/base_agent.py]  ([BaseOrchestrator], [BaseExecutor],
      [BaseReviewer], [BaseAgent]),
    - [src/communication/protocols.py]  ([ProtocolHelper],
      [MessageValidator.sanitize_content]),
    - [src/agents/domain_advisor/domain_advisor.py]
      ([DomainAdvisorOrchestrator], [DomainAdvisorExecutor]),
    - [src/core/types.py],
    followed by the properties proved about them.

    Conventions.  A Python [str] is a [string]; its characters are the code
    points below 256.  A Python value of type [Any] is a [value].  A call that
    may raise returns a [result]; [try]/[except] is [try_except].  The floats
    that carry a score or a duration are rationals, with exact arithmetic.
    The collaborators that the code does not define ([json.loads], the model
    invocation service, the abstract methods of the agent classes, the
    default factories [uuid4] and [datetime.now]) are parameters. *)

From Stdlib Require Import Ascii String ZArith QArith Lia Lqa.
From stdpp Require Import gmap strings list pretty.

Set Warnings "-register-all".

Local Open Scope string_scope.
Local Open Scope Z_scope.

(** ** Python values *)

Inductive pyfloat :=
| FFinite (q : Q)
| FNaN
| FInfinity (negative : bool).

Inductive value :=
| VNone
| VBool (b : bool)
| VInt (n : Z)
| VFloat (f : pyfloat)
| VStr (s : string)
| VList (items : list value)
| VDict (entries : list (string * value)).

(** A [dict] keeps its keys in insertion order; assigning to a key that is
    present replaces the value in place. *)
Fixpoint dict_get (k : string) (d : list (string * value)) : option value :=
  match d with
  | [] => None
  | (k', v) :: d' => if String.eqb k k' then Some v else dict_get k d'
  end.

Fixpoint dict_set (k : string) (v : value) (d : list (string * value))
  : list (string * value) :=
  match d with
  | [] => [(k, v)]
  | (k', v') :: d' =>
      if String.eqb k k' then (k, v) :: d' else (k', v') :: dict_set k v d'
  end.

Definition is_dict (v : value) : bool :=
  match v with VDict _ => true | _ => false end.

(** ** Exceptions *)

Record exn := MkExn { exn_class : string; str : string }.

Inductive result (A : Type) :=
| Ok (a : A)
| Raise (e : exn).
Arguments Ok {A} a.
Arguments Raise {A} e.

(** Sequencing: a raise in [r] skips what follows.  With the instances
    below, [x ← r; k] is [mbind (fun x => k) r]. *)
#[global] Instance result_bind : MBind result := fun A B k r =>
  match r with
  | Ok a => k a
  | Raise e => Raise e
  end.

#[global] Instance result_ret : MRet result := fun A a => Ok a.

(** [try: body except Exception as e: handler e] *)
Definition try_except {A} (body : result A) (handler : exn -> result A)
  : result A :=
  match body with
  | Ok a => Ok a
  | Raise e => handler e
  end.

(** ** Python string operations *)

Definition dquote : ascii := "034"%char.
Definition backslash : ascii := "092"%char.
Definition lbrace : ascii := "{"%char.
Definition rbrace : ascii := "}"%char.
Definition lbracket : ascii := "["%char.
Definition rbracket : ascii := "]"%char.

(** [s.find(sub, start)], with [None] for [-1]. *)
Definition find (sub : string) (start : nat) (s : string) : option nat :=
  String.index start sub s.

(** [s[lo:hi]] for [lo <= hi]. *)
Definition slice (s : string) (lo hi : nat) : string :=
  String.substring lo (hi - lo) s.

(** [s[lo:]] *)
Fixpoint slice_from (s : string) (lo : nat) : string :=
  match lo, s with
  | O, _ => s
  | S lo', String _ s' => slice_from s' lo'
  | S _, EmptyString => EmptyString
  end.

(** [str.isspace] on the code points below 256. *)
Definition isspace (c : ascii) : bool :=
  let n := nat_of_ascii c in
  ((9 <=? n)%nat && (n <=? 13)%nat) || ((28 <=? n)%nat && (n <=? 32)%nat)
  || (n =? 133)%nat || (n =? 160)%nat.

Fixpoint lstrip (s : string) : string :=
  match s with
  | EmptyString => EmptyString
  | String c s' => if isspace c then lstrip s' else s
  end.

Definition rstrip (s : string) : string := String.rev (lstrip (String.rev s)).

Definition strip (s : string) : string := rstrip (lstrip s).

(** A piece of text between double quotes. *)
Definition quoted (s : string) : string :=
  String dquote (s +:+ String dquote EmptyString).

(** ** Core data types ([src/core/types.py]) *)

Inductive AgentRole :=
| DOMAIN_ADVISOR | SOLUTION_ARCHITECT | SOFTWARE_ARCHITECT | FRONTEND_CODER
| BACKEND_CODER | INFRASTRUCTURE_CODER | TESTING_AGENT | QUALITY_REVIEWER
| MASTER_ORCHESTRATOR.

Inductive TaskPriority := CRITICAL | HIGH | MEDIUM | LOW.

Inductive TaskStatus := PENDING | IN_PROGRESS | COMPLETED | FAILED | CANCELLED.

Inductive MessageType :=
| TASK_REQUEST | TASK_RESPONSE | STATUS_UPDATE | ERROR_REPORT
| COLLABORATION_REQUEST | WORKFLOW_CONTROL.

#[global] Instance AgentRole_eq_dec : EqDecision AgentRole.
Proof. solve_decision. Defined.
#[global] Instance TaskPriority_eq_dec : EqDecision TaskPriority.
Proof. solve_decision. Defined.
#[global] Instance MessageType_eq_dec : EqDecision MessageType.
Proof. solve_decision. Defined.

(** The [.value] of each enumeration member. *)
Definition AgentRole_value (r : AgentRole) : string :=
  match r with
  | DOMAIN_ADVISOR => "domain_advisor"
  | SOLUTION_ARCHITECT => "solution_architect"
  | SOFTWARE_ARCHITECT => "software_architect"
  | FRONTEND_CODER => "frontend_coder"
  | BACKEND_CODER => "backend_coder"
  | INFRASTRUCTURE_CODER => "infrastructure_coder"
  | TESTING_AGENT => "testing_agent"
  | QUALITY_REVIEWER => "quality_reviewer"
  | MASTER_ORCHESTRATOR => "master_orchestrator"
  end.

Definition TaskPriority_value (p : TaskPriority) : string :=
  match p with
  | CRITICAL => "critical"
  | HIGH => "high"
  | MEDIUM => "medium"
  | LOW => "low"
  end.

Definition MessageType_value (t : MessageType) : string :=
  match t with
  | TASK_REQUEST => "task_request"
  | TASK_RESPONSE => "task_response"
  | STATUS_UPDATE => "status_update"
  | ERROR_REPORT => "error_report"
  | COLLABORATION_REQUEST => "collaboration_request"
  | WORKFLOW_CONTROL => "workflow_control"
  end.

(** The lookup by value, [AgentRole(x)] and [TaskPriority(x)]: the first
    member whose value is [x], [None] for the [ValueError]. *)
Definition AgentRole_of_value (x : value) : option AgentRole :=
  match x with
  | VStr s =>
      List.find (fun r => String.eqb (AgentRole_value r) s)
        [DOMAIN_ADVISOR; SOLUTION_ARCHITECT; SOFTWARE_ARCHITECT;
         FRONTEND_CODER; BACKEND_CODER; INFRASTRUCTURE_CODER; TESTING_AGENT;
         QUALITY_REVIEWER; MASTER_ORCHESTRATOR]
  | _ => None
  end.

Definition TaskPriority_of_value (x : value) : option TaskPriority :=
  match x with
  | VStr s =>
      List.find (fun p => String.eqb (TaskPriority_value p) s)
        [CRITICAL; HIGH; MEDIUM; LOW]
  | _ => None
  end.

(** A naive [datetime] (no [tzinfo]). *)
Record datetime := {
  year : N; month : N; day : N;
  hour : N; minute : N; second : N; microsecond : N
}.

(** Fields the helpers only pass along hold any value; fields whose methods
    the code calls have their annotated type. *)
Module Task.
Record t := {
  task_id : value;
  title : value;
  description : value;
  requirements : value;
  priority : TaskPriority;
  required_agent_role : option AgentRole;
  dependencies : value;
  metadata : value;
  created_at : datetime;
  deadline : option datetime;
  context : value
}.
End Task.

Module AgentResponse.
Record t := {
  success : bool;
  result : value;
  error : value;
  feedback : list string;
  confidence : Q;
  execution_time : option Q;
  metadata : value;
  suggestions : list string
}.
End AgentResponse.

Module ReviewResult.
Record t := {
  approved : bool;
  score : Q;
  issues : list string;
  suggestions : list string;
  strengths : list string;
  metadata : value
}.
End ReviewResult.

Module Message.
Record t := {
  message_id : string;
  message_type : MessageType;
  sender : string;
  recipient : string;
  content : list (string * value);
  priority : TaskPriority;
  timestamp : datetime;
  correlation_id : option string;
  requires_response : bool
}.
End Message.

(** Of [LLMRequest] and [LLMResponse], the fields that the functions below
    set or read. *)
Module LLMRequest.
Record t := {
  prompt : string;
  system_prompt : option string;
  max_tokens : Z
}.
End LLMRequest.

Module LLMResponse.
Record t := {
  content : string;
  model : string;
  provider : string;
  success : bool;
  error : option string
}.
End LLMResponse.

(** ** Structured response recovery ([src/core/llm_client.py]) *)

Module LLMClient.

(** The degraded fallback [{"content": content, "parsed": False}]. *)
Definition fallback (text : string) : value :=
VDict [("content", VStr text); ("parsed", VBool false)].

Section Recovery.

(** [json.loads]: [Some v] when the text decodes to [v], [None] when it
raises [json.JSONDecodeError]. *)
Variable loads : string -> option value.

(** The string-aware scan for a balanced object.  [i] is the index of the
first character of [rest] in [content]. *)
Fixpoint scan_object (content : string) (brace_start i : nat) (rest : string)
(bracket_count : Z) (start_found in_string escape_next : bool)
: option value :=
match rest with
| EmptyString => None
| String char rest' =>
  let next := scan_object content brace_start (S i) rest' in
  if escape_next then
    next bracket_count start_found in_string false
  else if Ascii.eqb char backslash && in_string then
    next bracket_count start_found in_string true
  else if Ascii.eqb char dquote && negb escape_next then
    next bracket_count start_found (negb in_string) escape_next
  else if negb in_string then
    if Ascii.eqb char lbrace then
      next (bracket_count + 1) true in_string escape_next
    else if Ascii.eqb char rbrace then
      let bracket_count := bracket_count - 1 in
      if (bracket_count =? 0) && start_found then
        match loads (slice content brace_start (i + 1)) with
        | Some v => Some v
        | None => next 0 false in_string escape_next
        end
      else next bracket_count start_found in_string escape_next
    else next bracket_count start_found in_string escape_next
  else next bracket_count start_found in_string escape_next
end.

(** The scan for a balanced array; a candidate that fails to decode ends
the scan ([break]). *)
Fixpoint scan_array (content : string) (array_start i : nat) (rest : string)
(bracket_count : Z) (start_found : bool) : option value :=
match rest with
| EmptyString => None
| String char rest' =>
  let next := scan_array content array_start (S i) rest' in
  if Ascii.eqb char lbracket then
    next (bracket_count + 1) true
  else if Ascii.eqb char rbracket then
    let bracket_count := bracket_count - 1 in
    if (bracket_count =? 0) && start_found then
      loads (slice content array_start (i + 1))
    else next bracket_count start_found
  else next bracket_count start_found
end.

(** Step 2: the fenced block. *)
Definition fenced_block (content : string) : option value :=
match find "```json" 0 content with
| None => None
| Some json_start =>
  let json_start := (json_start + String.length "```json")%nat in
  match find "```" json_start content with
  | None => None
  | Some json_end => loads (strip (slice content json_start json_end))
  end
end.

(** Step 3: the first opening brace and the scan from it. *)
Definition object_scan (content : string) : option value :=
match find "{" 0 content with
| None => None
| Some brace_start =>
  scan_object content brace_start brace_start
    (slice_from content brace_start) 0 false false false
end.

(** Step 4: the first opening bracket and the scan from it. *)
Definition array_scan (content : string) : option value :=
match find "[" 0 content with
| None => None
| Some array_start =>
  scan_array content array_start array_start
    (slice_from content array_start) 0 false
end.

Definition _extract_json_from_response (content : string) : value :=
match loads content with
| Some v => v
| None =>
  match fenced_block content with
  | Some v => v
  | None =>
      match object_scan content with
      | Some v => v
      | None =>
          match array_scan content with
          | Some v => v
          | None => fallback content
          end
      end
  end
end.

Definition parse_structured_response (response : LLMResponse.t)
(expected_format : string) : result value :=
if negb (LLMResponse.success response) then
Raise (MkExn "ValueError"
         ("Cannot parse failed response: "
          +:+ default "None" (LLMResponse.error response)))
else
let content := strip (LLMResponse.content response) in
if String.eqb expected_format "json" then
  Ok (_extract_json_from_response content)
else
  Raise (MkExn "ValueError" ("Unsupported format: " +:+ expected_format)).



End Recovery.

(** [str.lower] on the code points below 256: the letters A-Z and the
    capital letters of the Latin-1 supplement. *)
Definition lower_char (c : ascii) : ascii :=
  let n := nat_of_ascii c in
  if ((65 <=? n)%nat && (n <=? 90)%nat)
     || ((192 <=? n)%nat && (n <=? 222)%nat && negb (n =? 215)%nat)
  then ascii_of_nat (n + 32) else c.

Fixpoint lower (s : string) : string :=
  match s with
  | EmptyString => EmptyString
  | String c s' => String (lower_char c) (lower s')
  end.

(** [sub in s] *)
Definition contains (sub s : string) : bool :=
  match find sub 0 s with Some _ => true | None => false end.

Definition _determine_provider (default_provider model : string) : string :=
  if contains "claude" (lower model) then "anthropic"
  else if contains "gpt" (lower model) then "openai"
  else if contains "qwen" (lower model) || contains "ollama" (lower model)
  then "ollama"
  else default_provider.

(** The state of the rate limiter. *)
Module Limiter.
Record t := {
  last_request_time : Q;
  request_count : Z;
  rate_limit_window_start : Q
}.
End Limiter.

(** [_apply_rate_limiting].  [current_time] is the reading of the clock
    on entry and [later] the reading after the sleep; the result lists the
    sleeps. *)
Definition _apply_rate_limiting (rate_limit_requests_per_minute : Z)
    (current_time later : Q) (l : Limiter.t) : list Q * Limiter.t :=
  let l :=
    if Qle_bool 60 (current_time - Limiter.rate_limit_window_start l) then
      {| Limiter.last_request_time := Limiter.last_request_time l;
         Limiter.request_count := 0;
         Limiter.rate_limit_window_start := current_time |}
    else l in
  let '(slept, l) :=
    if rate_limit_requests_per_minute <=? Limiter.request_count l then
      let wait_time :=
        (60 - (current_time - Limiter.rate_limit_window_start l))%Q in
      if negb (Qle_bool wait_time 0) then
        ([wait_time],
         {| Limiter.last_request_time := Limiter.last_request_time l;
            Limiter.request_count := 0;
            Limiter.rate_limit_window_start := later |})
      else ([], l)
    else ([], l) in
  (slept,
   {| Limiter.last_request_time := current_time;
      Limiter.request_count := Limiter.request_count l + 1;
      Limiter.rate_limit_window_start := Limiter.rate_limit_window_start l |}).

Section Generation.

Variable default_provider : string.
Variable max_retries : Z.
Variable retry_delay : Q.
Variable rate_limit_requests_per_minute : Z.

(** The provider calls: what the call made in the [attempt]-th round
    returns or raises. *)
Variable _call_anthropic : LLMRequest.t -> nat -> result LLMResponse.t.
Variable _call_openai : LLMRequest.t -> nat -> result LLMResponse.t.
Variable _call_ollama : LLMRequest.t -> nat -> result LLMResponse.t.

(** The body of the [try] of one round. *)
Definition call_provider (provider : string) (request : LLMRequest.t)
    (attempt : nat) : result LLMResponse.t :=
  if String.eqb provider "anthropic" then _call_anthropic request attempt
  else if String.eqb provider "openai" then _call_openai request attempt
  else if String.eqb provider "ollama" then _call_ollama request attempt
  else Raise (MkExn "ValueError" ("Unsupported provider: " +:+ provider)).

(** [for attempt in range(self.max_retries)], from round [attempt] on with
    [remaining] rounds to go: the response, if the loop returns one, and
    the sleeps between the rounds. *)
Fixpoint attempts (remaining attempt : nat) (provider model : string)
    (request : LLMRequest.t) : option LLMResponse.t * list Q :=
  match remaining with
  | O => (None, [])
  | S remaining' =>
      match call_provider provider request attempt with
      | Ok response => (Some response, [])
      | Raise e =>
          if Z.of_nat attempt =? max_retries - 1 then
            (Some {| LLMResponse.content := "";
                     LLMResponse.model := model;
                     LLMResponse.provider := provider;
                     LLMResponse.success := false;
                     LLMResponse.error :=
                       Some ("Failed after " +:+ pretty max_retries
                             +:+ " attempts: " +:+ str e) |},
             [])
          else
            let '(response, slept) :=
              attempts remaining' (S attempt) provider model request in
            (response,
             (retry_delay * inject_Z (2 ^ Z.of_nat attempt))%Q :: slept)
      end
  end.

(** The sleeps of the rounds [attempt], .., [attempt + n - 1]. *)
Definition backoff (attempt n : nat) : list Q :=
  (fun k => (retry_delay * inject_Z (2 ^ Z.of_nat k))%Q) <$> seq attempt n.

(** [generate_response] for a request whose [model] field is [model]:
    the response, the sleeps in order, and the rate limiter afterwards. *)
Definition generate_response (current_time later : Q) (model : string)
    (request : LLMRequest.t) (limiter : Limiter.t)
  : option LLMResponse.t * list Q * Limiter.t :=
  let provider := _determine_provider default_provider model in
  let '(waited, limiter) :=
    _apply_rate_limiting rate_limit_requests_per_minute current_time later
      limiter in
  let '(response, slept) :=
    attempts (Z.to_nat max_retries) 0 provider model request in
  (response, (waited ++ slept)%list, limiter).

End Generation.

End LLMClient.

(** ** A decoder for the JSON grammar

    [json_loads] follows the grammar that Python's [json.loads] accepts:
    white space, [null], [true], [false], [NaN], [Infinity], [-Infinity],
    numbers, strings with their escapes, arrays and objects.  An integer
    literal becomes a [VInt]; a literal with a fraction or an exponent
    becomes the rational it denotes (the rounding to a binary float is
    left out).  A [\u] escape is decoded when its code point is below 256
    and rejected otherwise.  [None] stands for [json.JSONDecodeError]. *)

Module Json.

Definition is_ws (c : ascii) : bool :=
  let n := nat_of_ascii c in
  (n =? 32)%nat || (n =? 9)%nat || (n =? 10)%nat || (n =? 13)%nat.

Fixpoint skip_ws (s : string) : string :=
  match s with
  | EmptyString => EmptyString
  | String c s' => if is_ws c then skip_ws s' else s
  end.

Definition is_digit (c : ascii) : bool :=
  let n := nat_of_ascii c in (48 <=? n)%nat && (n <=? 57)%nat.

Definition digit_val (c : ascii) : Z := Z.of_nat (nat_of_ascii c) - 48.

Definition hex_val (c : ascii) : option Z :=
  let n := nat_of_ascii c in
  if (48 <=? n)%nat && (n <=? 57)%nat then Some (Z.of_nat n - 48)
  else if (97 <=? n)%nat && (n <=? 102)%nat then Some (Z.of_nat n - 87)
  else if (65 <=? n)%nat && (n <=? 70)%nat then Some (Z.of_nat n - 55)
  else None.

(** The longest run of digits at the head of [s]: its value read after
    [acc], its length, and the rest. *)
Fixpoint digits (s : string) (acc : Z) (len : nat) : Z * nat * string :=
  match s with
  | String c s' =>
      if is_digit c then digits s' (10 * acc + digit_val c) (S len)
      else (acc, len, s)
  | EmptyString => (acc, len, s)
  end.

(** [0|[1-9][0-9]*] *)
Definition int_part (s : string) : option (Z * string) :=
  match s with
  | String c s' =>
      if Ascii.eqb c "0" then Some (0, s')
      else if is_digit c then
        let '(n, _, r) := digits s 0 0 in Some (n, r)
      else None
  | EmptyString => None
  end.

(** [(\.[0-9]+)?]: the digits read after the integer part, how many. *)
Definition frac_part (n : Z) (s : string) : option (Z * nat * string) :=
  match s with
  | String c s' =>
      if Ascii.eqb c "." then
        let '(m, k, r) := digits s' n 0 in
        match k with O => None | S _ => Some (m, k, r) end
      else None
  | EmptyString => None
  end.

(** [([eE][-+]?[0-9]+)?] *)
Definition exp_part (s : string) : option (Z * string) :=
  match s with
  | String c s' =>
      if Ascii.eqb c "e" || Ascii.eqb c "E" then
        let '(neg, s'') :=
          match s' with
          | String d r =>
              if Ascii.eqb d "-" then (true, r)
              else if Ascii.eqb d "+" then (false, r)
              else (false, s')
          | EmptyString => (false, s')
          end in
        let '(e, k, r) := digits s'' 0 0 in
        match k with
        | O => None
        | S _ => Some (if neg then - e else e, r)
        end
      else None
  | EmptyString => None
  end.

(** [m * 10 ^ e] as a rational in lowest terms. *)
Definition decimal (m e : Z) : Q :=
  Qred (if 0 <=? e then Qmake (m * 10 ^ e) 1
        else Qmake m (Z.to_pos (10 ^ (- e)))).

Definition number (s : string) : option (value * string) :=
  let '(neg, s1) :=
    match s with
    | String c r => if Ascii.eqb c "-" then (true, r) else (false, s)
    | EmptyString => (false, s)
    end in
  match int_part s1 with
  | None => None
  | Some (n, s2) =>
      let sign (z : Z) := if neg then - z else z in
      match frac_part n s2, exp_part s2 with
      | None, None => Some (VInt (sign n), s2)
      | None, Some (e, r) => Some (VFloat (FFinite (decimal (sign n) e)), r)
      | Some (m, k, s3), _ =>
          match exp_part s3 with
          | None =>
              Some (VFloat (FFinite (decimal (sign m) (- Z.of_nat k))), s3)
          | Some (e, r) =>
              Some (VFloat (FFinite (decimal (sign m) (e - Z.of_nat k))), r)
          end
      end
  end.

Definition hex4 (a b c d : ascii) : option Z :=
  match hex_val a, hex_val b, hex_val c, hex_val d with
  | Some a, Some b, Some c, Some d => Some (((a * 16 + b) * 16 + c) * 16 + d)
  | _, _, _, _ => None
  end.

Definition escape (c : ascii) : option ascii :=
  if Ascii.eqb c dquote then Some dquote
  else if Ascii.eqb c backslash then Some backslash
  else if Ascii.eqb c "/" then Some "/"%char
  else if Ascii.eqb c "b" then Some "008"%char
  else if Ascii.eqb c "f" then Some "012"%char
  else if Ascii.eqb c "n" then Some "010"%char
  else if Ascii.eqb c "r" then Some "013"%char
  else if Ascii.eqb c "t" then Some "009"%char
  else None.

(** The body of a string literal, after its opening quote; [acc] holds
    the characters read so far, last first.  A control character is
    refused, as in the strict mode that [json.loads] uses. *)
Fixpoint string_body (s : string) (acc : string) : option (string * string) :=
  match s with
  | EmptyString => None
  | String c s' =>
      if Ascii.eqb c dquote then Some (String.rev acc, s')
      else if Ascii.eqb c backslash then
        match s' with
        | String e s'' =>
            if Ascii.eqb e "u" then
              match s'' with
              | String h1 (String h2 (String h3 (String h4 r))) =>
                  match hex4 h1 h2 h3 h4 with
                  | Some n =>
                      if n <? 256 then
                        string_body r (String (ascii_of_nat (Z.to_nat n)) acc)
                      else None
                  | None => None
                  end
              | _ => None
              end
            else
              match escape e with
              | Some x => string_body s'' (String x acc)
              | None => None
              end
        | EmptyString => None
        end
      else if (nat_of_ascii c <? 32)%nat then None
      else string_body s' (String c acc)
  end.

(** What follows a decoded element: [close] ends the collection, a comma
    announces another element. *)
Inductive separator := Close (rest : string) | Comma (rest : string) | Stray.

Definition after_element (close : ascii) (s : string) : separator :=
  match skip_ws s with
  | String c r =>
      if Ascii.eqb c close then Close r
      else if Ascii.eqb c "," then Comma (skip_ws r)
      else Stray
  | EmptyString => Stray
  end.

Section Collections.

(** The decoder for one value, at the nesting depth below. *)
Variable scan_once : string -> option (value * string).

(** The elements of an array; [s] stands at the first character of an
    element. *)
Fixpoint elements (n : nat) (s : string) (acc : list value)
  : option (value * string) :=
  match n with
  | O => None
  | S n' =>
      match scan_once s with
      | None => None
      | Some (v, r) =>
          match after_element rbracket r with
          | Close r' => Some (VList (rev (v :: acc)), r')
          | Comma r' => elements n' r' (v :: acc)
          | Stray => None
          end
      end
  end.

(** The members of an object; [s] stands at the opening quote of a
    key.  A key that occurs twice keeps its place and takes the later
    value, as [dict(pairs)] does. *)
Fixpoint members (n : nat) (s : string) (acc : list (string * value))
  : option (value * string) :=
  match n with
  | O => None
  | S n' =>
      match s with
      | String c s1 =>
          if Ascii.eqb c dquote then
            match string_body s1 EmptyString with
            | None => None
            | Some (key, s2) =>
                match skip_ws s2 with
                | String c' s3 =>
                    if Ascii.eqb c' ":" then
                      match scan_once (skip_ws s3) with
                      | None => None
                      | Some (v, r) =>
                          let acc := dict_set key v acc in
                          match after_element rbrace r with
                          | Close r' => Some (VDict acc, r')
                          | Comma r' => members n' r' acc
                          | Stray => None
                          end
                      end
                    else None
                | EmptyString => None
                end
            end
          else None
      | EmptyString => None
      end
  end.

End Collections.

(** One value at the head of [s].  Each level of nesting uses one unit of
    [fuel]. *)
Fixpoint scan_once (fuel : nat) (s : string) : option (value * string) :=
  match fuel with
  | O => None
  | S fuel' =>
      match s with
      | EmptyString => None
      | String c r =>
          if Ascii.eqb c dquote then
            match string_body r EmptyString with
            | Some (str, r') => Some (VStr str, r')
            | None => None
            end
          else if Ascii.eqb c lbrace then
            match skip_ws r with
            | String c' r' =>
                if Ascii.eqb c' rbrace then Some (VDict [], r')
                else members (scan_once fuel') (String.length r)
                       (skip_ws r) []
            | EmptyString => None
            end
          else if Ascii.eqb c lbracket then
            match skip_ws r with
            | String c' r' =>
                if Ascii.eqb c' rbracket then Some (VList [], r')
                else elements (scan_once fuel') (String.length r)
                       (skip_ws r) []
            | EmptyString => None
            end
          else if String.prefix "null" s then
            Some (VNone, slice_from s 4)
          else if String.prefix "true" s then
            Some (VBool true, slice_from s 4)
          else if String.prefix "false" s then
            Some (VBool false, slice_from s 5)
          else
            match number s with
            | Some r => Some r
            | None =>
                if String.prefix "NaN" s then
                  Some (VFloat FNaN, slice_from s 3)
                else if String.prefix "Infinity" s then
                  Some (VFloat (FInfinity false), slice_from s 8)
                else if String.prefix "-Infinity" s then
                  Some (VFloat (FInfinity true), slice_from s 9)
                else None
            end
      end
  end.

(** [json.loads]: one value between optional white space, and nothing
    else. *)
Definition loads (s : string) : option value :=
  match scan_once (S (String.length s)) (skip_ws s) with
  | Some (v, r) =>
      match skip_ws r with
      | EmptyString => Some v
      | String _ _ => None
      end
  | None => None
  end.

End Json.

Definition json_loads : string -> option value := Json.loads.


(** ** Message bus ([src/communication/message_bus.py]) *)

(** Python truthiness, as used by [if response] and [if task_data.get(..)]. *)
Definition truthy (v : value) : bool :=
  match v with
  | VNone => false
  | VBool b => b
  | VInt n => negb (n =? 0)
  | VFloat (FFinite q) => negb (Qeq_bool q 0)
  | VFloat _ => true
  | VStr s => negb (String.eqb s "")
  | VList l => match l with [] => false | _ => true end
  | VDict d => match d with [] => false | _ => true end
  end.

Module MessageBus.

(** The dictionary of the four deques of one recipient. *)
Record queues := {
  critical : list Message.t;
  high : list Message.t;
  medium : list Message.t;
  low : list Message.t
}.

Definition empty_queues : queues :=
  {| critical := []; high := []; medium := []; low := [] |}.

(** [queues[priority]] *)
Definition queue (p : TaskPriority) (qs : queues) : list Message.t :=
  match p with
  | CRITICAL => critical qs
  | HIGH => high qs
  | MEDIUM => medium qs
  | LOW => low qs
  end.

Definition set_queue (p : TaskPriority) (q : list Message.t) (qs : queues)
  : queues :=
  match p with
  | CRITICAL => {| critical := q; high := high qs; medium := medium qs; low := low qs |}
  | HIGH => {| critical := critical qs; high := q; medium := medium qs; low := low qs |}
  | MEDIUM => {| critical := critical qs; high := high qs; medium := q; low := low qs |}
  | LOW => {| critical := critical qs; high := high qs; medium := medium qs; low := q |}
  end.

(** [sum(len(q) for q in queues.values())] *)
Definition total (qs : queues) : nat :=
  (length (critical qs) + length (high qs) + length (medium qs)
   + length (low qs))%nat.

(** One dictionary of [message_history]. *)
Module History.
Record entry := {
  message_id : string;
  sender : string;
  recipient : string;
  message_type : string;
  priority : string;
  timestamp : datetime;
  status : string;
  delivery_time : option Q;
  error : option string
}.
End History.

(** An [asyncio.Future]. *)
Inductive Future :=
| Pending
| Result (m : Message.t)
| Exception (e : exn)
| Cancelled.

Definition done (f : Future) : bool :=
  match f with Pending => false | _ => true end.

(** What a handler returns: a [Message] or some other object. *)
Inductive response :=
| RMessage (m : Message.t)
| RValue (v : value).

(** A registered handler, synchronous or not, is taken by its outcome on
    each message: what it returns, or the exception it raises. *)
Definition Handler : Type := Message.t -> result response.

Record Stats := {
  messages_sent : Z;
  messages_delivered : Z;
  messages_failed : Z;
  average_delivery_time : Q;
  queue_sizes : gmap string Z
}.

(** The bus.  [pending_responses] holds references to future objects:
    [futures] is the store of these objects, addressed by number.
    [constructed] counts the [Message] objects the bus has built; the
    n-th takes its default [message_id] and [timestamp] from the
    environment ([uuid4 n], [now n]). *)
Record t := {
  max_queue_size : Z;
  message_retention : nat;
  message_queues : gmap string queues;
  agents : list (string * Handler);
  message_history : list History.entry;
  pending_responses : gmap string nat;
  futures : gmap nat Future;
  stats : Stats;
  running : bool;
  constructed : nat
}.

Definition init (max_queue_size : Z) (message_retention : nat) : t :=
  {| max_queue_size := max_queue_size;
     message_retention := message_retention;
     message_queues := ∅;
     agents := [];
     message_history := [];
     pending_responses := ∅;
     futures := ∅;
     stats := {| messages_sent := 0; messages_delivered := 0;
                 messages_failed := 0; average_delivery_time := 0;
                 queue_sizes := ∅ |};
     running := false;
     constructed := O |}.

Definition with_message_queues (f : gmap string queues -> gmap string queues)
    (bus : t) : t :=
  {| max_queue_size := max_queue_size bus;
     message_retention := message_retention bus;
     message_queues := f (message_queues bus);
     agents := agents bus;
     message_history := message_history bus;
     pending_responses := pending_responses bus;
     futures := futures bus;
     stats := stats bus;
     running := running bus;
     constructed := constructed bus |}.

Definition with_agents (f : list (string * Handler) -> list (string * Handler))
    (bus : t) : t :=
  {| max_queue_size := max_queue_size bus;
     message_retention := message_retention bus;
     message_queues := message_queues bus;
     agents := f (agents bus);
     message_history := message_history bus;
     pending_responses := pending_responses bus;
     futures := futures bus;
     stats := stats bus;
     running := running bus;
     constructed := constructed bus |}.

Definition with_message_history
    (f : list History.entry -> list History.entry) (bus : t) : t :=
  {| max_queue_size := max_queue_size bus;
     message_retention := message_retention bus;
     message_queues := message_queues bus;
     agents := agents bus;
     message_history := f (message_history bus);
     pending_responses := pending_responses bus;
     futures := futures bus;
     stats := stats bus;
     running := running bus;
     constructed := constructed bus |}.

Definition with_pending_responses (f : gmap string nat -> gmap string nat)
    (bus : t) : t :=
  {| max_queue_size := max_queue_size bus;
     message_retention := message_retention bus;
     message_queues := message_queues bus;
     agents := agents bus;
     message_history := message_history bus;
     pending_responses := f (pending_responses bus);
     futures := futures bus;
     stats := stats bus;
     running := running bus;
     constructed := constructed bus |}.

Definition with_futures (f : gmap nat Future -> gmap nat Future) (bus : t)
  : t :=
  {| max_queue_size := max_queue_size bus;
     message_retention := message_retention bus;
     message_queues := message_queues bus;
     agents := agents bus;
     message_history := message_history bus;
     pending_responses := pending_responses bus;
     futures := f (futures bus);
     stats := stats bus;
     running := running bus;
     constructed := constructed bus |}.

Definition with_stats (f : Stats -> Stats) (bus : t) : t :=
  {| max_queue_size := max_queue_size bus;
     message_retention := message_retention bus;
     message_queues := message_queues bus;
     agents := agents bus;
     message_history := message_history bus;
     pending_responses := pending_responses bus;
     futures := futures bus;
     stats := f (stats bus);
     running := running bus;
     constructed := constructed bus |}.

Definition with_running (b : bool) (bus : t) : t :=
  {| max_queue_size := max_queue_size bus;
     message_retention := message_retention bus;
     message_queues := message_queues bus;
     agents := agents bus;
     message_history := message_history bus;
     pending_responses := pending_responses bus;
     futures := futures bus;
     stats := stats bus;
     running := b;
     constructed := constructed bus |}.

Definition with_constructed (n : nat) (bus : t) : t :=
  {| max_queue_size := max_queue_size bus;
     message_retention := message_retention bus;
     message_queues := message_queues bus;
     agents := agents bus;
     message_history := message_history bus;
     pending_responses := pending_responses bus;
     futures := futures bus;
     stats := stats bus;
     running := running bus;
     constructed := n |}.

(** [agent_id in self.agents] *)
Definition registered (agent_id : string) (bus : t) : bool :=
  bool_decide (agent_id ∈ (agents bus).*1).

(** [self.message_queues[agent_id]]: the entry, or the four empty deques
    that the [defaultdict] creates on first access. *)
Definition queues_of (agent_id : string) (bus : t) : queues :=
  default empty_queues (message_queues bus !! agent_id).

(** The state of the future object at an address. *)
Definition future_at (fid : nat) (bus : t) : Future :=
  default Pending (futures bus !! fid).

(** [deque(maxlen=n).append(x)] *)
Definition deque_append {A} (maxlen : nat) (x : A) (d : list A) : list A :=
  let d' := (d ++ [x])%list in drop (length d' - maxlen) d'.

(** [self.agents[agent_id] = message_handler] *)
Fixpoint assign (agent_id : string) (h : Handler) (l : list (string * Handler))
  : list (string * Handler) :=
  match l with
  | [] => [(agent_id, h)]
  | (a, h') :: l' =>
      if String.eqb agent_id a then (a, h) :: l'
      else (a, h') :: assign agent_id h l'
  end.

Definition register_agent (agent_id : string) (message_handler : Handler)
    (bus : t) : t :=
  with_agents (assign agent_id message_handler) bus.

Definition unregister_agent (agent_id : string) (bus : t) : t :=
  if registered agent_id bus then
    let bus :=
      with_agents (filter (fun '(a, _) => a ≠ agent_id)) bus in
    with_message_queues (delete agent_id) bus
  else bus.

Definition start (bus : t) : t :=
  if running bus then bus else with_running true bus.

(** [stop]: every future still referenced by [pending_responses] and not
    done is cancelled. *)
Definition stop (bus : t) : t :=
  if negb (running bus) then bus
  else
    let bus := with_running false bus in
    with_futures
      (fun fs =>
         foldr (fun '(_, fid) fs =>
                  if done (default Pending (fs !! fid)) then fs
                  else <[fid := Cancelled]> fs)
               fs (map_to_list (pending_responses bus)))
      bus.

Definition send_message (message : Message.t) (bus : t) : bool * t :=
  if negb (running bus) then (false, bus)
  else if negb (registered (Message.recipient message) bus) then (false, bus)
  else
    let recipient := Message.recipient message in
    let qs := queues_of recipient bus in
    let bus := with_message_queues <[recipient := qs]> bus in
    let total_queued := Z.of_nat (total qs) in
    if max_queue_size bus <=? total_queued then (false, bus)
    else
      let p := Message.priority message in
      let bus :=
        with_message_queues
          <[recipient := set_queue p (queue p qs ++ [message])%list qs]> bus in
      let bus :=
        with_message_history
          (deque_append (message_retention bus)
             {| History.message_id := Message.message_id message;
                History.sender := Message.sender message;
                History.recipient := recipient;
                History.message_type :=
                  MessageType_value (Message.message_type message);
                History.priority := TaskPriority_value p;
                History.timestamp := Message.timestamp message;
                History.status := "queued";
                History.delivery_time := None;
                History.error := None |})
          bus in
      let bus :=
        with_stats
          (fun st =>
             {| messages_sent := messages_sent st + 1;
                messages_delivered := messages_delivered st;
                messages_failed := messages_failed st;
                average_delivery_time := average_delivery_time st;
                queue_sizes := <[recipient := total_queued + 1]> (queue_sizes st) |})
          bus in
      (true, bus).

(** The messages of a list that go to the queue [p] of [r]. *)
Definition addressed (r : string) (p : TaskPriority) (copies : list Message.t)
  : list Message.t :=
  filter (fun c => Message.recipient c = r /\ Message.priority c = p) copies.

(** A caller that sends several messages, one call after the other. *)
Fixpoint send_messages (messages : list Message.t) (bus : t)
  : list bool * t :=
  match messages with
  | [] => ([], bus)
  | message :: messages' =>
      let '(sent, bus) := send_message message bus in
      let '(results, bus) := send_messages messages' bus in
      (sent :: results, bus)
  end.

(** The coroutine [send_request] has one suspension point, the
    [await asyncio.wait_for(response_future, timeout)].  [send_request_begin]
    runs up to it: either the call has returned, or it waits on the
    future it created. *)
Inductive suspended :=
| Returned (r : option Message.t)
| Awaiting (response_future : nat).

Definition send_request_begin (message : Message.t) (bus : t)
  : Message.t * suspended * t :=
  let message :=
    if negb (Message.requires_response message) then
      {| Message.message_id := Message.message_id message;
         Message.message_type := Message.message_type message;
         Message.sender := Message.sender message;
         Message.recipient := Message.recipient message;
         Message.content := Message.content message;
         Message.priority := Message.priority message;
         Message.timestamp := Message.timestamp message;
         Message.correlation_id := Message.correlation_id message;
         Message.requires_response := true |}
    else message in
  let response_future := fresh (dom (futures bus)) in
  let bus := with_futures <[response_future := Pending]> bus in
  let bus :=
    with_pending_responses
      <[Message.message_id message := response_future]> bus in
  let '(sent, bus) := send_message message bus in
  if negb sent then
    (message, Returned None,
     with_pending_responses (delete (Message.message_id message)) bus)
  else (message, Awaiting response_future, bus).

(** [asyncio.wait_for(response_future, timeout)] as the caller sees it
    when it is resumed in state [bus]: a future that is done gives its
    outcome; a future that is still pending means the timeout has elapsed,
    and [wait_for] cancels the future and raises [TimeoutError]. *)
Definition wait_for (response_future : nat) (bus : t)
  : result Message.t * t :=
  match future_at response_future bus with
  | Result m => (Ok m, bus)
  | Exception e => (Raise e, bus)
  | Cancelled => (Raise (MkExn "CancelledError" ""), bus)
  | Pending =>
      (Raise (MkExn "TimeoutError" ""),
       with_futures <[response_future := Cancelled]> bus)
  end.

(** The rest of [send_request], from the resumption on: the [try], its
    [except asyncio.TimeoutError] and its [finally]. *)
Definition send_request_end (message : Message.t) (response_future : nat)
    (bus : t) : result (option Message.t) * t :=
  let '(response, bus) := wait_for response_future bus in
  let outcome :=
    match response with
    | Ok response => Ok (Some response)
    | Raise e =>
        if String.eqb (exn_class e) "TimeoutError" then Ok None else Raise e
    end in
  let bus :=
    if bool_decide (Message.message_id message ∈ dom (pending_responses bus))
    then with_pending_responses (delete (Message.message_id message)) bus
    else bus in
  (outcome, bus).

(** [send_request], where [others] is what the delivery loop and the
    other tasks do to the bus while the call is suspended. *)
Definition send_request (message : Message.t) (others : t -> t) (bus : t)
  : result (option Message.t) * t :=
  match send_request_begin message bus with
  | (_, Returned r, bus) => (Ok r, bus)
  | (message, Awaiting response_future, bus) =>
      send_request_end message response_future (others bus)
  end.

(** The order in which [_get_next_message] visits the queues. *)
Definition priority_order : list TaskPriority := [CRITICAL; HIGH; MEDIUM; LOW].

Fixpoint pop_first (order : list TaskPriority) (qs : queues)
  : option (Message.t * queues) :=
  match order with
  | [] => None
  | p :: order' =>
      match queue p qs with
      | m :: q => Some (m, set_queue p q qs)
      | [] => pop_first order' qs
      end
  end.

(** The place of a priority in [priority_order]. *)
Definition rank (p : TaskPriority) : nat :=
  match p with
  | CRITICAL => 0
  | HIGH => 1
  | MEDIUM => 2
  | LOW => 3
  end.

(** Each queue holds messages of its own priority. *)
Definition by_priority (qs : queues) : Prop :=
  forall p m, m ∈ queue p qs -> Message.priority m = p.

Definition _get_next_message (agent_id : string) (bus : t)
  : option Message.t * t :=
  let qs := queues_of agent_id bus in
  match pop_first priority_order qs with
  | Some (m, qs') => (Some m, with_message_queues <[agent_id := qs']> bus)
  | None => (None, with_message_queues <[agent_id := qs]> bus)
  end.

(** The newest history entry of a message: the first match of
    [reversed(self.message_history)]. *)
Fixpoint update_first (id : string) (f : History.entry -> History.entry)
    (l : list History.entry) : list History.entry :=
  match l with
  | [] => []
  | e :: l' =>
      if String.eqb (History.message_id e) id then f e :: l'
      else e :: update_first id f l'
  end.

Definition update_newest (id : string) (f : History.entry -> History.entry)
    (l : list History.entry) : list History.entry :=
  rev (update_first id f (rev l)).

Definition set_status (status : string) (delivery_time : option Q)
    (error : option string) (e : History.entry) : History.entry :=
  {| History.message_id := History.message_id e;
     History.sender := History.sender e;
     History.recipient := History.recipient e;
     History.message_type := History.message_type e;
     History.priority := History.priority e;
     History.timestamp := History.timestamp e;
     History.status := status;
     History.delivery_time :=
       match delivery_time with Some d => Some d | None => History.delivery_time e end;
     History.error :=
       match error with Some x => Some x | None => History.error e end |}.

Definition _update_average_delivery_time (delivery_time : Q) (st : Stats)
  : Stats :=
  let current_avg := average_delivery_time st in
  let delivered_count := messages_delivered st in
  {| messages_sent := messages_sent st;
     messages_delivered := messages_delivered st;
     messages_failed := messages_failed st;
     average_delivery_time :=
       if delivered_count =? 1 then delivery_time
       else
         let alpha := (1 # 10)%Q in
         (alpha * delivery_time + (1 - alpha) * current_avg)%Q;
     queue_sizes := queue_sizes st |}.

Section Environment.

(** The default factories of [Message]: the id and the timestamp of the
    n-th message that the bus constructs. *)
Variable uuid4 : nat -> string.
Variable now : nat -> datetime.
(** The time a handler is measured to take on a message. *)
Variable elapsed : Message.t -> Q.

(** [future.set_result] / [future.set_exception] on the pending slot of
    a request, when there is one and it is not done. *)
Definition pending_slot (message : Message.t) (bus : t) : option nat :=
  if Message.requires_response message then
    match pending_responses bus !! Message.message_id message with
    | Some future => if done (future_at future bus) then None else Some future
    | None => None
    end
  else None.

Definition _deliver_message (message : Message.t) (handler : Handler)
    (bus : t) : t :=
  match handler message with
  | Ok response =>
      let delivery_time := elapsed message in
      let bus :=
        match pending_slot message bus with
        | Some future =>
            match response with
            | RMessage response =>
                with_futures <[future := Result response]> bus
            | RValue response =>
                let response_msg :=
                  {| Message.message_id := uuid4 (constructed bus);
                     Message.message_type := TASK_RESPONSE;
                     Message.sender := Message.recipient message;
                     Message.recipient := Message.sender message;
                     Message.content :=
                       if truthy response then [("response", response)]
                       else [];
                     Message.priority := MEDIUM;
                     Message.timestamp := now (constructed bus);
                     Message.correlation_id :=
                       Some (Message.message_id message);
                     Message.requires_response := false |} in
                with_futures <[future := Result response_msg]>
                  (with_constructed (S (constructed bus)) bus)
            end
        | None => bus
        end in
      let bus :=
        with_stats
          (fun st =>
             _update_average_delivery_time delivery_time
               {| messages_sent := messages_sent st;
                  messages_delivered := messages_delivered st + 1;
                  messages_failed := messages_failed st;
                  average_delivery_time := average_delivery_time st;
                  queue_sizes := queue_sizes st |})
          bus in
      with_message_history
        (update_newest (Message.message_id message)
           (set_status "delivered" (Some delivery_time) None))
        bus
  | Raise e =>
      let bus :=
        match pending_slot message bus with
        | Some future => with_futures <[future := Exception e]> bus
        | None => bus
        end in
      let bus :=
        with_stats
          (fun st =>
             {| messages_sent := messages_sent st;
                messages_delivered := messages_delivered st;
                messages_failed := messages_failed st + 1;
                average_delivery_time := average_delivery_time st;
                queue_sizes := queue_sizes st |})
          bus in
      with_message_history
        (update_newest (Message.message_id message)
           (set_status "failed" None (Some (str e))))
        bus
  end.

(** The body of the [for] loop of [_delivery_loop] for one agent: the
    message it delivered, if any, and the bus afterwards. *)
Definition deliver_next (agent_id : string) (handler : Handler) (bus : t)
  : option Message.t * t :=
  if bool_decide (agent_id ∈ dom (message_queues bus)) then
    match _get_next_message agent_id bus with
    | (Some message, bus) =>
        (Some message, _deliver_message message handler bus)
    | (None, bus) => (None, bus)
    end
  else (None, bus).

(** One pass of the [while] loop over [self.agents.items()]:
    [delivered_any] and the bus afterwards. *)
Definition delivery_pass (bus : t) : bool * t :=
  foldl
    (fun '(delivered_any, bus) '(agent_id, handler) =>
       match deliver_next agent_id handler bus with
       | (Some _, bus) => (true, bus)
       | (None, bus) => (delivered_any, bus)
       end)
    (false, bus) (agents bus).

(** [n] passes of [_delivery_loop]. *)
Fixpoint _delivery_loop (n : nat) (bus : t) : t :=
  match n with
  | O => bus
  | S n' =>
      if running bus then _delivery_loop n' (snd (delivery_pass bus))
      else bus
  end.

(** [Message(message_type=.., sender=.., recipient=agent_id,
    content=.., priority=.., correlation_id=..)]: the copy made for one
    recipient; the other fields take their defaults. *)
Definition broadcast_msg (n : nat) (message : Message.t) (agent_id : string)
  : Message.t :=
  {| Message.message_id := uuid4 n;
     Message.message_type := Message.message_type message;
     Message.sender := Message.sender message;
     Message.recipient := agent_id;
     Message.content := Message.content message;
     Message.priority := Message.priority message;
     Message.timestamp := now n;
     Message.correlation_id := Message.correlation_id message;
     Message.requires_response := false |}.

Fixpoint broadcast_loop (message : Message.t) (exclude : gset string)
    (ids : list string) (sent_count : nat) (bus : t) : nat * t :=
  match ids with
  | [] => (sent_count, bus)
  | agent_id :: ids' =>
      if bool_decide (agent_id ∉ exclude)
         && negb (String.eqb agent_id (Message.sender message)) then
        let copy := broadcast_msg (constructed bus) message agent_id in
        let bus := with_constructed (S (constructed bus)) bus in
        let '(sent, bus) := send_message copy bus in
        broadcast_loop message exclude ids'
          (if sent then S sent_count else sent_count) bus
      else broadcast_loop message exclude ids' sent_count bus
  end.

Definition broadcast_message (message : Message.t) (exclude : gset string)
    (bus : t) : nat * t :=
  broadcast_loop message exclude (agents bus).*1 O bus.

End Environment.

(** [history[-limit:]] *)
Definition last_slice {A} (limit : Z) (history : list A) : list A :=
  if 0 <? limit then drop (length history - Z.to_nat limit) history
  else drop (Z.to_nat (- limit)) history.

(** [get_message_history]: [agent_id] is [None] or a string; an empty
    string, like [None], selects every entry. *)
Definition get_message_history (agent_id : option string) (limit : Z) (bus : t)
  : list History.entry :=
  let history := message_history bus in
  let history :=
    match agent_id with
    | Some a =>
        if String.eqb a "" then history
        else filter (fun msg => History.sender msg = a
                                \/ History.recipient msg = a) history
    | None => history
    end in
  last_slice limit history.

(** ** Runs of the bus

    The calls that clients and the event loop make on a bus, taken one at
    a time.  A [send_request] contributes two steps, the part before its
    [await] and the part after it, with any other steps in between. *)
Inductive operation :=
| Start
| Stop
| Register (agent_id : string) (message_handler : Handler)
| Unregister (agent_id : string)
| Send (message : Message.t)
| Broadcast (message : Message.t) (exclude : gset string)
| RequestBegin (message : Message.t)
| RequestEnd (message : Message.t) (response_future : nat)
| DeliveryPass.

(** Each recipient holds no more messages than the cap. *)
Definition within_cap (bus : t) : Prop :=
  forall r, Z.of_nat (total (queues_of r bus)) <= max_queue_size bus.

(** The history holds no more entries than [message_retention]. *)
Definition history_bounded (bus : t) : Prop :=
  (length (message_history bus) <= message_retention bus)%nat.

(** A queued message sits in the queue of its own recipient and priority,
    and its recipient is registered. *)
Definition well_placed (bus : t) : Prop :=
  forall r p m,
    m ∈ queue p (queues_of r bus) ->
    Message.recipient m = r /\ Message.priority m = p
    /\ registered r bus = true.

(** The four queues of a recipient in the order of delivery. *)
Definition in_delivery_order (qs : queues) : list Message.t :=
  (critical qs ++ high qs ++ medium qs ++ low qs)%list.

(** The [total_queue_size] of [health_check]: the messages queued for all
    recipients together. *)
Definition add_queued (agent_id : string) (qs : queues) (n : nat) : nat :=
  (total qs + n)%nat.

Definition total_queue_size (bus : t) : nat :=
  map_fold add_queued 0%nat (message_queues bus).

(** Every message counted as delivered, as failed or still queued was
    counted as sent. *)
Definition accounted (bus : t) : Prop :=
  0 <= messages_delivered (stats bus)
  /\ 0 <= messages_failed (stats bus)
  /\ messages_delivered (stats bus) + messages_failed (stats bus)
     + Z.of_nat (total_queue_size bus)
     <= messages_sent (stats bus).

Section Runs.

Variable uuid4 : nat -> string.
Variable now : nat -> datetime.
Variable elapsed : Message.t -> Q.

Definition perform (o : operation) (bus : t) : t :=
  match o with
  | Start => start bus
  | Stop => stop bus
  | Register agent_id message_handler =>
      register_agent agent_id message_handler bus
  | Unregister agent_id => unregister_agent agent_id bus
  | Send message => (send_message message bus).2
  | Broadcast message exclude =>
      (broadcast_message uuid4 now message exclude bus).2
  | RequestBegin message => (send_request_begin message bus).2
  | RequestEnd message response_future =>
      (send_request_end message response_future bus).2
  | DeliveryPass => (delivery_pass uuid4 now elapsed bus).2
  end.

Definition run (operations : list operation) (bus : t) : t :=
  foldl (fun bus o => perform o bus) bus operations.

(** [n] consecutive steps of the delivery loop for one recipient: the
    messages handed to the handler, in order, and the bus afterwards. *)
Fixpoint deliver_many (n : nat) (agent_id : string) (handler : Handler)
    (bus : t) : list Message.t * t :=
  match n with
  | O => ([], bus)
  | S n' =>
      match deliver_next uuid4 now elapsed agent_id handler bus with
      | (Some message, bus) =>
          let '(messages, bus) := deliver_many n' agent_id handler bus in
          (message :: messages, bus)
      | (None, bus) => ([], bus)
      end
  end.

End Runs.

End MessageBus.

(** ** Operations on values of type [Any] *)

(** [v[k]] for a string key: a [KeyError] on a dictionary without the key,
    a [TypeError] on anything that is not a dictionary. *)
Definition subscript (v : value) (k : string) : result value :=
  match v with
  | VDict d =>
      match dict_get k d with
      | Some x => Ok x
      | None => Raise (MkExn "KeyError" (String "'" (k +:+ "'")))
      end
  | _ => Raise (MkExn "TypeError" "indices must be integers or the object is not subscriptable")
  end.

(** [v.get(k, default)]: an [AttributeError] on anything that is not a
    dictionary. *)
Definition get (v : value) (k : string) (default_ : value) : result value :=
  match v with
  | VDict d => Ok (default default_ (dict_get k d))
  | _ => Raise (MkExn "AttributeError" "object has no attribute 'get'")
  end.

(** [len(v)] *)
Definition len (v : value) : result nat :=
  match v with
  | VStr s => Ok (String.length s)
  | VList l => Ok (length l)
  | VDict d => Ok (length d)
  | _ => Raise (MkExn "TypeError" "object has no len()")
  end.

(** ** Agent pipeline ([src/core/base_agent.py]) *)

Module AutomatedChecks.
(** The dictionary that [_perform_automated_checks] returns. *)
Record t := {
  score : Q;
  issues : list string;
  suggestions : list string;
  checks_performed : list (string * bool)
}.
End AutomatedChecks.

(** Objects stored in a [metadata] dictionary are shown by their fields. *)
Definition strings (l : list string) : value := VList (VStr <$> l).

Definition ReviewResult_value (r : ReviewResult.t) : value :=
  VDict [("approved", VBool (ReviewResult.approved r));
         ("score", VFloat (FFinite (ReviewResult.score r)));
         ("issues", strings (ReviewResult.issues r));
         ("suggestions", strings (ReviewResult.suggestions r));
         ("strengths", strings (ReviewResult.strengths r));
         ("metadata", ReviewResult.metadata r)].

Definition AutomatedChecks_value (a : AutomatedChecks.t) : value :=
  VDict [("score", VFloat (FFinite (AutomatedChecks.score a)));
         ("issues", strings (AutomatedChecks.issues a));
         ("suggestions", strings (AutomatedChecks.suggestions a));
         ("checks_performed",
          VDict (prod_map id VBool <$> AutomatedChecks.checks_performed a))].

Module BaseOrchestrator.
Section Orchestrator.

(** The collaborators of an orchestrator: [json.loads]; the model
    invocation service ([LLMClient.generate_response]); the text of the
    two prompts; the abstract method that a concrete orchestrator
    supplies. *)
Variable loads : string -> option value.
Variable generate_response : LLMRequest.t -> result LLMResponse.t.
Variable validation_prompt : Task.t -> value -> string.
Variable revision_prompt : value -> value -> Task.t -> string.
Variable _create_execution_plan : Task.t -> value -> result value.

Definition default_validation : value :=
  VDict [("valid", VBool true); ("confidence", VFloat (FFinite (1 # 2)));
         ("issues", VList []); ("suggestions", VList [])].

Definition _validate_execution_plan (plan : value) (task : Task.t)
  : result value :=
  response ← generate_response
    {| LLMRequest.prompt := validation_prompt task plan;
       LLMRequest.system_prompt :=
         Some "You are an expert at validating technical execution plans.";
       LLMRequest.max_tokens := 1000 |};
  if LLMResponse.success response then
    try_except (LLMClient.parse_structured_response loads response "json")
      (fun _ => Ok default_validation)
  else Ok default_validation.

Definition _revise_execution_plan (original_plan issues : value)
    (task : Task.t) (context : value) : result value :=
  response ← generate_response
    {| LLMRequest.prompt := revision_prompt original_plan issues task;
       LLMRequest.system_prompt :=
         Some "You are an expert at creating robust execution plans.";
       LLMRequest.max_tokens := 2000 |};
  if LLMResponse.success response then
    try_except (LLMClient.parse_structured_response loads response "json")
      (fun _ => Ok original_plan)
  else Ok original_plan.

Definition orchestrate (task : Task.t) (context : value) : result value :=
  try_except
    (execution_plan ← _create_execution_plan task context;
     validation_result ← _validate_execution_plan execution_plan task;
     valid ← subscript validation_result "valid";
     execution_plan ←
       (if negb (truthy valid) then
          issues ← subscript validation_result "issues";
          _revise_execution_plan execution_plan issues task context
        else Ok execution_plan);
     estimated_duration ← get execution_plan "estimated_duration" (VInt 300);
     required_resources ← get execution_plan "required_resources" (VList []);
     success_criteria ← get execution_plan "success_criteria" (VList []);
     quality_gates ← get execution_plan "quality_gates" (VList []);
     Ok (VDict [("execution_plan", execution_plan);
                ("estimated_duration", estimated_duration);
                ("required_resources", required_resources);
                ("success_criteria", success_criteria);
                ("quality_gates", quality_gates)]))
    (fun e =>
       Ok (VDict [("execution_plan",
                   VDict [("error", VStr ("Orchestration failed: " +:+ str e))]);
                  ("estimated_duration", VInt 0);
                  ("success", VBool false)])).

End Orchestrator.
End BaseOrchestrator.

Module BaseExecutor.
Section Executor.

Variable _execute_task : Task.t -> value -> value -> result value.
Variable agent_id : string.
(** What [time.time() - start_time] measures. *)
Variable execution_time : Q.

Definition execute (task : Task.t) (execution_plan context : value)
  : result value :=
  try_except
    (result ← _execute_task task execution_plan context;
     Ok (VDict [("result", result);
                ("execution_time", VFloat (FFinite execution_time));
                ("success", VBool true);
                ("metadata",
                 VDict [("agent_id", VStr agent_id);
                        ("task_id", Task.task_id task);
                        ("execution_plan_used", execution_plan)])]))
    (fun e =>
       Ok (VDict [("result", VDict []);
                  ("execution_time", VInt 0);
                  ("success", VBool false);
                  ("error", VStr (str e));
                  ("metadata",
                   VDict [("agent_id", VStr agent_id);
                          ("task_id", Task.task_id task)])])).

End Executor.
End BaseExecutor.

Module BaseReviewer.
Section Reviewer.

Variable _review_result : Task.t -> value -> value -> result ReviewResult.t.
Variable agent_id : string.

(** [sum(checks.values()) / len(checks)] *)
Definition checks_score (checks : list (string * bool)) : Q :=
  Qmake (Z.of_nat (length (filter (fun c => Is_true c.2) checks)))
        (Pos.of_nat (length checks)).

Definition _perform_automated_checks (execution_result : value)
  : result AutomatedChecks.t :=
  result ← get execution_result "result" (VDict []);
  n ← len result;
  has_success_flag ←
    (match execution_result with
     | VDict d => Ok (bool_decide (is_Some (dict_get "success" d)))
     | _ => Raise (MkExn "TypeError" "argument is not iterable")
     end);
  error ← get execution_result "error" VNone;
  let checks :=
    [("has_result", bool_decide (0 < n)%nat);
     ("has_success_flag", has_success_flag);
     ("no_errors", match error with VNone => true | _ => false end)] in
  let issues :=
    (fun c => "Failed check: " +:+ c.1)
      <$> filter (fun c => ¬ Is_true c.2) checks in
  Ok {| AutomatedChecks.score := checks_score checks;
        AutomatedChecks.issues := issues;
        AutomatedChecks.suggestions :=
          match issues with
          | [] => []
          | _ => ["Address failed automated checks"]
          end;
        AutomatedChecks.checks_performed := checks |}.

Definition review (task : Task.t) (execution_result context : value)
  : result ReviewResult.t :=
  try_except
    (review_result ← _review_result task execution_result context;
     automated_checks ← _perform_automated_checks execution_result;
     let final_score :=
       ((ReviewResult.score review_result
         + AutomatedChecks.score automated_checks) / 2)%Q in
     let all_issues :=
       (ReviewResult.issues review_result
        ++ AutomatedChecks.issues automated_checks)%list in
     let all_suggestions :=
       (ReviewResult.suggestions review_result
        ++ AutomatedChecks.suggestions automated_checks)%list in
     Ok {| ReviewResult.approved :=
             ReviewResult.approved review_result
             && (length all_issues =? 0)%nat;
           ReviewResult.score := final_score;
           ReviewResult.issues := all_issues;
           ReviewResult.suggestions := all_suggestions;
           ReviewResult.strengths := ReviewResult.strengths review_result;
           ReviewResult.metadata :=
             VDict [("reviewer_id", VStr agent_id);
                    ("task_id", Task.task_id task);
                    ("llm_review", ReviewResult.metadata review_result);
                    ("automated_checks",
                     AutomatedChecks_value automated_checks)] |})
    (fun e =>
       Ok {| ReviewResult.approved := false;
             ReviewResult.score := 0;
             ReviewResult.issues := ["Review process failed: " +:+ str e];
             ReviewResult.suggestions := ["Retry the review process"];
             ReviewResult.strengths := [];
             ReviewResult.metadata := VDict [("error", VStr (str e))] |}).

End Reviewer.
End BaseReviewer.

Module BaseAgent.
Section Agent.

(** The methods of the three components that [_create_orchestrator],
    [_create_executor] and [_create_reviewer] supply: those of the base
    classes above, or what a subclass puts in their place. *)
Variable orchestrate : Task.t -> value -> result value.
Variable execute : Task.t -> value -> value -> result value.
Variable review : Task.t -> value -> value -> result ReviewResult.t.
Variable agent_id : string.
Variable role : AgentRole.
(** What [time.time() - start_time] measures at the return. *)
Variable total_time : Q.

(** [AgentResponse(success=False, error=.., execution_time=..)] and, with
    [metadata], the response of the [except] branch; the other fields
    take their defaults. *)
Definition failed (error : value) (metadata : value) : AgentResponse.t :=
  {| AgentResponse.success := false;
     AgentResponse.result := VDict [];
     AgentResponse.error := error;
     AgentResponse.feedback := [];
     AgentResponse.confidence := 1;
     AgentResponse.execution_time := Some total_time;
     AgentResponse.metadata := metadata;
     AgentResponse.suggestions := [] |}.

(** The response and [self.status] at the return. *)
Definition process_task (task : Task.t) (context : value)
  : result (AgentResponse.t * TaskStatus) :=
  try_except
    (orchestration_result ← orchestrate task context;
     plan ← get orchestration_result "execution_plan" VNone;
     if negb (truthy plan) then
       Ok (failed (VStr "Orchestration failed to create execution plan")
             (VDict []),
           IN_PROGRESS)
     else
       plan ← subscript orchestration_result "execution_plan";
       execution_result ← execute task plan context;
       succeeded ← get execution_result "success" (VBool false);
       if negb (truthy succeeded) then
         error ← get execution_result "error" (VStr "Execution failed");
         Ok (failed error (VDict []), IN_PROGRESS)
       else
         review_result ← review task execution_result context;
         let approved := ReviewResult.approved review_result in
         result ← get execution_result "result" (VDict []);
         execution ← get execution_result "execution_time" (VInt 0);
         Ok ({| AgentResponse.success := approved;
                AgentResponse.result := result;
                AgentResponse.error :=
                  if approved then VNone else VStr "Quality review failed";
                AgentResponse.feedback :=
                  (ReviewResult.issues review_result
                   ++ ReviewResult.suggestions review_result)%list;
                AgentResponse.confidence := ReviewResult.score review_result;
                AgentResponse.execution_time := Some total_time;
                AgentResponse.metadata :=
                  VDict [("agent_id", VStr agent_id);
                         ("agent_role", VStr (AgentRole_value role));
                         ("task_id", Task.task_id task);
                         ("orchestration", orchestration_result);
                         ("execution", execution_result);
                         ("review", ReviewResult_value review_result);
                         ("workflow_times",
                          VDict [("total", VFloat (FFinite total_time));
                                 ("execution", execution)])];
                AgentResponse.suggestions :=
                  ReviewResult.suggestions review_result |},
             if approved then COMPLETED else FAILED))
    (fun e =>
       Ok (failed (VStr ("Agent processing failed: " +:+ str e))
             (VDict [("agent_id", VStr agent_id);
                     ("task_id", Task.task_id task)]),
           FAILED)).

End Agent.
End BaseAgent.

(** ** [datetime.isoformat] and [datetime.fromisoformat] *)

Definition is_leap (y : N) : bool :=
  ((y mod 4 =? 0) && negb (y mod 100 =? 0) || (y mod 400 =? 0))%N.

Definition days_in_month (y m : N) : N :=
  (if m =? 2 then (if is_leap y then 29 else 28)
   else if (m =? 4) || (m =? 6) || (m =? 9) || (m =? 11) then 30
   else 31)%N.

(** The ranges that the [datetime] constructor enforces. *)
Definition valid_datetime (d : datetime) : bool :=
  ((1 <=? year d) && (year d <=? 9999)
   && (1 <=? month d) && (month d <=? 12)
   && (1 <=? day d) && (day d <=? days_in_month (year d) (month d))
   && (hour d <? 24) && (minute d <? 60) && (second d <? 60)
   && (microsecond d <? 1000000))%N.

(** The last [width] decimal digits of [n], in front of [rest]. *)
Fixpoint zero_padded (width : nat) (n : N) (rest : string) : string :=
  match width with
  | O => rest
  | S w =>
      zero_padded w (n / 10)%N (String (ascii_of_N (48 + n mod 10)%N) rest)
  end.

(** ["%04d-%02d-%02dT%02d:%02d:%02d"], followed by [".%06d"] when the
    microsecond is not zero. *)
Definition isoformat (d : datetime) : string :=
  zero_padded 4 (year d) (String "-"
    (zero_padded 2 (month d) (String "-"
      (zero_padded 2 (day d) (String "T"
        (zero_padded 2 (hour d) (String ":"
          (zero_padded 2 (minute d) (String ":"
            (zero_padded 2 (second d)
              (if (microsecond d =? 0)%N then EmptyString
               else String "." (zero_padded 6 (microsecond d) EmptyString)
              ))))))))))).

(** Exactly [width] decimal digits, read after [acc]. *)
Fixpoint read_digits (width : nat) (s : string) (acc : N)
  : option (N * string) :=
  match width with
  | O => Some (acc, s)
  | S w =>
      match s with
      | String c s' =>
          let n := N_of_ascii c in
          if ((48 <=? n) && (n <=? 57))%N then
            read_digits w s' (10 * acc + (n - 48))%N
          else None
      | EmptyString => None
      end
  end.

Definition expect (c : ascii) (s : string) : option string :=
  match s with
  | String c' s' => if Ascii.eqb c c' then Some s' else None
  | EmptyString => None
  end.

(** [datetime.fromisoformat] on the two layouts that [isoformat] produces
    for a naive [datetime]; [None] stands for the [ValueError].  (Python
    accepts further layouts, which no function below produces.) *)
Definition fromisoformat (s : string) : option datetime :=
  '(y, s) ← read_digits 4 s 0%N;
  s ← expect "-" s;
  '(mo, s) ← read_digits 2 s 0%N;
  s ← expect "-" s;
  '(d, s) ← read_digits 2 s 0%N;
  s ← expect "T" s;
  '(h, s) ← read_digits 2 s 0%N;
  s ← expect ":" s;
  '(mi, s) ← read_digits 2 s 0%N;
  s ← expect ":" s;
  '(se, s) ← read_digits 2 s 0%N;
  '(us, s) ←
    (match s with
     | EmptyString => Some (0%N, s)
     | String _ _ => s ← expect "." s; read_digits 6 s 0%N
     end);
  let d := {| year := y; month := mo; day := d; hour := h; minute := mi;
              second := se; microsecond := us |} in
  match s with
  | EmptyString => if valid_datetime d then Some d else None
  | String _ _ => None
  end.

(** ** Protocol helpers ([src/communication/protocols.py]) *)

(** An [AgentResponse] as [extract_agent_response_from_message] builds
    it: the constructor checks no type, so each field holds whatever the
    message carried. *)
Module ReceivedResponse.
Record t := {
  success : value;
  result : value;
  error : value;
  feedback : value;
  confidence : value;
  execution_time : value;
  metadata : value;
  suggestions : value
}.
End ReceivedResponse.

(** The dictionary that [validate_message_format] returns. *)
Module Validation.
Record t := {
  valid : bool;
  issues : list string;
  warnings : list string;
  message_id : string;
  message_type : string
}.
End Validation.

Module ProtocolHelper.

Definition optional {A} (f : A -> value) (o : option A) : value :=
  match o with
  | Some a => f a
  | None => VNone
  end.

(** [message_id] and [timestamp] are what the default factories of
    [Message] draw for the new message. *)
Definition create_task_request (message_id : string) (timestamp : datetime)
    (sender recipient : string) (task : Task.t) (priority : TaskPriority)
    (correlation_id : option string) : Message.t :=
  let content :=
    [("task",
      VDict [("task_id", Task.task_id task);
             ("title", Task.title task);
             ("description", Task.description task);
             ("requirements", Task.requirements task);
             ("priority", VStr (TaskPriority_value (Task.priority task)));
             ("required_agent_role",
              optional (fun r => VStr (AgentRole_value r))
                (Task.required_agent_role task));
             ("dependencies", Task.dependencies task);
             ("metadata", Task.metadata task);
             ("context", Task.context task);
             ("created_at", VStr (isoformat (Task.created_at task)));
             ("deadline",
              optional (fun d => VStr (isoformat d)) (Task.deadline task))]);
     ("message_version", VStr "1.0");
     ("protocol", VStr "task_request")] in
  {| Message.message_id := message_id;
     Message.message_type := TASK_REQUEST;
     Message.sender := sender;
     Message.recipient := recipient;
     Message.content := content;
     Message.priority := priority;
     Message.timestamp := timestamp;
     Message.correlation_id := correlation_id;
     Message.requires_response := true |}.

(** Inside the [try] of [extract_task_from_message] every exception leads
    to [return None]: the steps are written in the option monad. *)
Definition item (task_data : value) (k : string) : option value :=
  match subscript task_data k with
  | Ok v => Some v
  | Raise _ => None
  end.

Definition get_ (task_data : value) (k : string) (default_ : value)
  : option value :=
  match get task_data k default_ with
  | Ok v => Some v
  | Raise _ => None
  end.

Definition parse_datetime (v : value) : option datetime :=
  match v with
  | VStr s => fromisoformat s
  | _ => None
  end.

Definition extract_task_from_message (message : Message.t) : option Task.t :=
  if bool_decide (Message.message_type message ≠ TASK_REQUEST) then None
  else
    let task_data :=
      default (VDict []) (dict_get "task" (Message.content message)) in
    created_at ← item task_data "created_at" ≫= parse_datetime;
    deadline_field ← get_ task_data "deadline" VNone;
    deadline ←
      (if truthy deadline_field then
         d ← item task_data "deadline" ≫= parse_datetime; Some (Some d)
       else Some None);
    priority ← get_ task_data "priority" (VStr "medium")
                 ≫= TaskPriority_of_value;
    role_field ← get_ task_data "required_agent_role" VNone;
    required_agent_role ←
      (if truthy role_field then
         r ← item task_data "required_agent_role" ≫= AgentRole_of_value;
         Some (Some r)
       else Some None);
    task_id ← item task_data "task_id";
    title ← item task_data "title";
    description ← item task_data "description";
    requirements ← get_ task_data "requirements" (VList []);
    dependencies ← get_ task_data "dependencies" (VList []);
    metadata ← get_ task_data "metadata" (VDict []);
    context ← get_ task_data "context" (VDict []);
    Some {| Task.task_id := task_id;
            Task.title := title;
            Task.description := description;
            Task.requirements := requirements;
            Task.priority := priority;
            Task.required_agent_role := required_agent_role;
            Task.dependencies := dependencies;
            Task.metadata := metadata;
            Task.created_at := created_at;
            Task.deadline := deadline;
            Task.context := context |}.

(** The fields of an [AgentResponse] as the values that
    [create_task_response] writes into the message. *)
Definition received (agent_response : AgentResponse.t) : ReceivedResponse.t :=
  {| ReceivedResponse.success := VBool (AgentResponse.success agent_response);
     ReceivedResponse.result := AgentResponse.result agent_response;
     ReceivedResponse.error := AgentResponse.error agent_response;
     ReceivedResponse.feedback :=
       strings (AgentResponse.feedback agent_response);
     ReceivedResponse.confidence :=
       VFloat (FFinite (AgentResponse.confidence agent_response));
     ReceivedResponse.execution_time :=
       optional (fun t => VFloat (FFinite t))
         (AgentResponse.execution_time agent_response);
     ReceivedResponse.metadata := AgentResponse.metadata agent_response;
     ReceivedResponse.suggestions :=
       strings (AgentResponse.suggestions agent_response) |}.

Definition create_task_response (message_id : string) (timestamp : datetime)
    (sender recipient : string) (agent_response : AgentResponse.t)
    (task_id : value) (correlation_id : option string) : Message.t :=
  let r := received agent_response in
  let content :=
    [("task_id", task_id);
     ("response",
      VDict [("success", ReceivedResponse.success r);
             ("result", ReceivedResponse.result r);
             ("error", ReceivedResponse.error r);
             ("feedback", ReceivedResponse.feedback r);
             ("confidence", ReceivedResponse.confidence r);
             ("execution_time", ReceivedResponse.execution_time r);
             ("metadata", ReceivedResponse.metadata r);
             ("suggestions", ReceivedResponse.suggestions r)]);
     ("message_version", VStr "1.0");
     ("protocol", VStr "task_response")] in
  {| Message.message_id := message_id;
     Message.message_type := TASK_RESPONSE;
     Message.sender := sender;
     Message.recipient := recipient;
     Message.content := content;
     Message.priority := MEDIUM;
     Message.timestamp := timestamp;
     Message.correlation_id := correlation_id;
     Message.requires_response := false |}.

Definition extract_agent_response_from_message (message : Message.t)
  : option ReceivedResponse.t :=
  if bool_decide (Message.message_type message ≠ TASK_RESPONSE) then None
  else
    let response_data :=
      default (VDict []) (dict_get "response" (Message.content message)) in
    success ← get_ response_data "success" (VBool false);
    result ← get_ response_data "result" (VDict []);
    error ← get_ response_data "error" VNone;
    feedback ← get_ response_data "feedback" (VList []);
    confidence ← get_ response_data "confidence" (VFloat (FFinite 1));
    execution_time ← get_ response_data "execution_time" VNone;
    metadata ← get_ response_data "metadata" (VDict []);
    suggestions ← get_ response_data "suggestions" (VList []);
    Some {| ReceivedResponse.success := success;
            ReceivedResponse.result := result;
            ReceivedResponse.error := error;
            ReceivedResponse.feedback := feedback;
            ReceivedResponse.confidence := confidence;
            ReceivedResponse.execution_time := execution_time;
            ReceivedResponse.metadata := metadata;
            ReceivedResponse.suggestions := suggestions |}.

(** [k in v] for a string [k]: a key of a dictionary, an item of a list,
    a part of a string; a [TypeError] on anything else. *)
Definition contains_key (k : string) (v : value) : result bool :=
  match v with
  | VDict d => Ok (match dict_get k d with Some _ => true | None => false end)
  | VList l =>
      Ok (existsb (fun x => match x with
                            | VStr s => String.eqb s k
                            | _ => false
                            end) l)
  | VStr s => Ok (LLMClient.contains k s)
  | _ => Raise (MkExn "TypeError" "argument is not iterable")
  end.

(** [validate_message_format].  [dumps] is [json.dumps] and [str_] is
    [str] on the value under ["message_version"]. *)
Definition validate_message_format (dumps : value -> result string)
    (str_ : value -> string) (message : Message.t) : result Validation.t :=
  let content := Message.content message in
  let issues : list string := [] in
  let warnings : list string := [] in
  let issues :=
    if String.eqb (Message.sender message) "" then
      (issues ++ ["Missing sender"])%list
    else issues in
  let issues :=
    if String.eqb (Message.recipient message) "" then
      (issues ++ ["Missing recipient"])%list
    else issues in
  let warnings :=
    match content with
    | [] => (warnings ++ ["Empty content"])%list
    | _ => warnings
    end in
  let warnings :=
    match dict_get "message_version" content with
    | Some version =>
        if match version with VStr s => String.eqb s "1.0" | _ => false end
        then warnings
        else
          (warnings ++ ["Unsupported message version: " +:+ str_ version])%list
    | None => warnings
    end in
  issues ←
    match Message.message_type message return result (list string) with
    | TASK_REQUEST =>
        match dict_get "task" content with
        | None => Ok (issues ++ ["Task request missing task data"])%list
        | Some task =>
            match contains_key "task_id" task with
            | Ok true => Ok issues
            | Ok false => Ok (issues ++ ["Task request missing task_id"])%list
            | Raise e => Raise e
            end
        end
    | TASK_RESPONSE =>
        match dict_get "response" content with
        | None => Ok (issues ++ ["Task response missing response data"])%list
        | Some response =>
            match contains_key "success" response with
            | Ok true => Ok issues
            | Ok false =>
                Ok (issues ++ ["Task response missing success flag"])%list
            | Raise e => Raise e
            end
        end
    | _ => Ok issues
    end;
  let warnings :=
    match dumps (VDict content) with
    | Ok text =>
        let message_size := String.length text in
        if 100000 <? Z.of_nat message_size then
          (warnings
           ++ ["Large message size: " +:+ pretty message_size +:+ " bytes"])%list
        else warnings
    | Raise _ => (warnings ++ ["Could not determine message size"])%list
    end in
  Ok {| Validation.valid := match issues with [] => true | _ => false end;
        Validation.issues := issues;
        Validation.warnings := warnings;
        Validation.message_id := Message.message_id message;
        Validation.message_type :=
          MessageType_value (Message.message_type message) |}.

End ProtocolHelper.

(** [s.replace(old, new)] for a pattern [old] that is not empty: the
    occurrences of [old] are replaced from left to right, without
    overlap.  [skip] counts the characters of a replaced occurrence that
    are still to be passed over. *)
Fixpoint replace_skip (old new : string) (skip : nat) (s : string) : string :=
  match s with
  | EmptyString => EmptyString
  | String c s' =>
      match skip with
      | S skip' => replace_skip old new skip' s'
      | O =>
          if String.prefix old s then
            new +:+ replace_skip old new (String.length old - 1) s'
          else String c (replace_skip old new O s')
      end
  end.

Definition replace (old new s : string) : string := replace_skip old new 0 s.

(** Every position of [s] at which [pattern] begins is a position at
    which [old] begins. *)
Fixpoint covered (pattern old s : string) : bool :=
  match s with
  | EmptyString => true
  | String c s' =>
      implb (String.prefix pattern s) (String.prefix old s)
      && covered pattern old s'
  end.

Module MessageValidator.

(** What [sanitize_content] stores under a key. *)
Fixpoint sanitized (v : value) : value :=
  match v with
  | VStr s =>
      VStr (replace "</script>" "&lt;/script&gt;"
              (replace "<script" "&lt;script" s))
  | VDict d => VDict (List.map (fun '(key, x) => (key, sanitized x)) d)
  | VList l =>
      VList
        (List.map
           (fun item =>
              match item with
              | VDict d =>
                  VDict (List.map (fun '(key, x) => (key, sanitized x)) d)
              | VStr s => VStr (replace "<script" "&lt;script" s)
              | _ => item
              end)
           l)
  | _ => v
  end.

Definition sanitize_content (content : list (string * value))
  : list (string * value) :=
  List.map (fun '(key, x) => (key, sanitized x)) content.

(** The strings that [sanitize_content] reaches hold no opening script
    tag: the strings under a key of the content or of a dictionary
    inside it, and the strings that are items of a list under a key. *)
Fixpoint script_free (v : value) : bool :=
  match v with
  | VStr s => negb (LLMClient.contains "<script" s)
  | VDict d => forallb (fun '(_, x) => script_free x) d
  | VList l =>
      forallb
        (fun item =>
           match item with
           | VDict d => forallb (fun '(_, x) => script_free x) d
           | VStr s => negb (LLMClient.contains "<script" s)
           | _ => true
           end)
        l
  | _ => true
  end.

End MessageValidator.

(** ** The domain advisor ([src/agents/domain_advisor/domain_advisor.py]) *)

(** [d.update(other)] for a dictionary [other]. *)
Definition dict_update (d : list (string * value)) (other : value)
  : result (list (string * value)) :=
  match other with
  | VDict entries => Ok (foldl (fun d '(k, v) => dict_set k v d) d entries)
  | _ => Raise (MkExn "TypeError" "object is not iterable")
  end.

Module DomainAdvisor.
Section Components.

(** The collaborators: [json.loads], the model invocation service, and
    the texts that the prompt templates format to. *)
Variable loads : string -> option value.
Variable generate_response : LLMRequest.t -> result LLMResponse.t.
Variable ORCHESTRATOR_SYSTEM_PROMPT : string.
Variable EXECUTOR_SYSTEM_PROMPT : string.
Variable planning_prompt : Task.t -> value -> value -> value -> string.
Variable domain_analysis_prompt : value -> value -> value -> string.
Variable requirements_analysis_prompt : value -> value -> string.
Variable technical_specification_prompt : value -> value -> string.

Definition _create_fallback_plan : value :=
  VDict
    [("analysis_type", VStr "general_analysis");
     ("focus_areas",
      strings ["domain_modeling"; "requirements_analysis"; "technical_specs"]);
     ("extraction_steps",
      VList
        [VDict [("step", VStr "domain_analysis");
                ("description",
                 VStr "Extract entities, relationships, and business rules");
                ("outputs", strings ["domain_model"])];
         VDict [("step", VStr "requirements_analysis");
                ("description", VStr "Categorize and analyze requirements");
                ("outputs",
                 strings ["functional_requirements";
                          "non_functional_requirements"])];
         VDict [("step", VStr "technical_specification");
                ("description", VStr "Create technical specifications");
                ("outputs", strings ["technical_specifications"])]]);
     ("quality_gates",
      strings ["completeness_check"; "consistency_validation"]);
     ("estimated_duration", VInt 15);
     ("required_resources",
      strings ["business_requirements"; "domain_context"])].

(** [DomainAdvisorOrchestrator._create_execution_plan] *)
Definition _create_execution_plan (task : Task.t) (context : value)
  : result value :=
  domain ← get (Task.metadata task) "domain" (VStr "general");
  stakeholders ← get (Task.metadata task) "stakeholders" (VList []);
  compliance_needs ← get (Task.metadata task) "compliance_needs" (VList []);
  response ← generate_response
    {| LLMRequest.prompt :=
         planning_prompt task domain stakeholders compliance_needs;
       LLMRequest.system_prompt := Some ORCHESTRATOR_SYSTEM_PROMPT;
       LLMRequest.max_tokens := 2000 |};
  if LLMResponse.success response then
    try_except
      (plan_data ← LLMClient.parse_structured_response loads response "json";
       get plan_data "execution_plan" (VDict []))
      (fun _ => Ok _create_fallback_plan)
  else Ok _create_fallback_plan.

Definition _create_fallback_domain_model : value :=
  VDict
    [("entities",
      VList [VDict [("name", VStr "User");
                    ("description", VStr "System user");
                    ("attributes", strings ["id"; "name"]);
                    ("constraints", VList [])]]);
     ("relationships", VList []);
     ("business_rules",
      VList [VDict [("rule", VStr "Users must be authenticated");
                    ("category", VStr "security");
                    ("entities_affected", strings ["User"]);
                    ("priority", VStr "critical")]]);
     ("processes", VList [])].

Definition _create_fallback_requirements : value :=
  VDict [("functional_requirements", VList []);
         ("non_functional_requirements", VList []);
         ("compliance_requirements", VList []);
         ("user_personas", VList []);
         ("use_cases", VList [])].

Definition _create_fallback_technical_specs : value :=
  VDict
    [("authentication",
      VDict [("method", VStr "JWT");
             ("requirements", strings ["secure token"]);
             ("considerations", strings ["token expiry"])]);
     ("authorization",
      VDict [("model", VStr "RBAC"); ("roles", VList []);
             ("policies", VList [])]);
     ("data_handling",
      VDict [("storage_requirements", VList []);
             ("processing_requirements", VList []);
             ("security_requirements", VList []);
             ("retention_policies", VList [])]);
     ("integration",
      VDict [("external_systems", VList []); ("apis_needed", VList []);
             ("data_exchange", VList [])]);
     ("security",
      VDict [("measures", VList []); ("compliance_mappings", VList []);
             ("risk_assessments", VList [])])].

Definition _perform_domain_analysis (task : Task.t) (context : value)
  : result value :=
  domain ← get (Task.metadata task) "domain" (VStr "general");
  response ← generate_response
    {| LLMRequest.prompt :=
         domain_analysis_prompt (Task.requirements task) domain context;
       LLMRequest.system_prompt := Some EXECUTOR_SYSTEM_PROMPT;
       LLMRequest.max_tokens := 3000 |};
  if LLMResponse.success response then
    try_except
      (analysis ← LLMClient.parse_structured_response loads response "json";
       get analysis "domain_model" (VDict []))
      (fun _ => Ok _create_fallback_domain_model)
  else Ok _create_fallback_domain_model.

Definition _perform_requirements_analysis (task : Task.t)
    (domain_context : value) : result value :=
  response ← generate_response
    {| LLMRequest.prompt :=
         requirements_analysis_prompt (Task.requirements task) domain_context;
       LLMRequest.system_prompt := Some EXECUTOR_SYSTEM_PROMPT;
       LLMRequest.max_tokens := 3000 |};
  if LLMResponse.success response then
    try_except
      (analysis ← LLMClient.parse_structured_response loads response "json";
       functional_requirements ←
         get analysis "functional_requirements" (VList []);
       non_functional_requirements ←
         get analysis "non_functional_requirements" (VList []);
       compliance_requirements ←
         get analysis "compliance_requirements" (VList []);
       user_personas ← get analysis "user_personas" (VList []);
       use_cases ← get analysis "use_cases" (VList []);
       Ok (VDict [("functional_requirements", functional_requirements);
                  ("non_functional_requirements",
                   non_functional_requirements);
                  ("compliance_requirements", compliance_requirements);
                  ("user_personas", user_personas);
                  ("use_cases", use_cases)]))
      (fun _ => Ok _create_fallback_requirements)
  else Ok _create_fallback_requirements.

Definition _create_technical_specifications
    (domain_model requirements_analysis : value) : result value :=
  response ← generate_response
    {| LLMRequest.prompt :=
         technical_specification_prompt domain_model requirements_analysis;
       LLMRequest.system_prompt := Some EXECUTOR_SYSTEM_PROMPT;
       LLMRequest.max_tokens := 2500 |};
  if LLMResponse.success response then
    try_except
      (specs ← LLMClient.parse_structured_response loads response "json";
       get specs "technical_specifications" (VDict []))
      (fun _ => Ok _create_fallback_technical_specs)
  else Ok _create_fallback_technical_specs.

(** [DomainAdvisorExecutor._execute_task] *)
Definition _execute_task (task : Task.t) (execution_plan context : value)
  : result value :=
  analysis_type ←
    get execution_plan "analysis_type" (VStr "general_analysis");
  let result :=
    [("analysis_type", analysis_type);
     ("domain_model", VDict []);
     ("functional_requirements", VList []);
     ("non_functional_requirements", VList []);
     ("compliance_requirements", VList []);
     ("user_personas", VList []);
     ("use_cases", VList []);
     ("technical_specifications", VDict [])] in
  try_except
    (domain_model ← _perform_domain_analysis task context;
     let result := dict_set "domain_model" domain_model result in
     requirements_analysis ←
       _perform_requirements_analysis task domain_model;
     result ← dict_update result requirements_analysis;
     technical_specs ←
       _create_technical_specifications domain_model requirements_analysis;
     Ok (VDict (dict_set "technical_specifications" technical_specs result)))
    (fun e => Ok (VDict [("error", VStr ("Execution failed: " +:+ str e))])).

End Components.
End DomainAdvisor.

(** ** Sample data *)

Definition scalar_response : LLMResponse.t :=
  {| LLMResponse.content := " 42 "; LLMResponse.model := "qwen3:14b";
     LLMResponse.provider := "ollama"; LLMResponse.success := true;
     LLMResponse.error := None |}.

Definition array_response : LLMResponse.t :=
  {| LLMResponse.content := "[1, 2]"; LLMResponse.model := "qwen3:14b";
     LLMResponse.provider := "ollama"; LLMResponse.success := true;
     LLMResponse.error := None |}.

Definition sample_time : datetime :=
  {| year := 2024; month := 2; day := 29; hour := 7; minute := 5;
     second := 0; microsecond := 1500 |}%N.

Definition sample_message (id : string) (p : TaskPriority) : Message.t :=
  {| Message.message_id := id;
     Message.message_type := STATUS_UPDATE;
     Message.sender := "planner";
     Message.recipient := "worker";
     Message.content := [("status", VStr "ready")];
     Message.priority := p;
     Message.timestamp := sample_time;
     Message.correlation_id := None;
     Message.requires_response := false |}.

(** A handler that answers with a plain payload. *)
Definition sample_handler : MessageBus.Handler :=
  fun _ => Ok (MessageBus.RValue (VStr "ok")).

(** A running bus with room for one message per recipient. *)
Definition sample_bus : MessageBus.t :=
  MessageBus.start
    (MessageBus.register_agent "worker" sample_handler
       (MessageBus.register_agent "planner" sample_handler
          (MessageBus.init 1 100))).

Definition sample_task : Task.t :=
  {| Task.task_id := VStr "task-1";
     Task.title := VStr "Outline the billing domain";
     Task.description := VStr "Entities and rules of invoicing";
     Task.requirements := VList [VStr "invoices"; VStr "payments"];
     Task.priority := HIGH;
     Task.required_agent_role := Some DOMAIN_ADVISOR;
     Task.dependencies := VList [];
     Task.metadata := VDict [("domain", VStr "billing")];
     Task.created_at := sample_time;
     Task.deadline := Some sample_time;
     Task.context := VDict [] |}.


(** A domain review that approves with score 0.9. *)
Definition thorough_review : ReviewResult.t :=
  {| ReviewResult.approved := true;
     ReviewResult.score := 9 # 10;
     ReviewResult.issues := [];
     ReviewResult.suggestions := ["Name the aggregate roots"];
     ReviewResult.strengths := ["Covers every requirement"];
     ReviewResult.metadata := VDict [] |}.


(** A running bus with room for a thousand messages per recipient. *)
Definition roomy_bus : MessageBus.t :=
  MessageBus.start
    (MessageBus.register_agent "worker" sample_handler
       (MessageBus.register_agent "planner" sample_handler
          (MessageBus.init 1000 500))).

(** The same bus after a LOW and then a CRITICAL message for the worker. *)
Definition queued_bus : MessageBus.t :=
  (MessageBus.send_message (sample_message "urgent" CRITICAL)
     (MessageBus.send_message (sample_message "routine" LOW) roomy_bus).2).2.

Definition sample_uuid4 (n : nat) : string := "uuid-" +:+ pretty n.
Definition sample_now (n : nat) : datetime := sample_time.
Definition sample_elapsed (m : Message.t) : Q := 1 # 100.

(** An agent whose plan generation always raises, whose task logic
    returns the plan it was given, and whose domain review approves. *)
Definition planless_agent (task : Task.t) (context : value)
  : result (AgentResponse.t * TaskStatus) :=
  BaseAgent.process_task
    (BaseOrchestrator.orchestrate json_loads
       (fun _ => Raise (MkExn "ConnectionError" "model unreachable"))
       (fun _ _ => "validate") (fun _ _ _ => "revise")
       (fun _ _ => Raise (MkExn "ValueError" "no plan")))
    (BaseExecutor.execute (fun _ plan _ => Ok (VDict [("plan_used", plan)]))
       "advisor" (1 # 2))
    (BaseReviewer.review (fun _ _ _ => Ok thorough_review) "advisor")
    "advisor" DOMAIN_ADVISOR 1 task context.



(** The messages of a list in the order in which the delivery loop hands
    them over once they are queued: by priority, then by arrival. *)
Definition by_priority_then_arrival (messages : list Message.t)
  : list Message.t :=
  mjoin ((fun p => filter (fun m => Message.priority m = p) messages)
           <$> MessageBus.priority_order).

(** Three messages for the worker, sent in this order. *)
Definition sample_messages : list Message.t :=
  [sample_message "first" MEDIUM; sample_message "second" CRITICAL;
   sample_message "third" MEDIUM].

(** A run that registers one agent and sends it two messages on a bus
    with room for one. *)
Definition sample_operations : list MessageBus.operation :=
  [MessageBus.Register "worker" sample_handler; MessageBus.Start;
   MessageBus.Send (sample_message "first" LOW);
   MessageBus.Send (sample_message "second" HIGH);
   MessageBus.DeliveryPass].


(** The bus while a request for the worker waits for its response. *)
Definition waiting_bus : MessageBus.t :=
  (MessageBus.send_request_begin (sample_message "q-1" HIGH) roomy_bus).2.


(** The response that the bus builds for the worker's plain payload. *)
Definition wrapped_response : Message.t :=
  {| Message.message_id := "uuid-0";
     Message.message_type := TASK_RESPONSE;
     Message.sender := "worker";
     Message.recipient := "planner";
     Message.content := [("response", VStr "ok")];
     Message.priority := MEDIUM;
     Message.timestamp := sample_time;
     Message.correlation_id := Some "q-1";
     Message.requires_response := false |}.

(** A task request whose task is [None]. *)
Definition taskless_request : Message.t :=
  {| Message.message_id := "m-2";
     Message.message_type := TASK_REQUEST;
     Message.sender := "planner";
     Message.recipient := "worker";
     Message.content := [("task", VNone)];
     Message.priority := MEDIUM;
     Message.timestamp := sample_time;
     Message.correlation_id := None;
     Message.requires_response := true |}.


(** The response of [planless_agent] to [sample_task]. *)
Definition planless_response : AgentResponse.t :=
  Eval vm_compute in
    match planless_agent sample_task (VDict []) with
    | Ok (response, _) => response
    | Raise _ => BaseAgent.failed 1 VNone (VDict [])
    end.


(** The response of a model service that is down. *)
Definition unavailable_response : LLMResponse.t :=
  {| LLMResponse.content := ""; LLMResponse.model := "qwen3:14b";
     LLMResponse.provider := "ollama"; LLMResponse.success := false;
     LLMResponse.error := Some "Failed after 3 attempts: connection refused" |}.


(** A provider whose first two calls are refused. *)
Definition flaky_ollama (request : LLMRequest.t) (attempt : nat)
  : result LLMResponse.t :=
  if (attempt <? 2)%nat then Raise (MkExn "ConnectError" "connection refused")
  else Ok scalar_response.

Definition unconfigured (provider : string) (request : LLMRequest.t)
    (attempt : nat) : result LLMResponse.t :=
  Raise (MkExn "ValueError" (provider +:+ " API key not configured")).

Definition sample_request : LLMRequest.t :=
  {| LLMRequest.prompt := "Outline the billing domain";
     LLMRequest.system_prompt := None;
     LLMRequest.max_tokens := 4000 |}.

(** A rate limiter that has admitted fifty requests in the window that
    started at second 100. *)
Definition busy_limiter : LLMClient.Limiter.t :=
  {| LLMClient.Limiter.last_request_time := 129;
     LLMClient.Limiter.request_count := 50;
     LLMClient.Limiter.rate_limit_window_start := 100 |}.

(** * Properties *)

(** ** Structured response recovery *)

Section RecoveryFacts.

Variable loads : string -> option value.



Lemma extract_direct (content : string) (v : value) :
  loads content = Some v ->
  LLMClient._extract_json_from_response loads content = v.
Proof.
  intros H. unfold LLMClient._extract_json_from_response. by rewrite H.
Qed.


(** Whatever the object scan returns is the decoding of a slice of the
    text that begins at [brace_start]: resuming the scan after a failed
    candidate does not move the left end of the next candidate. *)
Lemma scan_object_candidate (content : string) (brace_start : nat)
    (rest : string) (i : nat) (bracket_count : Z)
    (start_found in_string escape_next : bool) (v : value) :
  LLMClient.scan_object loads content brace_start i rest bracket_count
    start_found in_string escape_next = Some v ->
  exists j, (i < j)%nat /\ loads (slice content brace_start j) = Some v.
Proof.
  revert i bracket_count start_found in_string escape_next.
  induction rest as [|char rest IH]; intros i bc sf ins esc; simpl; [done|].
  assert (Hnext : forall bc' sf' ins' esc',
    LLMClient.scan_object loads content brace_start (S i) rest bc' sf' ins' esc'
      = Some v ->
    exists j, (i < j)%nat /\ loads (slice content brace_start j) = Some v).
  { intros bc' sf' ins' esc' H. destruct (IH _ _ _ _ _ H) as (j & Hj & Hv).
    exists j. split; [lia|done]. }
  repeat case_match; eauto.
  intros [= <-]. exists (i + 1)%nat. split; [lia|done].
Qed.

Lemma object_scan_candidate (content : string) (v : value) :
  LLMClient.object_scan loads content = Some v ->
  exists brace_start j,
    find "{" 0 content = Some brace_start
    /\ loads (slice content brace_start j) = Some v.
Proof.
  unfold LLMClient.object_scan.
  destruct (find "{" 0 content) as [brace_start|]; [|done].
  intros H. destruct (scan_object_candidate _ _ _ _ _ _ _ _ _ H) as (j & _ & Hv).
  eauto.
Qed.

End RecoveryFacts.

(** C1 (the code departs from the claim).  The text below has a first
    brace-delimited candidate that does not decode, followed by a
    well-formed object.  The scan resumes after the first candidate, but
    its next candidate still starts at the first opening brace; that
    candidate does not decode either, and the routine returns the degraded
    fallback instead of the second object. *)
Theorem second_candidate_not_recovered :
  let second := "{" +:+ quoted "a" +:+ ": 1}" in
  let text := "{bad} " +:+ second in
  json_loads "{bad}" = None
  /\ json_loads second = Some (VDict [("a", VInt 1)])
  /\ LLMClient._extract_json_from_response json_loads text = LLMClient.fallback text.
Proof. vm_compute. done. Qed.




(** C10.  When the whole trimmed content decodes to a value that is not a
    dictionary, the direct-parse step returns that value unchanged, so
    [parse_structured_response] returns a value that is not a map. *)
Theorem direct_parse_returns_non_map (loads : string -> option value)
    (response : LLMResponse.t) (v : value) :
  LLMResponse.success response = true ->
  loads (strip (LLMResponse.content response)) = Some v ->
  is_dict v = false ->
  LLMClient._extract_json_from_response loads
    (strip (LLMResponse.content response)) = v
  /\ LLMClient.parse_structured_response loads response "json" = Ok v
  /\ forall r,
       LLMClient.parse_structured_response loads response "json" = Ok r ->
       is_dict r = false.
Proof.
  intros Hs Hv Hd.
  assert (He := extract_direct loads _ _ Hv).
  assert (Hp : LLMClient.parse_structured_response loads response "json" = Ok v).
  { unfold LLMClient.parse_structured_response. rewrite Hs. simpl.
    by rewrite He. }
  repeat split; [done|done|]. intros r. rewrite Hp. by intros [= <-].
Qed.

(** [parse_structured_response] raises [ValueError] for a failed response
    and for a format other than json; otherwise it returns what the
    recovery makes of the trimmed content. *)
Lemma parse_structured_response_outcome (loads : string -> option value)
    (response : LLMResponse.t) (expected_format : string) :
  LLMClient.parse_structured_response loads response expected_format
  = if LLMResponse.success response && String.eqb expected_format "json" then
      Ok (LLMClient._extract_json_from_response loads
            (strip (LLMResponse.content response)))
    else
      Raise (MkExn "ValueError"
               (if LLMResponse.success response then
                  "Unsupported format: " +:+ expected_format
                else
                  "Cannot parse failed response: "
                  +:+ default "None" (LLMResponse.error response))).
Proof.
  unfold LLMClient.parse_structured_response.
  destruct (LLMResponse.success response); [|done].
  by destruct (String.eqb expected_format "json").
Qed.

Lemma direct_parse_returns_non_map_witness :
  LLMClient.parse_structured_response json_loads scalar_response "json"
  = Ok (VInt 42)
  /\ LLMClient.parse_structured_response json_loads array_response "json"
     = Ok (VList [VInt 1; VInt 2]).
Proof.
  split.
  - refine (proj1 (proj2 (direct_parse_returns_non_map json_loads
                            scalar_response (VInt 42) _ _ _))); reflexivity.
  - refine (proj1 (proj2 (direct_parse_returns_non_map json_loads
                            array_response (VList [VInt 1; VInt 2]) _ _ _)));
      reflexivity.
Defined.

(** ** Message bus *)

Section BusFacts.

Implicit Types (bus : MessageBus.t) (message : Message.t).

(** Reading the queues of [r] after the [defaultdict] access for
    [recipient]. *)
Lemma queues_of_touch bus (recipient r : string) :
  MessageBus.queues_of r
    (MessageBus.with_message_queues
       <[recipient := MessageBus.queues_of recipient bus]> bus)
  = MessageBus.queues_of r bus.
Proof.
  unfold MessageBus.queues_of at 1 3. simpl.
  destruct (decide (recipient = r)) as [->|Hne].
  - by rewrite lookup_insert_eq.
  - by rewrite lookup_insert_ne.
Qed.

Lemma queues_of_insert bus (recipient r : string) (qs : MessageBus.queues) :
  MessageBus.queues_of r
    (MessageBus.with_message_queues <[recipient := qs]> bus)
  = if decide (recipient = r) then qs else MessageBus.queues_of r bus.
Proof.
  unfold MessageBus.queues_of. simpl. case_decide as H.
  - subst. by rewrite lookup_insert_eq.
  - by rewrite lookup_insert_ne.
Qed.

(** What [send_message] leaves alone. *)
Lemma send_message_frame message bus :
  let bus' := (MessageBus.send_message message bus).2 in
  MessageBus.pending_responses bus' = MessageBus.pending_responses bus
  /\ MessageBus.futures bus' = MessageBus.futures bus
  /\ MessageBus.constructed bus' = MessageBus.constructed bus
  /\ MessageBus.agents bus' = MessageBus.agents bus
  /\ MessageBus.running bus' = MessageBus.running bus
  /\ MessageBus.max_queue_size bus' = MessageBus.max_queue_size bus.
Proof.
  unfold MessageBus.send_message. repeat case_match; simpl; done.
Qed.

(** The outcome of [send_message] in full. *)
Lemma send_message_result message bus :
  let recipient := Message.recipient message in
  let p := Message.priority message in
  let qs := MessageBus.queues_of recipient bus in
  let accepted :=
    MessageBus.running bus && MessageBus.registered recipient bus
    && negb (MessageBus.max_queue_size bus <=? Z.of_nat (MessageBus.total qs)) in
  (MessageBus.send_message message bus).1 = accepted
  /\ forall r,
       MessageBus.queues_of r (MessageBus.send_message message bus).2
       = if accepted && bool_decide (recipient = r) then
           MessageBus.set_queue p (MessageBus.queue p qs ++ [message])%list qs
         else MessageBus.queues_of r bus.
Proof.
  intros recipient p qs accepted. subst accepted.
  unfold MessageBus.send_message. fold recipient. fold qs. fold p.
  destruct (MessageBus.running bus); simpl; [|done].
  destruct (MessageBus.registered recipient bus); simpl; [|done].
  destruct (MessageBus.max_queue_size bus <=? _); simpl.
  - split; [done|]. intros r. subst qs. apply queues_of_touch.
  - split; [done|]. intros r.
    unfold MessageBus.queues_of at 1. simpl.
    case_bool_decide as H.
    + subst r. by rewrite lookup_insert_eq.
    + rewrite !lookup_insert_ne by done. done.
Qed.

Lemma send_message_full message bus :
  MessageBus.max_queue_size bus
    <= Z.of_nat (MessageBus.total
                   (MessageBus.queues_of (Message.recipient message) bus)) ->
  (MessageBus.send_message message bus).1 = false
  /\ forall r, MessageBus.queues_of r (MessageBus.send_message message bus).2
               = MessageBus.queues_of r bus.
Proof.
  intros Hfull. destruct (send_message_result message bus) as [H1 H2].
  apply Z.leb_le in Hfull. rewrite Hfull, andb_false_r in H1, H2.
  split; [done|]. intros r. by rewrite H2.
Qed.

Lemma send_messages_full (recipient : string) (further : list Message.t) bus :
  Forall (fun m => Message.recipient m = recipient) further ->
  MessageBus.max_queue_size bus
    <= Z.of_nat (MessageBus.total (MessageBus.queues_of recipient bus)) ->
  (MessageBus.send_messages further bus).1 = replicate (length further) false
  /\ forall r, MessageBus.queues_of r (MessageBus.send_messages further bus).2
               = MessageBus.queues_of r bus.
Proof.
  intros Hall. revert bus.
  induction Hall as [|m further Hm Hall IH]; intros bus Hfull; [done|].
  simpl. rewrite <- Hm in Hfull.
  destruct (send_message_full m bus Hfull) as [H1 H2].
  pose proof (send_message_frame m bus) as (_&_&_&_&_&Hmax).
  destruct (MessageBus.send_message m bus) as [sent bus1].
  simpl in H1, H2, Hmax. subst sent.
  assert (Hfull1 : MessageBus.max_queue_size bus1
            <= Z.of_nat (MessageBus.total (MessageBus.queues_of recipient bus1))).
  { rewrite Hmax, <- Hm, H2. done. }
  specialize (IH bus1 Hfull1).
  destruct (MessageBus.send_messages further bus1) as [results bus2].
  simpl in *. destruct IH as [-> IH]. split; [done|].
  intros r. by rewrite IH.
Qed.

End BusFacts.

(** C3.  Once the queues of a recipient hold [max_queue_size] messages or
    more, a [send_message] addressed to it returns false and leaves every
    queue as it was, and so does every further call; in a running bus, a
    message for a registered recipient below the cap is appended to the
    queue of its priority, and the call returns true.  ([send_message]
    is a total function: no call raises.) *)
Theorem send_message_backpressure (message : Message.t) (bus : MessageBus.t) :
  let recipient := Message.recipient message in
  let p := Message.priority message in
  let qs := MessageBus.queues_of recipient bus in
  (MessageBus.max_queue_size bus <= Z.of_nat (MessageBus.total qs) ->
   (MessageBus.send_message message bus).1 = false
   /\ (forall r,
         MessageBus.queues_of r (MessageBus.send_message message bus).2
         = MessageBus.queues_of r bus)
   /\ forall further : list Message.t,
        Forall (fun m => Message.recipient m = recipient) further ->
        (MessageBus.send_messages further bus).1
        = replicate (length further) false
        /\ forall r,
             MessageBus.queues_of r (MessageBus.send_messages further bus).2
             = MessageBus.queues_of r bus)
  /\ (Z.of_nat (MessageBus.total qs) < MessageBus.max_queue_size bus ->
      MessageBus.running bus = true ->
      MessageBus.registered recipient bus = true ->
      (MessageBus.send_message message bus).1 = true
      /\ MessageBus.queues_of recipient (MessageBus.send_message message bus).2
         = MessageBus.set_queue p (MessageBus.queue p qs ++ [message])%list qs
      /\ forall r, r <> recipient ->
           MessageBus.queues_of r (MessageBus.send_message message bus).2
           = MessageBus.queues_of r bus).
Proof.
  intros recipient p qs. split.
  - intros Hfull. destruct (send_message_full message bus Hfull) as [H1 H2].
    split; [done|]. split; [done|].
    intros further Hall. by apply (send_messages_full recipient).
  - intros Hbelow Hrun Hreg.
    destruct (send_message_result message bus) as [H1 H2].
    fold recipient in H1, H2. fold qs in H1, H2. fold p in H2.
    rewrite Hrun, Hreg in H1, H2. simpl in H1, H2.
    assert (Hle : (MessageBus.max_queue_size bus
                     <=? Z.of_nat (MessageBus.total qs)) = false)
      by (apply Z.leb_gt; done).
    rewrite Hle in H1, H2. simpl in H1, H2.
    split; [done|]. split.
    + rewrite H2. by rewrite bool_decide_eq_true_2.
    + intros r Hr. rewrite H2. by rewrite bool_decide_eq_false_2.
Qed.

Lemma send_message_backpressure_witness :
  (MessageBus.send_message (sample_message "m1" HIGH) sample_bus).1 = true
  /\ (MessageBus.send_message (sample_message "m2" LOW)
        (MessageBus.send_message (sample_message "m1" HIGH) sample_bus).2).1
     = false.
Proof.
  split.
  - refine (proj1 (proj2 (send_message_backpressure
                            (sample_message "m1" HIGH) sample_bus) _ _ _));
      vm_compute; reflexivity.
  - refine (proj1 (proj1 (send_message_backpressure
                            (sample_message "m2" LOW)
                            (MessageBus.send_message (sample_message "m1" HIGH)
                               sample_bus).2) _)).
    vm_compute. discriminate.
Defined.

(** C4.  Whatever happens to the bus while [send_request] is suspended, the
    table [pending_responses] has no entry for the message's id when the
    call is over.  A future that is still pending when the caller is
    resumed (the timeout elapsed) makes the call return [None]; a failed
    send makes it return [None]; a fulfilled future makes it return the
    response. *)
Theorem send_request_releases_slot (message : Message.t)
    (others : MessageBus.t -> MessageBus.t) (bus : MessageBus.t) :
  let id := Message.message_id message in
  let final := MessageBus.send_request message others bus in
  MessageBus.pending_responses final.2 !! id = None
  /\ match MessageBus.send_request_begin message bus with
     | (_, MessageBus.Returned r, _) => r = None /\ final.1 = Ok None
     | (_, MessageBus.Awaiting response_future, waiting) =>
         MessageBus.pending_responses waiting !! id = Some response_future
         /\ match MessageBus.future_at response_future (others waiting) with
            | MessageBus.Pending => final.1 = Ok None
            | MessageBus.Result response => final.1 = Ok (Some response)
            | MessageBus.Exception e =>
                final.1 = if String.eqb (exn_class e) "TimeoutError"
                          then Ok None else Raise e
            | MessageBus.Cancelled =>
                final.1 = Raise (MkExn "CancelledError" "")
            end
     end.
Proof.
  intros id final. subst final. unfold MessageBus.send_request.
  unfold MessageBus.send_request_begin.
  set (message' := if negb (Message.requires_response message) then _ else message).
  assert (Hid : Message.message_id message' = id).
  { subst message'. by destruct (Message.requires_response message). }
  set (response_future := fresh _).
  set (bus0 := MessageBus.with_pending_responses _ _).
  pose proof (send_message_frame message' bus0) as (Hp & _).
  destruct (MessageBus.send_message message' bus0) as [sent bus1].
  simpl in Hp. destruct sent; simpl.
  - (* the message was queued *)
    unfold MessageBus.send_request_end, MessageBus.wait_for.
    rewrite Hid. split.
    + destruct (MessageBus.future_at response_future (others bus1)); simpl;
        case_bool_decide as Hin; simpl;
        first [apply lookup_delete_eq | by apply not_elem_of_dom].
    + split.
      * rewrite Hp. subst bus0. simpl. rewrite Hid. apply lookup_insert_eq.
      * destruct (MessageBus.future_at response_future (others bus1)); done.
  - (* the send failed *)
    rewrite Hid. split; [apply lookup_delete_eq|done].
Qed.

Section DeliveryFacts.

Lemma queue_set_queue (p p' : TaskPriority) (q : list Message.t)
    (qs : MessageBus.queues) :
  MessageBus.queue p' (MessageBus.set_queue p q qs)
  = if decide (p = p') then q else MessageBus.queue p' qs.
Proof. by destruct p, p'. Qed.

(** The message that [_get_next_message] pops is the head of a queue, and
    every queue that comes earlier in the order is empty. *)
Lemma pop_first_highest (qs qs' : MessageBus.queues) (m : Message.t) :
  MessageBus.pop_first MessageBus.priority_order qs = Some (m, qs') ->
  exists p q,
    MessageBus.queue p qs = m :: q
    /\ qs' = MessageBus.set_queue p q qs
    /\ forall p', (MessageBus.rank p' < MessageBus.rank p)%nat ->
                  MessageBus.queue p' qs = [].
Proof.
  simpl.
  destruct (MessageBus.critical qs) as [|m1 q1] eqn:E1;
    [destruct (MessageBus.high qs) as [|m2 q2] eqn:E2;
       [destruct (MessageBus.medium qs) as [|m3 q3] eqn:E3;
          [destruct (MessageBus.low qs) as [|m4 q4] eqn:E4; [done|]|]|]|];
    intros [= <- <-].
  - exists LOW, q4. split; [done|].
    split; [simpl; by rewrite ?E1, ?E2, ?E3|].
    intros [] Hlt; simpl in *; first [done | lia].
  - exists MEDIUM, q3. split; [done|].
    split; [simpl; by rewrite ?E1, ?E2, ?E3|].
    intros [] Hlt; simpl in *; first [done | lia].
  - exists HIGH, q2. split; [done|].
    split; [simpl; by rewrite ?E1, ?E2, ?E3|].
    intros [] Hlt; simpl in *; first [done | lia].
  - exists CRITICAL, q1. split; [done|].
    split; [simpl; by rewrite ?E1, ?E2, ?E3|].
    intros [] Hlt; simpl in *; first [done | lia].
Qed.

Lemma pop_first_none (qs : MessageBus.queues) :
  MessageBus.pop_first MessageBus.priority_order qs = None ->
  forall p, MessageBus.queue p qs = [].
Proof.
  simpl. destruct (MessageBus.critical qs) eqn:E1; [|done].
  destruct (MessageBus.high qs) eqn:E2; [|done].
  destruct (MessageBus.medium qs) eqn:E3; [|done].
  destruct (MessageBus.low qs) eqn:E4; [|done].
  by intros _ [].
Qed.

(** [send_message] keeps every queue sorted by priority. *)
Lemma send_message_by_priority (message : Message.t) (bus : MessageBus.t) :
  (forall r, MessageBus.by_priority (MessageBus.queues_of r bus)) ->
  forall r, MessageBus.by_priority
              (MessageBus.queues_of r (MessageBus.send_message message bus).2).
Proof.
  intros Hinv r. destruct (send_message_result message bus) as [_ H].
  rewrite H. case_match; [|apply Hinv].
  intros p m. rewrite queue_set_queue.
  destruct (decide (Message.priority message = p)) as [<-|Hp]; [|apply Hinv].
  intros [Hin| ->%list_elem_of_singleton]%elem_of_app; [|done].
  by apply (Hinv (Message.recipient message)).
Qed.

Lemma init_by_priority (max_queue_size : Z) (message_retention : nat) r :
  MessageBus.by_priority
    (MessageBus.queues_of r (MessageBus.init max_queue_size message_retention)).
Proof. intros [] m; cbn; by intros ?%elem_of_nil. Qed.

End DeliveryFacts.

(** C6.  One step of the delivery loop for a recipient whose CRITICAL queue
    is not empty pops the head of that queue and hands it to the handler.
    In general the message that a step delivers is the head of a queue
    such that every queue of strictly higher priority is empty; with the
    queues filled by [send_message], that queue is the one of the message's
    own priority.  A step that delivers nothing found the four queues
    empty. *)
Theorem delivery_strict_priority (uuid4 : nat -> string)
    (now : nat -> datetime) (elapsed : Message.t -> Q) (agent_id : string)
    (handler : MessageBus.Handler) (bus : MessageBus.t) :
  let qs := MessageBus.queues_of agent_id bus in
  let step := MessageBus.deliver_next uuid4 now elapsed agent_id handler bus in
  let delivered (m : Message.t) (p : TaskPriority) (q : list Message.t) :=
    step
    = (Some m,
       MessageBus._deliver_message uuid4 now elapsed m handler
         (MessageBus.with_message_queues
            <[agent_id := MessageBus.set_queue p q qs]> bus)) in
  (forall m q, MessageBus.critical qs = m :: q -> delivered m CRITICAL q)
  /\ (forall m, step.1 = Some m ->
        exists p q,
          MessageBus.queue p qs = m :: q
          /\ delivered m p q
          /\ (forall p', (MessageBus.rank p' < MessageBus.rank p)%nat ->
                         MessageBus.queue p' qs = [])
          /\ (MessageBus.by_priority qs ->
              Message.priority m = p
              /\ forall p',
                   (MessageBus.rank p' < MessageBus.rank (Message.priority m))%nat ->
                   MessageBus.queue p' qs = []))
  /\ (step.1 = None -> forall p, MessageBus.queue p qs = []).
Proof.
  intros qs step delivered. subst step delivered.
  unfold MessageBus.deliver_next, MessageBus._get_next_message.
  destruct (MessageBus.message_queues bus !! agent_id) as [qs0|] eqn:Hqs.
  2:{ (* no entry: the four queues read as empty *)
      assert (Hempty : qs = MessageBus.empty_queues)
        by (subst qs; unfold MessageBus.queues_of; by rewrite Hqs).
      rewrite bool_decide_eq_false_2 by (by apply not_elem_of_dom).
      rewrite Hempty. split; [done|]. split; [done|]. by intros _ []. }
  assert (Hqs0 : qs = qs0)
    by (subst qs; unfold MessageBus.queues_of; by rewrite Hqs).
  rewrite bool_decide_eq_true_2 by (apply elem_of_dom; eauto).
  fold qs. clearbody qs. subst qs0.
  destruct (MessageBus.pop_first MessageBus.priority_order qs)
    as [[m' qs']|] eqn:Hpop; cbn [fst snd].
  - destruct (pop_first_highest _ _ _ Hpop) as (p & q & Hhead & -> & Hup).
    split; [|split; [|done]].
    + intros m q' Hc.
      assert (p = CRITICAL) as ->.
      { destruct p; [done|..]; specialize (Hup CRITICAL); simpl in Hup;
          rewrite Hup in Hc by lia; done. }
      simpl in Hhead. rewrite Hc in Hhead. by injection Hhead as -> ->.
    + intros m [= ->]. exists p, q. split; [done|]. split; [done|].
      split; [done|]. intros Hinv.
      assert (Hp : Message.priority m = p).
      { apply Hinv. rewrite Hhead. apply list_elem_of_here. }
      split; [done|]. by rewrite Hp.
  - split; [|split; [done|]].
    + intros m q Hc. pose proof (pop_first_none _ Hpop CRITICAL) as Hnil.
      simpl in Hnil. by rewrite Hnil in Hc.
    + intros _. by apply pop_first_none.
Qed.

Section BroadcastFacts.

Variable uuid4 : nat -> string.
Variable now : nat -> datetime.

(** Delivering a message that does not require a response leaves the
    futures and the pending table as they are. *)
Lemma deliver_without_response (elapsed : Message.t -> Q) (c : Message.t)
    (handler : MessageBus.Handler) (bus : MessageBus.t) :
  Message.requires_response c = false ->
  let bus' := MessageBus._deliver_message uuid4 now elapsed c handler bus in
  MessageBus.futures bus' = MessageBus.futures bus
  /\ MessageBus.pending_responses bus' = MessageBus.pending_responses bus.
Proof.
  intros Hc. unfold MessageBus._deliver_message, MessageBus.pending_slot.
  rewrite Hc. by destruct (handler c).
Qed.

(** The loop of [broadcast_message]: the copies it has queued are built
    from distinct draws of the id factory, and each queue has grown by the
    copies addressed to it. *)
Lemma broadcast_loop_copies (message : Message.t) (exclude : gset string)
    (ids : list string) (sent_count : nat) (bus : MessageBus.t) :
  let out := MessageBus.broadcast_loop uuid4 now message exclude ids
               sent_count bus in
  exists sent : list (nat * string),
    let copies :=
      (fun d => MessageBus.broadcast_msg uuid4 now d.1 message d.2) <$> sent in
    out.1 = (sent_count + length sent)%nat
    /\ (MessageBus.constructed bus <= MessageBus.constructed out.2)%nat
    /\ Forall (fun d => (MessageBus.constructed bus <= d.1)%nat
                        /\ (d.1 < MessageBus.constructed out.2)%nat) sent
    /\ NoDup sent.*1
    /\ forall r p,
         MessageBus.queue p (MessageBus.queues_of r out.2)
         = (MessageBus.queue p (MessageBus.queues_of r bus)
            ++ MessageBus.addressed r p copies)%list.
Proof.
  revert sent_count bus.
  induction ids as [|agent_id ids IH]; intros sent_count bus; simpl.
  { exists []. simpl. repeat split; try done; try lia; try constructor.
    intros r p. unfold MessageBus.addressed. by rewrite filter_nil, app_nil_r. }
  destruct (bool_decide (agent_id ∉ exclude)
            && negb (String.eqb agent_id (Message.sender message))); [|apply IH].
  set (n := MessageBus.constructed bus).
  set (copy := MessageBus.broadcast_msg uuid4 now n message agent_id).
  set (bus1 := MessageBus.with_constructed (S n) bus).
  pose proof (send_message_frame copy bus1) as (_ & _ & Hcons & _).
  destruct (send_message_result copy bus1) as [Hsent Hqueues].
  destruct (MessageBus.send_message copy bus1) as [accepted bus2].
  simpl in Hcons, Hsent, Hqueues.
  specialize (IH (if accepted then S sent_count else sent_count) bus2).
  simpl in IH. destruct IH as (sent & Hcount & Hle & Hrange & Hnodup & Hq).
  rewrite Hcons in Hle, Hrange.
  rewrite <- Hsent in Hqueues. clear Hsent.
  assert (Hq2 : forall r p,
    MessageBus.queue p (MessageBus.queues_of r bus2)
    = (MessageBus.queue p (MessageBus.queues_of r bus)
       ++ if accepted then MessageBus.addressed r p [copy] else [])%list).
  { intros r p. rewrite Hqueues.
    change (MessageBus.queues_of ?x bus1) with (MessageBus.queues_of x bus).
    unfold MessageBus.addressed. destruct accepted; simpl; [|by rewrite app_nil_r].
    rewrite filter_cons, filter_nil. simpl.
    case_bool_decide as Hr; simpl.
    - subst r. rewrite queue_set_queue.
      destruct (decide (Message.priority message = p)) as [<-|Hp].
      + by rewrite decide_True.
      + rewrite decide_False by (intros [_ ?]; done). by rewrite app_nil_r.
    - rewrite decide_False by (intros [? _]; done). by rewrite app_nil_r. }
  exists (if accepted then (n, agent_id) :: sent else sent).
  destruct accepted; simpl in *.
  - split; [lia|]. split; [lia|]. split.
    { constructor; [simpl; lia|].
      eapply Forall_impl; [exact Hrange|]. simpl. lia. }
    split.
    { constructor; [|done]. intros Hin.
      apply list_elem_of_fmap in Hin as (d & Hd1 & Hd).
      rewrite Forall_forall in Hrange. apply Hrange in Hd. lia. }
    intros r p. rewrite Hq, Hq2. unfold MessageBus.addressed.
    rewrite <- app_assoc. f_equal. by rewrite <- filter_app.
  - split; [lia|]. split; [lia|]. split.
    { eapply Forall_impl; [exact Hrange|]. simpl. lia. }
    split; [done|].
    intros r p. rewrite Hq, Hq2. by rewrite app_nil_r.
Qed.

End BroadcastFacts.

(** C9.  The copies that [broadcast_message] queues are new messages: each
    takes its id from a draw of its own of the id factory, not from the
    original, and has [requires_response = false] whatever the original
    says; delivering a copy never touches a future or the pending table,
    so no copy fulfils the slot of the original.  With an id factory that
    never repeats an id the ids of the copies are pairwise distinct, and
    with one that never returns the id of the original they differ from
    it. *)
Theorem broadcast_copies_are_fresh (uuid4 : nat -> string)
    (now : nat -> datetime) (message : Message.t) (exclude : gset string)
    (bus : MessageBus.t) :
  let out := MessageBus.broadcast_message uuid4 now message exclude bus in
  exists draws : list (nat * string),
    let copies :=
      (fun d => MessageBus.broadcast_msg uuid4 now d.1 message d.2)
        <$> draws in
    length copies = out.1
    /\ (forall r p,
          MessageBus.queue p (MessageBus.queues_of r out.2)
          = (MessageBus.queue p (MessageBus.queues_of r bus)
             ++ MessageBus.addressed r p copies)%list)
    /\ NoDup draws.*1
    /\ Forall
         (fun c =>
            (exists n, Message.message_id c = uuid4 n)
            /\ Message.requires_response c = false
            /\ Message.content c = Message.content message
            /\ forall elapsed handler b,
                 let b' :=
                   MessageBus._deliver_message uuid4 now elapsed c handler b in
                 MessageBus.futures b' = MessageBus.futures b
                 /\ MessageBus.pending_responses b'
                    = MessageBus.pending_responses b)
         copies
    /\ (Inj (=) (=) uuid4 -> NoDup (Message.message_id <$> copies))
    /\ ((forall n, uuid4 n <> Message.message_id message) ->
        Forall (fun c => Message.message_id c <> Message.message_id message)
          copies).
Proof.
  intros out. subst out. unfold MessageBus.broadcast_message.
  destruct (broadcast_loop_copies uuid4 now message exclude
              (MessageBus.agents bus).*1 0 bus)
    as (draws & Hcount & _ & _ & Hnodup & Hq).
  simpl in Hcount, Hq.
  exists draws. cbn zeta.
  split; [by rewrite length_fmap, Hcount|]. split; [done|].
  split; [done|]. split; [|split].
  - apply Forall_fmap, Forall_forall. intros d _. simpl.
    split; [eauto|]. split; [done|]. split; [done|].
    intros elapsed handler b. by apply deliver_without_response.
  - intros Hinj. rewrite <- list_fmap_compose.
    replace (Message.message_id
             ∘ (fun d => MessageBus.broadcast_msg uuid4 now d.1 message d.2))
      with (uuid4 ∘ (fst : nat * string -> nat)) by done.
    rewrite list_fmap_compose. by apply NoDup_fmap_2.
  - intros Hfresh. apply Forall_fmap, Forall_forall. intros d _. apply Hfresh.
Qed.

(** ** Task protocol *)

(** Linear arithmetic with quotients and remainders by a constant. *)
Ltac lia_div := zify; Z.to_euclidean_division_equations; lia.

Section ProtocolFacts.

(** Reading back the digits that [zero_padded] wrote. *)
Lemma read_digits_zero_padded (width : nat) (n : N) (rest : string)
    (more : nat) (acc : N) :
  (n < 10 ^ N.of_nat width)%N ->
  read_digits (width + more) (zero_padded width n rest) acc
  = read_digits more rest (acc * 10 ^ N.of_nat width + n)%N.
Proof.
  revert n rest more acc.
  induction width as [|width IH]; intros n rest more acc Hn.
  - simpl in *. f_equal. lia.
  - cbn [zero_padded].
    replace (S width + more)%nat with (width + S more)%nat by lia.
    assert (Hpow : (10 ^ N.of_nat (S width) = 10 * 10 ^ N.of_nat width)%N)
      by (rewrite Nat2N.inj_succ, N.pow_succ_r'; lia).
    rewrite Hpow in *. set (X := (10 ^ N.of_nat width)%N) in *. clearbody X.
    rewrite IH by (clear IH; lia_div). cbn [read_digits].
    rewrite N_ascii_embedding by lia_div.
    replace ((48 <=? 48 + n mod 10) && (48 + n mod 10 <=? 57))%N with true
      by (symmetry; apply andb_true_intro; split; apply N.leb_le; lia_div).
    f_equal. clear IH. lia_div.
Qed.

Lemma read_zero_padded (width : nat) (n : N) (rest : string) :
  (n < 10 ^ N.of_nat width)%N ->
  read_digits width (zero_padded width n rest) 0 = Some (n, rest).
Proof.
  intros Hn. pose proof (read_digits_zero_padded width n rest 0 0 Hn) as H.
  rewrite Nat.add_0_r in H. by rewrite H.
Qed.

Lemma days_in_month_le (y m : N) : (days_in_month y m <= 31)%N.
Proof. unfold days_in_month. repeat case_match; lia. Qed.

(** [fromisoformat] is the inverse of [isoformat]. *)
Lemma fromisoformat_isoformat (d : datetime) :
  valid_datetime d = true -> fromisoformat (isoformat d) = Some d.
Proof.
  intros Hv. pose proof Hv as Hvalid. unfold valid_datetime in Hv.
  repeat (apply andb_prop in Hv as [Hv ?]).
  repeat match goal with
         | H : (_ <=? _)%N = true |- _ => apply N.leb_le in H
         | H : (_ <? _)%N = true |- _ => apply N.ltb_lt in H
         end.
  pose proof (days_in_month_le (year d) (month d)).
  unfold fromisoformat, isoformat.
  do 6 (rewrite read_zero_padded by (simpl; lia);
        cbn -[zero_padded read_digits valid_datetime]).
  destruct (microsecond d =? 0)%N eqn:Hus.
  - apply N.eqb_eq in Hus. cbn -[valid_datetime].
    replace {| year := _ |} with d by (destruct d; simpl in *; congruence).
    by rewrite Hvalid.
  - cbn -[zero_padded read_digits valid_datetime].
    rewrite read_zero_padded by (simpl; lia).
    cbn -[valid_datetime].
    replace {| year := _ |} with d by (by destruct d).
    by rewrite Hvalid.
Qed.

Lemma isoformat_truthy (d : datetime) : truthy (VStr (isoformat d)) = true.
Proof. by destruct d. Qed.

Lemma TaskPriority_of_value_value (p : TaskPriority) :
  TaskPriority_of_value (VStr (TaskPriority_value p)) = Some p.
Proof. by destruct p. Qed.

Lemma AgentRole_of_value_value (r : AgentRole) :
  AgentRole_of_value (VStr (AgentRole_value r)) = Some r
  /\ truthy (VStr (AgentRole_value r)) = true.
Proof. by destruct r. Qed.

End ProtocolFacts.

(** C8.  A task written into a task request by [create_task_request] is
    read back unchanged by [extract_task_from_message]: every field of the
    result, the timestamps included, equals the field of the original. *)
Theorem task_request_round_trip (message_id : string) (timestamp : datetime)
    (sender recipient : string) (task : Task.t) (priority : TaskPriority)
    (correlation_id : option string) :
  valid_datetime (Task.created_at task) = true ->
  (forall d, Task.deadline task = Some d -> valid_datetime d = true) ->
  ProtocolHelper.extract_task_from_message
    (ProtocolHelper.create_task_request message_id timestamp sender recipient
       task priority correlation_id)
  = Some task.
Proof.
  intros Hcreated Hdeadline.
  unfold ProtocolHelper.extract_task_from_message,
    ProtocolHelper.create_task_request.
  cbn -[isoformat fromisoformat TaskPriority_of_value AgentRole_of_value truthy].
  rewrite fromisoformat_isoformat by done.
  cbn -[isoformat fromisoformat TaskPriority_of_value AgentRole_of_value truthy].
  rewrite TaskPriority_of_value_value.
  cbn -[isoformat fromisoformat TaskPriority_of_value AgentRole_of_value truthy].
  destruct task as [task_id title description requirements p role dependencies
                      metadata created_at deadline context].
  cbn -[isoformat fromisoformat TaskPriority_of_value AgentRole_of_value truthy]
    in *.
  destruct deadline as [d|], role as [r|];
    cbn -[isoformat fromisoformat TaskPriority_of_value AgentRole_of_value truthy];
    rewrite ?isoformat_truthy, ?(proj2 (AgentRole_of_value_value _));
    cbn -[isoformat fromisoformat TaskPriority_of_value AgentRole_of_value truthy];
    rewrite ?fromisoformat_isoformat by (by apply Hdeadline);
    cbn -[isoformat fromisoformat TaskPriority_of_value AgentRole_of_value truthy];
    rewrite ?(proj1 (AgentRole_of_value_value _));
    done.
Qed.

(** ** Agent pipeline *)

(** Case analysis on the outcome of the first call of a sequence. *)
Ltac step :=
  match goal with
  | |- context [mbind _ ?r] => destruct r eqn:?; cbn [mbind result_bind]
  | |- context [try_except ?r _] => destruct r eqn:?; cbn [try_except]
  end.

Section PipelineFacts.

Variable loads : string -> option value.
Variable generate_response : LLMRequest.t -> result LLMResponse.t.
Variable validation_prompt : Task.t -> value -> string.
Variable revision_prompt : value -> value -> Task.t -> string.
Variable _create_execution_plan : Task.t -> value -> result value.
Variable _execute_task : Task.t -> value -> value -> result value.
Variable _review_result : Task.t -> value -> value -> result ReviewResult.t.
Variable agent_id : string.
Variable execution_time : Q.

(** [orchestrate] returns a dictionary with an [execution_plan], whatever
    its collaborators do. *)
Lemma orchestrate_returns (task : Task.t) (context : value) :
  exists plan rest,
    BaseOrchestrator.orchestrate loads generate_response validation_prompt
      revision_prompt _create_execution_plan task context
    = Ok (VDict (("execution_plan", plan) :: rest)).
Proof.
  unfold BaseOrchestrator.orchestrate.
  destruct (_ ≫= _) as [v|e] eqn:Hbody; cbn [try_except]; [|eauto].
  revert Hbody. repeat (step; try done).
  intros [= <-]. eauto.
Qed.

(** [execute] returns one of its two dictionaries. *)
Lemma execute_returns (task : Task.t) (execution_plan context : value) :
  (exists result,
     _execute_task task execution_plan context = Ok result
     /\ BaseExecutor.execute _execute_task agent_id execution_time task
          execution_plan context
        = Ok (VDict [("result", result);
                     ("execution_time", VFloat (FFinite execution_time));
                     ("success", VBool true);
                     ("metadata",
                      VDict [("agent_id", VStr agent_id);
                             ("task_id", Task.task_id task);
                             ("execution_plan_used", execution_plan)])]))
  \/ (exists e,
        _execute_task task execution_plan context = Raise e
        /\ BaseExecutor.execute _execute_task agent_id execution_time task
             execution_plan context
           = Ok (VDict [("result", VDict []);
                        ("execution_time", VInt 0);
                        ("success", VBool false);
                        ("error", VStr (str e));
                        ("metadata",
                         VDict [("agent_id", VStr agent_id);
                                ("task_id", Task.task_id task)])])).
Proof.
  unfold BaseExecutor.execute.
  destruct (_execute_task task execution_plan context) as [r|e]; simpl; eauto.
Qed.

(** [review] returns a [ReviewResult]: either the merge of the domain
    review with the automated checks, or the result of its [except]
    branch, which is not approved. *)
Lemma review_returns (task : Task.t) (execution_result context : value) :
  exists r,
    BaseReviewer.review _review_result agent_id task execution_result context
    = Ok r
    /\ (ReviewResult.approved r = true ->
        exists review_result automated_checks,
          _review_result task execution_result context = Ok review_result
          /\ BaseReviewer._perform_automated_checks execution_result
             = Ok automated_checks
          /\ ReviewResult.approved review_result = true
          /\ ReviewResult.issues review_result = []
          /\ AutomatedChecks.issues automated_checks = []
          /\ ReviewResult.issues r = []
          /\ ReviewResult.score r
             = ((ReviewResult.score review_result
                 + AutomatedChecks.score automated_checks) / 2)%Q).
Proof.
  unfold BaseReviewer.review.
  destruct (_review_result task execution_result context) as [r0|e];
    cbn [mbind result_bind try_except]; [|eexists; split; [done|done]].
  destruct (BaseReviewer._perform_automated_checks execution_result) as [a|e];
    cbn [mbind result_bind try_except]; [|eexists; split; [done|done]].
  eexists. split; [done|]. cbn [ReviewResult.approved ReviewResult.issues
                                 ReviewResult.score].
  intros [Happ Hlen%Nat.eqb_eq]%andb_prop.
  apply nil_length_inv in Hlen. apply app_eq_nil in Hlen as [H1 H2].
  exists r0, a. rewrite H1, H2. done.
Qed.

(** When no automated check fails, the automated score is one. *)
Lemma automated_score_one (execution_result : value)
    (automated_checks : AutomatedChecks.t) :
  BaseReviewer._perform_automated_checks execution_result
  = Ok automated_checks ->
  AutomatedChecks.issues automated_checks = [] ->
  (AutomatedChecks.score automated_checks == 1)%Q.
Proof.
  unfold BaseReviewer._perform_automated_checks. repeat (step; try done).
  intros [= <-]. cbn [AutomatedChecks.issues AutomatedChecks.score].
  destruct (bool_decide _), a1, a2; vm_compute; done.
Qed.

End PipelineFacts.





(** ** Runs on sample data *)

Lemma delivery_strict_priority_witness :
  (MessageBus.deliver_next sample_uuid4 sample_now sample_elapsed "worker"
     sample_handler queued_bus).1
  = Some (sample_message "urgent" CRITICAL).
Proof.
  exact (f_equal fst
           (proj1 (delivery_strict_priority sample_uuid4 sample_now
                     sample_elapsed "worker" sample_handler queued_bus)
              (sample_message "urgent" CRITICAL) [] eq_refl)).
Defined.

Lemma task_request_round_trip_witness :
  ProtocolHelper.extract_task_from_message
    (ProtocolHelper.create_task_request "m-1" sample_time "planner" "worker"
       sample_task MEDIUM None)
  = Some sample_task.
Proof.
  apply task_request_round_trip.
  - reflexivity.
  - intros d [= <-]. reflexivity.
Defined.

Lemma sample_uuid4_inj : Inj (=) (=) sample_uuid4.
Proof.
  intros m n H. unfold sample_uuid4 in H. simpl in H.
  injection H as H. by apply (inj pretty).
Qed.

Lemma broadcast_copies_are_fresh_witness :
  exists copies : list Message.t,
    length copies
    = (MessageBus.broadcast_message sample_uuid4 sample_now
         (sample_message "announce" MEDIUM) ∅ roomy_bus).1
    /\ NoDup (Message.message_id <$> copies)
    /\ Forall (fun c => Message.message_id c <> "announce") copies
    /\ Forall (fun c => Message.requires_response c = false) copies.
Proof.
  destruct (broadcast_copies_are_fresh sample_uuid4 sample_now
              (sample_message "announce" MEDIUM) ∅ roomy_bus)
    as (draws & Hn & _ & _ & Hall & Hnodup & Hfresh).
  eexists. split; [exact Hn|]. split; [exact (Hnodup sample_uuid4_inj)|].
  split.
  - apply Hfresh. intros n. discriminate.
  - eapply Forall_impl; [exact Hall|]. simpl. tauto.
Defined.

(** A request that nobody answers: the call returns [None] and the table
    of pending responses is empty again. *)
Example send_request_unanswered :
  let out := MessageBus.send_request (sample_message "q-1" HIGH) id roomy_bus in
  out.1 = Ok None /\ MessageBus.pending_responses out.2 = ∅.
Proof. vm_compute. done. Qed.

(** The same request with one pass of the delivery loop while the caller
    waits: the handler's payload comes back in a response that names the
    request. *)
Example send_request_answered :
  let out :=
    MessageBus.send_request (sample_message "q-1" HIGH)
      (fun bus => (MessageBus.delivery_pass sample_uuid4 sample_now
                     sample_elapsed bus).2)
      roomy_bus in
  (exists response,
     out.1 = Ok (Some response)
     /\ Message.correlation_id response = Some "q-1"
     /\ Message.content response = [("response", VStr "ok")])
  /\ MessageBus.pending_responses out.2 = ∅.
Proof. vm_compute. split; [eexists; done|done]. Qed.

(** With a plan generation that raises, [orchestrate] returns the plan
    [{"error": ..}]; that dictionary is not empty, so [process_task] goes on
    to execute and review with it. *)
Example process_task_after_failed_planning :
  exists response,
    planless_agent sample_task (VDict []) = Ok (response, COMPLETED)
    /\ AgentResponse.success response = true
    /\ AgentResponse.result response
       = VDict [("plan_used",
                 VDict [("error", VStr "Orchestration failed: no plan")])].
Proof. vm_compute. eexists. done. Qed.

(** * Further properties *)

(** ** Runs of the message bus *)

Section BusFrames.

Variable uuid4 : nat -> string.
Variable now : nat -> datetime.
Variable elapsed : Message.t -> Q.

Lemma update_first_length id f (l : list MessageBus.History.entry) :
  length (MessageBus.update_first id f l) = length l.
Proof. induction l as [|e l IH]; simpl; [done|]. case_match; simpl; lia. Qed.

Lemma update_newest_length id f (l : list MessageBus.History.entry) :
  length (MessageBus.update_newest id f l) = length l.
Proof.
  unfold MessageBus.update_newest.
  by rewrite length_rev, update_first_length, length_rev.
Qed.

Lemma deque_append_length {A} (maxlen : nat) (x : A) (d : list A) :
  length (MessageBus.deque_append maxlen x d) = (S (length d) `min` maxlen)%nat.
Proof.
  unfold MessageBus.deque_append. rewrite length_drop, length_app.
  cbn [length]. lia.
Qed.

(** What [_deliver_message] leaves alone. *)
Lemma deliver_message_frame (m : Message.t) (h : MessageBus.Handler)
    (bus : MessageBus.t) :
  let bus' := MessageBus._deliver_message uuid4 now elapsed m h bus in
  MessageBus.message_queues bus' = MessageBus.message_queues bus
  /\ MessageBus.agents bus' = MessageBus.agents bus
  /\ MessageBus.max_queue_size bus' = MessageBus.max_queue_size bus
  /\ MessageBus.message_retention bus' = MessageBus.message_retention bus
  /\ MessageBus.running bus' = MessageBus.running bus
  /\ MessageBus.pending_responses bus' = MessageBus.pending_responses bus
  /\ length (MessageBus.message_history bus')
     = length (MessageBus.message_history bus).
Proof.
  unfold MessageBus._deliver_message.
  destruct (h m) as [[r|v]|e]; destruct (MessageBus.pending_slot m bus);
    simpl; by rewrite update_newest_length.
Qed.

(** The queues after [_get_next_message]. *)
Lemma get_next_message_queues (a : string) (bus : MessageBus.t) (r : string) :
  MessageBus.queues_of r (MessageBus._get_next_message a bus).2
  = if decide (a = r) then
      match MessageBus.pop_first MessageBus.priority_order
              (MessageBus.queues_of a bus) with
      | Some (_, qs') => qs'
      | None => MessageBus.queues_of a bus
      end
    else MessageBus.queues_of r bus.
Proof.
  unfold MessageBus._get_next_message.
  destruct (MessageBus.pop_first _ _) as [[m qs']|]; simpl;
    by rewrite queues_of_insert.
Qed.

Lemma get_next_message_frame (a : string) (bus : MessageBus.t) :
  let bus' := (MessageBus._get_next_message a bus).2 in
  MessageBus.agents bus' = MessageBus.agents bus
  /\ MessageBus.max_queue_size bus' = MessageBus.max_queue_size bus
  /\ MessageBus.message_retention bus' = MessageBus.message_retention bus
  /\ MessageBus.message_history bus' = MessageBus.message_history bus
  /\ MessageBus.running bus' = MessageBus.running bus
  /\ MessageBus.pending_responses bus' = MessageBus.pending_responses bus
  /\ MessageBus.futures bus' = MessageBus.futures bus
  /\ MessageBus.constructed bus' = MessageBus.constructed bus
  /\ MessageBus.stats bus' = MessageBus.stats bus.
Proof.
  unfold MessageBus._get_next_message.
  by destruct (MessageBus.pop_first _ _) as [[m qs']|].
Qed.

Lemma total_set_queue (p : TaskPriority) (q : list Message.t)
    (qs : MessageBus.queues) :
  (MessageBus.total (MessageBus.set_queue p q qs) + length (MessageBus.queue p qs)
   = MessageBus.total qs + length q)%nat.
Proof. destruct p; unfold MessageBus.total; simpl; lia. Qed.

End BusFrames.

(** An invariant of the bus is kept by every run as soon as the few
    primitive updates keep it. *)
Section RunInvariant.

Variable uuid4 : nat -> string.
Variable now : nat -> datetime.
Variable elapsed : Message.t -> Q.
Variable I : MessageBus.t -> Prop.

Hypothesis I_frame : forall bus bus',
  MessageBus.message_queues bus' = MessageBus.message_queues bus ->
  MessageBus.agents bus' = MessageBus.agents bus ->
  MessageBus.message_history bus' = MessageBus.message_history bus ->
  MessageBus.max_queue_size bus' = MessageBus.max_queue_size bus ->
  MessageBus.message_retention bus' = MessageBus.message_retention bus ->
  MessageBus.stats bus' = MessageBus.stats bus ->
  I bus -> I bus'.
Hypothesis I_send : forall m bus, I bus -> I (MessageBus.send_message m bus).2.
Hypothesis I_step : forall a h bus,
  I bus -> I (MessageBus.deliver_next uuid4 now elapsed a h bus).2.
Hypothesis I_register : forall a h bus,
  I bus -> I (MessageBus.register_agent a h bus).
Hypothesis I_unregister : forall a bus,
  I bus -> I (MessageBus.unregister_agent a bus).

Lemma broadcast_loop_invariant message exclude ids sent_count bus :
  I bus ->
  I (MessageBus.broadcast_loop uuid4 now message exclude ids sent_count bus).2.
Proof.
  revert sent_count bus. induction ids as [|a ids IH]; intros n bus Hb; [done|].
  simpl. case_match; [|by apply IH].
  destruct (MessageBus.send_message _ _) as [sent bus'] eqn:E.
  apply IH. replace bus' with (sent, bus').2 by done. rewrite <- E.
  apply I_send. by eapply I_frame; [..|exact Hb].
Qed.

Lemma delivery_pass_invariant bus :
  I bus -> I (MessageBus.delivery_pass uuid4 now elapsed bus).2.
Proof.
  unfold MessageBus.delivery_pass.
  generalize false. generalize (MessageBus.agents bus) as l.
  intros l. revert bus. induction l as [|[a h] l IH]; intros bus b Hb; [done|].
  simpl. pose proof (I_step a h bus Hb) as Hn.
  destruct (MessageBus.deliver_next uuid4 now elapsed a h bus) as [[m|] bus'];
    by apply IH.
Qed.

Lemma perform_invariant (o : MessageBus.operation) bus :
  I bus -> I (MessageBus.perform uuid4 now elapsed o bus).
Proof.
  intros Hb. destruct o; simpl.
  - unfold MessageBus.start. case_match; [done|]. by eapply I_frame; [..|exact Hb].
  - unfold MessageBus.stop. case_match; [done|]. by eapply I_frame; [..|exact Hb].
  - by apply I_register.
  - by apply I_unregister.
  - by apply I_send.
  - by apply broadcast_loop_invariant.
  - unfold MessageBus.send_request_begin.
    destruct (MessageBus.send_message _ _) as [sent bus'] eqn:E.
    assert (H' : I bus').
    { replace bus' with (sent, bus').2 by done. rewrite <- E. apply I_send.
      by eapply I_frame; [..|exact Hb]. }
    destruct sent; simpl; [done|]. by eapply I_frame; [..|exact H'].
  - unfold MessageBus.send_request_end, MessageBus.wait_for.
    destruct (MessageBus.future_at _ _); simpl; case_bool_decide; simpl;
      by eapply I_frame; [..|exact Hb].
  - by apply delivery_pass_invariant.
Qed.

Lemma run_invariant (operations : list MessageBus.operation) bus :
  I bus -> I (MessageBus.run uuid4 now elapsed operations bus).
Proof.
  unfold MessageBus.run. revert bus.
  induction operations as [|o os IH]; intros bus Hb; [done|].
  simpl. apply IH. by apply perform_invariant.
Qed.

End RunInvariant.

(** The same for an invariant that does not read the statistics and that
    taking a message from a queue and handing it to a handler keep
    separately. *)
Section RunInvariantParts.

Variable uuid4 : nat -> string.
Variable now : nat -> datetime.
Variable elapsed : Message.t -> Q.
Variable I : MessageBus.t -> Prop.

Hypothesis I_frame : forall bus bus',
  MessageBus.message_queues bus' = MessageBus.message_queues bus ->
  MessageBus.agents bus' = MessageBus.agents bus ->
  MessageBus.message_history bus' = MessageBus.message_history bus ->
  MessageBus.max_queue_size bus' = MessageBus.max_queue_size bus ->
  MessageBus.message_retention bus' = MessageBus.message_retention bus ->
  I bus -> I bus'.
Hypothesis I_send : forall m bus, I bus -> I (MessageBus.send_message m bus).2.
Hypothesis I_next : forall a bus,
  I bus -> I (MessageBus._get_next_message a bus).2.
Hypothesis I_deliver : forall m h bus,
  I bus -> I (MessageBus._deliver_message uuid4 now elapsed m h bus).
Hypothesis I_register : forall a h bus,
  I bus -> I (MessageBus.register_agent a h bus).
Hypothesis I_unregister : forall a bus,
  I bus -> I (MessageBus.unregister_agent a bus).

Lemma deliver_next_invariant a h bus :
  I bus -> I (MessageBus.deliver_next uuid4 now elapsed a h bus).2.
Proof.
  intros Hb. unfold MessageBus.deliver_next. case_bool_decide; [|done].
  pose proof (I_next a bus Hb) as Hn.
  destruct (MessageBus._get_next_message a bus) as [[m|] bus']; simpl in *;
    [by apply I_deliver|done].
Qed.

Lemma run_invariant_parts (operations : list MessageBus.operation) bus :
  I bus -> I (MessageBus.run uuid4 now elapsed operations bus).
Proof.
  apply run_invariant; try done.
  - intros b b' ? ? ? ? ? _. by apply I_frame.
  - apply deliver_next_invariant.
Qed.

End RunInvariantParts.

Section BusInvariants.

Variable uuid4 : nat -> string.
Variable now : nat -> datetime.
Variable elapsed : Message.t -> Q.

Lemma queues_of_same_map (bus bus' : MessageBus.t) (r : string) :
  MessageBus.message_queues bus' = MessageBus.message_queues bus ->
  MessageBus.queues_of r bus' = MessageBus.queues_of r bus.
Proof. unfold MessageBus.queues_of. by intros ->. Qed.

Lemma registered_same_agents (bus bus' : MessageBus.t) (r : string) :
  MessageBus.agents bus' = MessageBus.agents bus ->
  MessageBus.registered r bus' = MessageBus.registered r bus.
Proof. unfold MessageBus.registered. by intros ->. Qed.

Lemma assign_ids (a : string) (h : MessageBus.Handler)
    (l : list (string * MessageBus.Handler)) (x : string) :
  x ∈ (MessageBus.assign a h l).*1 <-> x = a \/ x ∈ l.*1.
Proof.
  induction l as [|[a' h'] l IH]; simpl.
  - rewrite list_elem_of_singleton, elem_of_nil. tauto.
  - destruct (String.eqb_spec a a') as [->|Hne]; simpl.
    + rewrite elem_of_cons. tauto.
    + rewrite !elem_of_cons, IH. tauto.
Qed.

Lemma remaining_ids (a : string) (l : list (string * MessageBus.Handler))
    (x : string) :
  x ∈ (filter (fun '(a', _) => a' <> a) l).*1 <-> x <> a /\ x ∈ l.*1.
Proof.
  induction l as [|[a' h'] l IH].
  - cbn. rewrite elem_of_nil. tauto.
  - rewrite filter_cons. destruct (decide (a' <> a)) as [Hne|Heq]; simpl.
    + rewrite !elem_of_cons, IH. split.
      * intros [->|[? ?]]; tauto.
      * tauto.
    + apply dec_stable in Heq. subst a'. rewrite elem_of_cons, IH.
      split; [tauto|]. intros [Hx [?|?]]; [contradiction|tauto].
Qed.

Lemma registered_register (a r : string) (h : MessageBus.Handler)
    (bus : MessageBus.t) :
  MessageBus.registered r (MessageBus.register_agent a h bus)
  = bool_decide (r = a) || MessageBus.registered r bus.
Proof.
  unfold MessageBus.registered, MessageBus.register_agent. simpl.
  rewrite <- bool_decide_or. apply bool_decide_ext, assign_ids.
Qed.

Lemma queues_of_unregister (a r : string) (bus : MessageBus.t) :
  MessageBus.queues_of r (MessageBus.unregister_agent a bus)
  = if MessageBus.registered a bus && bool_decide (r = a)
    then MessageBus.empty_queues else MessageBus.queues_of r bus.
Proof.
  unfold MessageBus.unregister_agent.
  destruct (MessageBus.registered a bus); simpl; [|done].
  unfold MessageBus.queues_of. simpl. case_bool_decide as H.
  - subst. by rewrite lookup_delete_eq.
  - by rewrite lookup_delete_ne.
Qed.

Lemma registered_unregister (a r : string) (bus : MessageBus.t) :
  MessageBus.registered r (MessageBus.unregister_agent a bus)
  = MessageBus.registered r bus && negb (bool_decide (r = a)).
Proof.
  unfold MessageBus.unregister_agent.
  destruct (MessageBus.registered a bus) eqn:Ha; simpl.
  - unfold MessageBus.registered. simpl.
    rewrite <- bool_decide_not, <- bool_decide_and.
    apply bool_decide_ext. rewrite remaining_ids. tauto.
  - case_bool_decide as H; simpl; [|by rewrite andb_true_r].
    subst. by rewrite Ha.
Qed.

Lemma within_cap_run (operations : list MessageBus.operation)
    (bus : MessageBus.t) :
  MessageBus.within_cap bus ->
  MessageBus.within_cap (MessageBus.run uuid4 now elapsed operations bus).
Proof.
  apply run_invariant_parts.
  - intros b b' Hq _ _ Hmax _ Hb r. rewrite Hmax, (queues_of_same_map _ _ _ Hq).
    apply Hb.
  - intros m b Hb r.
    destruct (send_message_result m b) as [_ Hq].
    pose proof (send_message_frame m b) as (_&_&_&_&_&Hmax).
    rewrite Hq, Hmax. case_match eqn:Hacc; [|apply Hb].
    apply andb_prop in Hacc as [Hacc _].
    apply andb_prop in Hacc as [_ Hroom%negb_true_iff%Z.leb_gt].
    pose proof (total_set_queue (Message.priority m)
                  (MessageBus.queue (Message.priority m)
                     (MessageBus.queues_of (Message.recipient m) b) ++ [m])
                  (MessageBus.queues_of (Message.recipient m) b)) as Ht.
    rewrite length_app in Ht. simpl in Ht. lia.
  - intros a b Hb r. rewrite get_next_message_queues.
    pose proof (get_next_message_frame a b) as (_&->&_).
    case_decide as Har; [|apply Hb]. subst r.
    destruct (MessageBus.pop_first _ _) as [[m qs']|] eqn:Hpop; [|apply Hb].
    destruct (pop_first_highest _ _ _ Hpop) as (p & q & Hhead & -> & _).
    pose proof (total_set_queue p q (MessageBus.queues_of a b)) as Ht.
    rewrite Hhead in Ht. simpl in Ht. specialize (Hb a). lia.
  - intros m h b Hb r.
    pose proof (deliver_message_frame uuid4 now elapsed m h b)
      as (Hq&_&Hmax&_).
    rewrite Hmax, (queues_of_same_map _ _ _ Hq). apply Hb.
  - intros a h b Hb r. apply Hb.
  - intros a b Hb r. rewrite queues_of_unregister.
    replace (MessageBus.max_queue_size (MessageBus.unregister_agent a b))
      with (MessageBus.max_queue_size b)
      by (unfold MessageBus.unregister_agent; by case_match).
    case_match; [|apply Hb]. specialize (Hb r).
    change (MessageBus.total MessageBus.empty_queues) with 0%nat. lia.
Qed.

Lemma history_bounded_run (operations : list MessageBus.operation)
    (bus : MessageBus.t) :
  MessageBus.history_bounded bus ->
  MessageBus.history_bounded (MessageBus.run uuid4 now elapsed operations bus).
Proof.
  apply run_invariant_parts; unfold MessageBus.history_bounded.
  - intros b b' _ _ -> _ ->. done.
  - intros m b Hb. unfold MessageBus.send_message.
    repeat case_match; simpl; try done.
    rewrite deque_append_length. lia.
  - intros a b Hb.
    pose proof (get_next_message_frame a b) as (_&_&->&->&_). done.
  - intros m h b Hb.
    pose proof (deliver_message_frame uuid4 now elapsed m h b)
      as (_&_&_&->&_&_&->). done.
  - intros a h b Hb. done.
  - intros a b Hb. unfold MessageBus.unregister_agent. by case_match.
Qed.

Lemma well_placed_run (operations : list MessageBus.operation)
    (bus : MessageBus.t) :
  MessageBus.well_placed bus ->
  MessageBus.well_placed (MessageBus.run uuid4 now elapsed operations bus).
Proof.
  apply run_invariant_parts.
  - intros b b' Hq Ha _ _ _ Hb r p m.
    rewrite (queues_of_same_map _ _ _ Hq), (registered_same_agents _ _ _ Ha).
    apply Hb.
  - intros m b Hb r p x.
    destruct (send_message_result m b) as [_ Hq].
    pose proof (send_message_frame m b) as (_&_&_&Hag&_).
    rewrite Hq, (registered_same_agents _ _ _ Hag).
    case_match eqn:Hacc; [|apply Hb].
    apply andb_prop in Hacc as [Hacc Hr%bool_decide_eq_true].
    apply andb_prop in Hacc as [Hacc _].
    apply andb_prop in Hacc as [_ Hreg]. subst r.
    rewrite queue_set_queue.
    destruct (decide (Message.priority m = p)) as [<-|Hp]; [|apply Hb].
    intros [Hin| ->%list_elem_of_singleton]%elem_of_app; [by apply Hb|done].
  - intros a b Hb r p x. rewrite get_next_message_queues.
    pose proof (get_next_message_frame a b) as (Hag&_).
    rewrite (registered_same_agents _ _ _ Hag).
    case_decide as Har; [|apply Hb]. subst r.
    destruct (MessageBus.pop_first _ _) as [[m qs']|] eqn:Hpop; [|apply Hb].
    destruct (pop_first_highest _ _ _ Hpop) as (p' & q & Hhead & -> & _).
    rewrite queue_set_queue.
    destruct (decide (p' = p)) as [<-|Hp]; [|apply Hb].
    intros Hin. apply Hb. rewrite Hhead. by apply list_elem_of_further.
  - intros m h b Hb r p x.
    pose proof (deliver_message_frame uuid4 now elapsed m h b) as (Hq&Hag&_).
    rewrite (queues_of_same_map _ _ _ Hq), (registered_same_agents _ _ _ Hag).
    apply Hb.
  - intros a h b Hb r p x Hin. rewrite registered_register.
    destruct (Hb r p x Hin) as (?&?&->). by rewrite orb_true_r.
  - intros a b Hb r p x. rewrite queues_of_unregister, registered_unregister.
    destruct (MessageBus.registered a b && bool_decide (r = a)) eqn:E.
    + destruct p; simpl; by intros ?%elem_of_nil.
    + intros Hin. destruct (Hb r p x Hin) as (?&?&Hreg).
      split; [done|]. split; [done|]. rewrite Hreg. simpl.
      case_bool_decide as Hra; [|done].
      rewrite Hra in Hreg. by rewrite Hreg in E.
Qed.

Lemma init_well_placed (max_queue_size : Z) (message_retention : nat) :
  MessageBus.well_placed (MessageBus.init max_queue_size message_retention).
Proof. intros r [] m; cbn; by intros ?%elem_of_nil. Qed.

End BusInvariants.

Section BusRuns.

Variable uuid4 : nat -> string.
Variable now : nat -> datetime.
Variable elapsed : Message.t -> Q.

Lemma settings_run (operations : list MessageBus.operation)
    (bus : MessageBus.t) :
  MessageBus.max_queue_size (MessageBus.run uuid4 now elapsed operations bus)
  = MessageBus.max_queue_size bus
  /\ MessageBus.message_retention
       (MessageBus.run uuid4 now elapsed operations bus)
     = MessageBus.message_retention bus.
Proof.
  apply (run_invariant_parts uuid4 now elapsed
           (fun b => MessageBus.max_queue_size b = MessageBus.max_queue_size bus
                     /\ MessageBus.message_retention b
                        = MessageBus.message_retention bus)); [..|done].
  - by intros b b' _ _ _ -> ->.
  - intros m b Hb. unfold MessageBus.send_message. by repeat case_match.
  - intros a b Hb. by pose proof (get_next_message_frame a b) as (_&->&->&_).
  - intros m h b Hb.
    by pose proof (deliver_message_frame uuid4 now elapsed m h b)
      as (_&_&->&->&_).
  - done.
  - intros a b Hb. unfold MessageBus.unregister_agent. by case_match.
Qed.

Lemma pop_first_delivery_order (qs : MessageBus.queues) :
  match MessageBus.pop_first MessageBus.priority_order qs with
  | Some (m, qs') =>
      MessageBus.in_delivery_order qs = m :: MessageBus.in_delivery_order qs'
  | None => MessageBus.in_delivery_order qs = []
  end.
Proof.
  destruct qs as [[|m1 q1] [|m2 q2] [|m3 q3] [|m4 q4]]; done.
Qed.

Lemma deliver_next_order (a : string) (h : MessageBus.Handler)
    (bus : MessageBus.t) :
  let qs := MessageBus.queues_of a bus in
  let out := MessageBus.deliver_next uuid4 now elapsed a h bus in
  match out.1 with
  | Some m =>
      MessageBus.in_delivery_order qs
      = m :: MessageBus.in_delivery_order (MessageBus.queues_of a out.2)
  | None => MessageBus.in_delivery_order qs = []
  end.
Proof.
  intros qs out. subst qs out. unfold MessageBus.deliver_next.
  case_bool_decide as Hdom.
  2:{ simpl. unfold MessageBus.queues_of.
      apply not_elem_of_dom in Hdom. by rewrite Hdom. }
  pose proof (get_next_message_queues a bus a) as Hq.
  rewrite decide_True in Hq by done.
  pose proof (pop_first_delivery_order (MessageBus.queues_of a bus)) as Ho.
  unfold MessageBus._get_next_message in *.
  destruct (MessageBus.pop_first _ _) as [[m qs']|]; simpl in *; [|done].
  pose proof (deliver_message_frame uuid4 now elapsed m h
                (MessageBus.with_message_queues <[a := qs']> bus)) as (Hf&_).
  by rewrite (queues_of_same_map _ _ _ Hf), Hq.
Qed.

Lemma deliver_many_prefix (n : nat) (a : string) (h : MessageBus.Handler)
    (bus : MessageBus.t) :
  (MessageBus.deliver_many uuid4 now elapsed n a h bus).1
  = take n (MessageBus.in_delivery_order (MessageBus.queues_of a bus)).
Proof.
  revert bus. induction n as [|n IH]; intros bus; [done|].
  simpl. pose proof (deliver_next_order a h bus) as Ho. simpl in Ho.
  destruct (MessageBus.deliver_next uuid4 now elapsed a h bus)
    as [[m|] bus']; simpl in Ho.
  - specialize (IH bus').
    destruct (MessageBus.deliver_many uuid4 now elapsed n a h bus')
      as [ms bus''].
    simpl in *. by rewrite Ho, IH.
  - by rewrite Ho.
Qed.

(** What a caller gets who sends several messages to one recipient with
    room for all of them. *)
Lemma send_messages_accepted (r : string) (messages : list Message.t)
    (bus : MessageBus.t) :
  MessageBus.running bus = true ->
  MessageBus.registered r bus = true ->
  Forall (fun m => Message.recipient m = r) messages ->
  Z.of_nat (MessageBus.total (MessageBus.queues_of r bus) + length messages)
    <= MessageBus.max_queue_size bus ->
  let out := MessageBus.send_messages messages bus in
  out.1 = replicate (length messages) true
  /\ forall p,
       MessageBus.queue p (MessageBus.queues_of r out.2)
       = (MessageBus.queue p (MessageBus.queues_of r bus)
          ++ filter (fun m => Message.priority m = p) messages)%list.
Proof.
  revert bus. induction messages as [|m ms IH]; intros bus Hrun Hreg Hall Hroom.
  { simpl. split; [done|]. intros p. by rewrite filter_nil, app_nil_r. }
  apply Forall_cons in Hall as [Hm Hall].
  cbn [MessageBus.send_messages].
  destruct (send_message_result m bus) as [Hsent Hq].
  pose proof (send_message_frame m bus) as (_&_&_&Hag&Hrun'&Hmax).
  cbn zeta in Hsent, Hq, Hag, Hrun', Hmax.
  rewrite Hm, Hrun, Hreg in Hsent, Hq. cbn [andb] in Hsent, Hq.
  assert (Hlt : (MessageBus.max_queue_size bus
                 <=? Z.of_nat (MessageBus.total (MessageBus.queues_of r bus)))
                = false).
  { apply Z.leb_gt. cbn [length] in Hroom. lia. }
  rewrite Hlt in Hsent, Hq. cbn [negb andb] in Hsent, Hq.
  destruct (MessageBus.send_message m bus) as [sent bus1].
  cbn [fst snd] in *. subst sent.
  specialize (Hq r). rewrite bool_decide_eq_true_2 in Hq by done.
  pose proof (total_set_queue (Message.priority m)
                (MessageBus.queue (Message.priority m)
                   (MessageBus.queues_of r bus) ++ [m])
                (MessageBus.queues_of r bus)) as Ht.
  rewrite length_app in Ht. cbn [length] in Ht, Hroom.
  destruct (IH bus1) as [Hres Hqs].
  { by rewrite Hrun'. }
  { by rewrite (registered_same_agents _ _ _ Hag). }
  { done. }
  { rewrite Hmax, Hq. lia. }
  destruct (MessageBus.send_messages ms bus1) as [results bus2].
  cbn [fst snd] in *. split; [by rewrite Hres|].
  intros p. rewrite Hqs, Hq, queue_set_queue, filter_cons.
  destruct (decide (Message.priority m = p)) as [Hp|Hp].
  - subst p. by rewrite <- app_assoc.
  - done.
Qed.

Lemma empty_queues_in_order (qs : MessageBus.queues) :
  (forall p, MessageBus.queue p qs = []) <-> MessageBus.total qs = 0%nat.
Proof.
  split.
  - intros H. unfold MessageBus.total.
    by rewrite (H CRITICAL : MessageBus.critical qs = []),
               (H HIGH : MessageBus.high qs = []),
               (H MEDIUM : MessageBus.medium qs = []),
               (H LOW : MessageBus.low qs = []).
  - unfold MessageBus.total. intros H p.
    destruct qs as [[|] [|] [|] [|]]; destruct p; simpl in *; done || lia.
Qed.

Lemma in_delivery_order_length (qs : MessageBus.queues) :
  length (MessageBus.in_delivery_order qs) = MessageBus.total qs.
Proof.
  unfold MessageBus.in_delivery_order, MessageBus.total.
  rewrite !length_app. lia.
Qed.

Lemma by_priority_then_arrival_length (messages : list Message.t) :
  length (by_priority_then_arrival messages) = length messages.
Proof.
  unfold by_priority_then_arrival. simpl. rewrite app_nil_r, !length_app.
  induction messages as [|m ms IH]; [done|].
  rewrite !filter_cons.
  destruct (Message.priority m);
    repeat (destruct (decide _) as [?|?]; try done); simpl in *; lia.
Qed.

End BusRuns.

(** X1.  With a cap that is not negative, no run of start, stop,
    registrations, sends, broadcasts, requests and delivery passes from a
    new bus leaves a recipient with more queued messages than
    [max_queue_size]. *)
Theorem queues_stay_within_cap (uuid4 : nat -> string)
    (now : nat -> datetime) (elapsed : Message.t -> Q)
    (max_queue_size : Z) (message_retention : nat)
    (operations : list MessageBus.operation) (r : string) :
  0 <= max_queue_size ->
  Z.of_nat
    (MessageBus.total
       (MessageBus.queues_of r
          (MessageBus.run uuid4 now elapsed operations
             (MessageBus.init max_queue_size message_retention))))
  <= max_queue_size.
Proof.
  intros Hmax.
  pose proof (within_cap_run uuid4 now elapsed operations
                (MessageBus.init max_queue_size message_retention)) as H.
  destruct (settings_run uuid4 now elapsed operations
              (MessageBus.init max_queue_size message_retention)) as [Hm _].
  simpl in Hm. rewrite <- Hm at 2. apply H. intros r'. by cbn.
Qed.

Lemma queues_stay_within_cap_witness :
  0 <= 1
  /\ Z.of_nat
       (MessageBus.total
          (MessageBus.queues_of "worker"
             (MessageBus.run sample_uuid4 sample_now sample_elapsed
                sample_operations (MessageBus.init 1 100))))
     <= 1.
Proof.
  split; [lia|].
  apply (queues_stay_within_cap sample_uuid4 sample_now sample_elapsed 1 100
           sample_operations "worker").
  lia.
Defined.

(** X2.  After any run from a new bus the history holds at most
    [message_retention] entries. *)
Theorem history_stays_within_retention (uuid4 : nat -> string)
    (now : nat -> datetime) (elapsed : Message.t -> Q)
    (max_queue_size : Z) (message_retention : nat)
    (operations : list MessageBus.operation) :
  (length
     (MessageBus.message_history
        (MessageBus.run uuid4 now elapsed operations
           (MessageBus.init max_queue_size message_retention)))
   <= message_retention)%nat.
Proof.
  pose proof (history_bounded_run uuid4 now elapsed operations
                (MessageBus.init max_queue_size message_retention)) as H.
  destruct (settings_run uuid4 now elapsed operations
              (MessageBus.init max_queue_size message_retention)) as [_ Hr].
  unfold MessageBus.history_bounded in H. rewrite Hr in H.
  apply H. simpl. lia.
Qed.

(** X3.  After any run from a new bus, a queued message sits in the queue
    of its own recipient and of its own priority, and that recipient is
    registered: unregistering an agent leaves none of its messages
    behind.  So the message that a step of the delivery loop hands to the
    handler of an agent is addressed to that agent. *)
Theorem queued_messages_are_well_placed (uuid4 : nat -> string)
    (now : nat -> datetime) (elapsed : Message.t -> Q)
    (max_queue_size : Z) (message_retention : nat)
    (operations : list MessageBus.operation) :
  let bus :=
    MessageBus.run uuid4 now elapsed operations
      (MessageBus.init max_queue_size message_retention) in
  MessageBus.well_placed bus
  /\ forall agent_id handler m,
       (MessageBus.deliver_next uuid4 now elapsed agent_id handler bus).1
       = Some m ->
       Message.recipient m = agent_id
       /\ MessageBus.registered agent_id bus = true.
Proof.
  intros bus.
  assert (Hw : MessageBus.well_placed bus).
  { apply well_placed_run, init_well_placed. }
  split; [done|]. intros a h m Hd.
  pose proof (deliver_next_order uuid4 now elapsed a h bus) as Ho.
  simpl in Ho. rewrite Hd in Ho.
  assert (Hin : m ∈ MessageBus.in_delivery_order (MessageBus.queues_of a bus))
    by (rewrite Ho; apply list_elem_of_here).
  unfold MessageBus.in_delivery_order in Hin.
  rewrite !elem_of_app in Hin.
  destruct Hin as [Hin|[Hin|[Hin|Hin]]].
  - by destruct (Hw a CRITICAL m Hin) as (?&?&?).
  - by destruct (Hw a HIGH m Hin) as (?&?&?).
  - by destruct (Hw a MEDIUM m Hin) as (?&?&?).
  - by destruct (Hw a LOW m Hin) as (?&?&?).
Qed.

(** X4.  The delivery loop drains the queues of a recipient in one fixed
    order: the CRITICAL queue from its head, then HIGH, MEDIUM and LOW.
    As many steps as there are queued messages hand over all of them in
    that order; any number of steps hands over a prefix of it. *)
Theorem delivery_order_is_priority_then_arrival (uuid4 : nat -> string)
    (now : nat -> datetime) (elapsed : Message.t -> Q) (agent_id : string)
    (handler : MessageBus.Handler) (bus : MessageBus.t) (n : nat) :
  let qs := MessageBus.queues_of agent_id bus in
  (MessageBus.deliver_many uuid4 now elapsed (MessageBus.total qs) agent_id
     handler bus).1
  = (MessageBus.critical qs ++ MessageBus.high qs ++ MessageBus.medium qs
     ++ MessageBus.low qs)%list
  /\ (MessageBus.deliver_many uuid4 now elapsed n agent_id handler bus).1
     `prefix_of` (MessageBus.critical qs ++ MessageBus.high qs
                  ++ MessageBus.medium qs ++ MessageBus.low qs)%list.
Proof.
  intros qs. rewrite !deliver_many_prefix. fold qs.
  change (MessageBus.critical qs ++ _)%list
    with (MessageBus.in_delivery_order qs).
  split.
  - rewrite <- in_delivery_order_length. apply firstn_all.
  - apply prefix_take.
Qed.

(** X5.  Messages sent one after the other to a registered recipient of a
    running bus, with empty queues and room for all of them, are all
    accepted, and the delivery loop then hands them over by priority,
    and within one priority in the order of sending. *)
Theorem sent_messages_are_delivered_in_order (uuid4 : nat -> string)
    (now : nat -> datetime) (elapsed : Message.t -> Q) (r : string)
    (handler : MessageBus.Handler) (messages : list Message.t)
    (bus : MessageBus.t) :
  MessageBus.running bus = true ->
  MessageBus.registered r bus = true ->
  MessageBus.total (MessageBus.queues_of r bus) = 0%nat ->
  Forall (fun m => Message.recipient m = r) messages ->
  Z.of_nat (length messages) <= MessageBus.max_queue_size bus ->
  let sent := MessageBus.send_messages messages bus in
  sent.1 = replicate (length messages) true
  /\ (MessageBus.deliver_many uuid4 now elapsed (length messages) r handler
        sent.2).1
     = by_priority_then_arrival messages.
Proof.
  intros Hrun Hreg Hempty Hall Hroom sent.
  destruct (send_messages_accepted r messages bus Hrun Hreg Hall) as [Hres Hq].
  { rewrite Hempty. simpl. lia. }
  split; [done|].
  rewrite deliver_many_prefix.
  pose proof (proj2 (empty_queues_in_order _) Hempty) as Hnil.
  clear Hempty. rename Hnil into Hempty.
  assert (Ho : MessageBus.in_delivery_order (MessageBus.queues_of r sent.2)
               = by_priority_then_arrival messages).
  { unfold MessageBus.in_delivery_order, by_priority_then_arrival.
    pose proof (Hq CRITICAL) as H1. pose proof (Hq HIGH) as H2.
    pose proof (Hq MEDIUM) as H3. pose proof (Hq LOW) as H4.
    rewrite Hempty in H1, H2, H3, H4. simpl in H1, H2, H3, H4.
    subst sent. rewrite H1, H2, H3, H4. simpl. by rewrite app_nil_r. }
  rewrite Ho.
  rewrite <- (by_priority_then_arrival_length messages) at 1.
  apply firstn_all.
Qed.

Lemma sent_messages_are_delivered_in_order_witness :
  (MessageBus.deliver_many sample_uuid4 sample_now sample_elapsed 3 "worker"
     sample_handler (MessageBus.send_messages sample_messages roomy_bus).2).1
  = [sample_message "second" CRITICAL; sample_message "first" MEDIUM;
     sample_message "third" MEDIUM].
Proof.
  refine (proj2 (sent_messages_are_delivered_in_order sample_uuid4 sample_now
                   sample_elapsed "worker" sample_handler sample_messages
                   roomy_bus _ _ _ _ _)).
  - reflexivity.
  - vm_compute. reflexivity.
  - vm_compute. reflexivity.
  - repeat constructor.
  - simpl. lia.
Defined.

(** ** Requests and responses *)





Lemma cancel_pending_futures (l : list (string * nat))
    (fs : gmap nat MessageBus.Future) (k : nat) :
  default MessageBus.Pending
    (foldr (fun '(_, fid) fs =>
              if MessageBus.done (default MessageBus.Pending (fs !! fid))
              then fs else <[fid := MessageBus.Cancelled]> fs)
           fs l !! k)
  = if bool_decide (k ∈ l.*2) then
      if MessageBus.done (default MessageBus.Pending (fs !! k))
      then default MessageBus.Pending (fs !! k) else MessageBus.Cancelled
    else default MessageBus.Pending (fs !! k).
Proof.
  induction l as [|[id fid] l IH]; [done|].
  cbn [foldr fmap list_fmap snd].
  set (g := foldr _ fs l) in *.
  destruct (decide (k = fid)) as [->|Hne].
  - rewrite (bool_decide_eq_true_2 (fid ∈ fid :: l.*2))
      by apply list_elem_of_here.
    destruct (MessageBus.done (default MessageBus.Pending (g !! fid))) eqn:Hd.
    + rewrite IH in Hd |- *. case_bool_decide; [done|]. by rewrite Hd.
    + rewrite lookup_insert_eq. simpl. rewrite IH in Hd.
      case_bool_decide.
      * destruct (MessageBus.done (default MessageBus.Pending (fs !! fid)))
          eqn:E; [congruence|done].
      * by rewrite Hd.
  - assert (Hk : bool_decide (k ∈ fid :: l.*2) = bool_decide (k ∈ l.*2)).
    { apply bool_decide_ext. rewrite elem_of_cons. tauto. }
    rewrite Hk, <- IH.
    destruct (MessageBus.done (default MessageBus.Pending (g !! fid)));
      [done|by rewrite lookup_insert_ne].
Qed.

(** X7.  [stop] on a running bus clears [running] and cancels every
    future that [pending_responses] refers to and that is not done; a
    future that is done keeps its outcome, a future that the table does
    not refer to is left alone, and the table itself keeps its entries.
    A second [stop] changes nothing. *)
Theorem stop_cancels_unfinished_requests (bus : MessageBus.t)
    (id : string) (response_future other : nat) :
  MessageBus.running bus = true ->
  MessageBus.pending_responses bus !! id = Some response_future ->
  let stopped := MessageBus.stop bus in
  MessageBus.running stopped = false
  /\ MessageBus.future_at response_future stopped
     = (if MessageBus.done (MessageBus.future_at response_future bus)
        then MessageBus.future_at response_future bus
        else MessageBus.Cancelled)
  /\ ((forall id', MessageBus.pending_responses bus !! id' <> Some other) ->
      MessageBus.future_at other stopped = MessageBus.future_at other bus)
  /\ MessageBus.pending_responses stopped = MessageBus.pending_responses bus
  /\ MessageBus.stop stopped = stopped.
Proof.
  intros Hrun Hp stopped. subst stopped. unfold MessageBus.stop.
  rewrite Hrun. cbn [negb]. split; [done|].
  unfold MessageBus.future_at.
  cbn [MessageBus.futures MessageBus.with_futures MessageBus.with_running
       MessageBus.pending_responses].
  rewrite !cancel_pending_futures.
  split; [|split; [|done]].
  - rewrite bool_decide_eq_true_2; [done|].
    apply list_elem_of_fmap. exists (id, response_future).
    split; [done|]. by apply elem_of_map_to_list.
  - intros Hother. rewrite bool_decide_eq_false_2; [done|].
    intros ([id' fid] & -> & Hin%elem_of_map_to_list)%list_elem_of_fmap.
    by apply (Hother id').
Qed.

Lemma stop_cancels_unfinished_requests_witness :
  MessageBus.future_at 0 (MessageBus.stop waiting_bus) = MessageBus.Cancelled.
Proof.
  refine (proj1 (proj2 (stop_cancels_unfinished_requests waiting_bus "q-1"
                          0%nat 7%nat _ _))).
  - vm_compute. reflexivity.
  - vm_compute. reflexivity.
Defined.

(** X8.  A request that was queued and whose bus is stopped while the
    caller waits does not return [None]: the caller is resumed with
    [CancelledError], which [send_request] does not catch; its [finally]
    still removes the entry of the request from [pending_responses]. *)
Theorem request_raises_when_bus_stops (message : Message.t)
    (bus : MessageBus.t) :
  let r := Message.recipient message in
  MessageBus.running bus = true ->
  MessageBus.registered r bus = true ->
  Z.of_nat (MessageBus.total (MessageBus.queues_of r bus))
    < MessageBus.max_queue_size bus ->
  let out := MessageBus.send_request message MessageBus.stop bus in
  out.1 = Raise (MkExn "CancelledError" "")
  /\ MessageBus.pending_responses out.2 !! Message.message_id message = None.
Proof.
  intros r Hrun Hreg Hroom out. subst out.
  unfold MessageBus.send_request, MessageBus.send_request_begin.
  set (request := if negb (Message.requires_response message) then _ else message).
  assert (Hrec : Message.recipient request = r)
    by (subst request; by destruct (Message.requires_response message)).
  assert (Hid : Message.message_id request = Message.message_id message)
    by (subst request; by destruct (Message.requires_response message)).
  clearbody request.
  set (fid := fresh _).
  set (bus0 := MessageBus.with_pending_responses _ _).
  destruct (send_message_result request bus0) as [Hsent _].
  pose proof (send_message_frame request bus0) as (Hp&Hf&_&_&Hrun'&_).
  cbn zeta in Hsent, Hp, Hf, Hrun'.
  rewrite Hrec in Hsent.
  change (MessageBus.running bus0) with (MessageBus.running bus) in *.
  change (MessageBus.registered r bus0) with (MessageBus.registered r bus) in *.
  change (MessageBus.queues_of r bus0) with (MessageBus.queues_of r bus) in *.
  change (MessageBus.max_queue_size bus0)
    with (MessageBus.max_queue_size bus) in *.
  rewrite Hrun, Hreg, (proj2 (Z.leb_gt _ _)) in Hsent by done.
  destruct (MessageBus.send_message request bus0) as [sent bus1].
  cbn [fst snd] in *. subst sent. cbn [negb andb].
  assert (Hlook : MessageBus.pending_responses bus1
                    !! Message.message_id message = Some fid).
  { rewrite Hp. subst bus0. cbn. rewrite Hid. apply lookup_insert_eq. }
  assert (Hpend : MessageBus.future_at fid bus1 = MessageBus.Pending).
  { unfold MessageBus.future_at. rewrite Hf. subst bus0. cbn.
    by rewrite lookup_insert_eq. }
  assert (Hc : MessageBus.future_at fid (MessageBus.stop bus1)
               = MessageBus.Cancelled).
  { unfold MessageBus.stop. rewrite Hrun', Hrun. cbn [negb].
    unfold MessageBus.future_at in *.
    cbn [MessageBus.futures MessageBus.with_futures MessageBus.with_running
         MessageBus.pending_responses].
    rewrite cancel_pending_futures, Hpend. cbn.
    rewrite bool_decide_eq_true_2; [done|].
    apply list_elem_of_fmap. exists (Message.message_id message, fid).
    split; [done|]. by apply elem_of_map_to_list. }
  unfold MessageBus.send_request_end, MessageBus.wait_for.
  rewrite Hc, Hid. cbn. split; [done|].
  case_bool_decide as Hin; cbn.
  - apply lookup_delete_eq.
  - by apply not_elem_of_dom.
Qed.

Lemma request_raises_when_bus_stops_witness :
  (MessageBus.send_request (sample_message "q-1" HIGH) MessageBus.stop
     roomy_bus).1
  = Raise (MkExn "CancelledError" "").
Proof.
  refine (proj1 (request_raises_when_bus_stops (sample_message "q-1" HIGH)
                   roomy_bus _ _ _)).
  - reflexivity.
  - vm_compute. reflexivity.
  - vm_compute. reflexivity.
Defined.

(** ** Registration, history and statistics *)

(** X9.  [unregister_agent] of a registered agent removes it together with
    its queued messages: the agent is no longer registered, its queues
    read as empty, also after it registers again, and every later
    [send_message] addressed to it returns false and leaves the bus as it
    is.  The queues and the registration of the other agents, the
    history, the pending responses and the statistics are untouched, and
    unregistering an unknown agent changes nothing. *)
Theorem unregistered_agent_is_cut_off (agent_id : string)
    (handler : MessageBus.Handler) (message : Message.t)
    (bus : MessageBus.t) :
  let bus' := MessageBus.unregister_agent agent_id bus in
  MessageBus.registered agent_id bus' = false
  /\ (MessageBus.registered agent_id bus = true ->
      MessageBus.queues_of agent_id bus' = MessageBus.empty_queues
      /\ MessageBus.queues_of agent_id
           (MessageBus.register_agent agent_id handler bus')
         = MessageBus.empty_queues)
  /\ (MessageBus.registered agent_id bus = false -> bus' = bus)
  /\ (forall r, r <> agent_id ->
        MessageBus.queues_of r bus' = MessageBus.queues_of r bus
        /\ MessageBus.registered r bus' = MessageBus.registered r bus)
  /\ (Message.recipient message = agent_id ->
      MessageBus.send_message message bus' = (false, bus'))
  /\ MessageBus.message_history bus' = MessageBus.message_history bus
  /\ MessageBus.pending_responses bus' = MessageBus.pending_responses bus
  /\ MessageBus.stats bus' = MessageBus.stats bus.
Proof.
  intros bus'.
  assert (Hreg : MessageBus.registered agent_id bus' = false).
  { subst bus'. rewrite registered_unregister.
    rewrite bool_decide_eq_true_2 by done. apply andb_false_r. }
  split; [done|]. split.
  { intros Ha. subst bus'.
    change (MessageBus.queues_of agent_id (MessageBus.register_agent _ _ ?b))
      with (MessageBus.queues_of agent_id b).
    rewrite queues_of_unregister, Ha, bool_decide_eq_true_2 by done. done. }
  split.
  { intros Ha. subst bus'. unfold MessageBus.unregister_agent. by rewrite Ha. }
  split.
  { intros r Hr. subst bus'.
    rewrite queues_of_unregister, registered_unregister.
    rewrite bool_decide_eq_false_2 by done.
    by rewrite andb_false_r, andb_true_r. }
  split.
  { intros Hm. unfold MessageBus.send_message. rewrite Hm, Hreg.
    by destruct (MessageBus.running bus'). }
  subst bus'. unfold MessageBus.unregister_agent. by case_match.
Qed.

Lemma last_slice_suffix {A} (limit : Z) (l : list A) :
  MessageBus.last_slice limit l `suffix_of` l.
Proof. unfold MessageBus.last_slice. case_match; apply suffix_drop. Qed.

(** X10.  [get_message_history] answers with a suffix of the selected
    entries: the last [limit] of them for a positive [limit], all of them
    for [limit = 0], and all but the first [-limit] for a negative
    [limit].  The entries selected for an agent are those that name it as
    sender or recipient, in the order of the history; [None] and the
    empty string select every entry. *)
Theorem get_message_history_selects (agent_id : option string) (limit : Z)
    (bus : MessageBus.t) :
  let selected := MessageBus.get_message_history agent_id 0 bus in
  let answer := MessageBus.get_message_history agent_id limit bus in
  answer `suffix_of` selected
  /\ length answer
     = (if 0 <? limit then (Z.to_nat limit `min` length selected)%nat
        else (length selected - Z.to_nat (- limit))%nat)
  /\ MessageBus.get_message_history None 0 bus = MessageBus.message_history bus
  /\ MessageBus.get_message_history (Some "") limit bus
     = MessageBus.get_message_history None limit bus
  /\ match agent_id with
     | Some a =>
         a <> "" ->
         forall e,
           e ∈ selected
           <-> e ∈ MessageBus.message_history bus
               /\ (MessageBus.History.sender e = a
                   \/ MessageBus.History.recipient e = a)
     | None => selected = MessageBus.message_history bus
     end.
Proof.
  intros selected answer. subst selected answer.
  unfold MessageBus.get_message_history.
  set (history := match agent_id with Some _ => _ | None => _ end).
  assert (H0 : forall l : list MessageBus.History.entry,
             MessageBus.last_slice 0 l = l) by done.
  rewrite !H0. split; [apply last_slice_suffix|]. split.
  { unfold MessageBus.last_slice. case_match eqn:E; rewrite length_drop.
    - apply Z.ltb_lt in E. lia.
    - done. }
  split; [done|]. split; [done|].
  subst history. destruct agent_id as [a|]; [|done].
  intros Ha. apply String.eqb_neq in Ha. rewrite Ha.
  intros e. rewrite list_elem_of_filter. tauto.
Qed.


(** ** Broadcast *)

Lemma send_message_counts (message : Message.t) (bus : MessageBus.t) :
  let out := MessageBus.send_message message bus in
  MessageBus.messages_sent (MessageBus.stats out.2)
  = MessageBus.messages_sent (MessageBus.stats bus)
    + (if out.1 then 1 else 0)
  /\ (MessageBus.running bus = false -> out.1 = false).
Proof.
  unfold MessageBus.send_message.
  destruct (MessageBus.running bus); simpl; [|split; [lia|done]].
  repeat case_match; simpl; split; (lia || done).
Qed.

Lemma broadcast_loop_skips (uuid4 : nat -> string) (now : nat -> datetime)
    (message : Message.t) (exclude : gset string) (ids : list string)
    (sent_count : nat) (bus : MessageBus.t) :
  let out :=
    MessageBus.broadcast_loop uuid4 now message exclude ids sent_count bus in
  let eligible :=
    filter (fun a => (a ∉ exclude) /\ a <> Message.sender message) ids in
  (forall r, r ∈ exclude \/ r = Message.sender message ->
             MessageBus.queues_of r out.2 = MessageBus.queues_of r bus)
  /\ (forall r, r ∉ ids ->
                MessageBus.queues_of r out.2 = MessageBus.queues_of r bus)
  /\ (sent_count <= out.1 <= sent_count + length eligible)%nat
  /\ (MessageBus.running bus = false -> out.1 = sent_count)
  /\ MessageBus.messages_sent (MessageBus.stats out.2)
     = MessageBus.messages_sent (MessageBus.stats bus)
       + Z.of_nat (out.1 - sent_count).
Proof.
  revert sent_count bus.
  induction ids as [|a ids IH]; intros n bus; cbn zeta.
  { simpl. repeat split; try done; lia. }
  cbn [MessageBus.broadcast_loop]. rewrite filter_cons.
  destruct (decide ((a ∉ exclude) /\ a <> Message.sender message)) as [He|He].
  - rewrite (bool_decide_eq_true_2 (a ∉ exclude)) by tauto.
    rewrite (proj2 (String.eqb_neq _ _)) by tauto. cbn [negb andb].
    set (copy := MessageBus.broadcast_msg uuid4 now _ message a).
    set (bus1 := MessageBus.with_constructed _ bus).
    destruct (send_message_result copy bus1) as [_ Hq].
    pose proof (send_message_frame copy bus1) as (_&_&_&_&Hrun&_).
    pose proof (send_message_counts copy bus1) as [Hcount Hoff].
    cbn zeta in Hq, Hrun, Hcount, Hoff.
    destruct (MessageBus.send_message copy bus1) as [sent bus2].
    cbn [fst snd] in *.
    specialize (IH (if sent then S n else n) bus2). cbn zeta in IH.
    destruct IH as (IH1 & IH2 & IH3 & IH4 & IH5).
    split; [|split; [|split; [|split]]].
    + intros r Hr. rewrite IH1, Hq by done.
      rewrite (bool_decide_eq_false_2 (Message.recipient copy = r)); [|simpl; intros ->; tauto].
      by rewrite andb_false_r.
    + intros r Hr. apply not_elem_of_cons in Hr as [Hra Hr].
      rewrite IH2, Hq by done.
      rewrite (bool_decide_eq_false_2 (Message.recipient copy = r)) by (simpl; congruence).
      by rewrite andb_false_r.
    + cbn [length]. destruct sent; lia.
    + intros Hoffb. rewrite IH4 by (by rewrite Hrun).
      by rewrite (Hoff Hoffb).
    + rewrite IH5, Hcount.
      change (MessageBus.stats bus1) with (MessageBus.stats bus).
      destruct sent; lia.
  - assert (Hskip : bool_decide (a ∉ exclude)
                    && negb (String.eqb a (Message.sender message)) = false).
    { apply not_and_l in He as [He|He].
      - by rewrite bool_decide_eq_false_2.
      - apply dec_stable in He. subst a. rewrite String.eqb_refl.
        apply andb_false_r. }
    rewrite Hskip. specialize (IH n bus). cbn zeta in IH.
    destruct IH as (IH1 & IH2 & IH3 & IH4 & IH5).
    split; [done|]. split; [|done].
    intros r Hr. apply not_elem_of_cons in Hr as [_ Hr]. by apply IH2.
Qed.

(** X12.  [broadcast_message] leaves the queues of the sender, of every
    excluded agent and of every agent that is not registered as they are;
    the count it returns is at most the number of registered agents that
    are neither excluded nor the sender, it is the growth of
    [messages_sent], and it is zero on a bus that is not running. *)
Theorem broadcast_skips_sender_and_excluded (uuid4 : nat -> string)
    (now : nat -> datetime) (message : Message.t) (exclude : gset string)
    (bus : MessageBus.t) :
  let out := MessageBus.broadcast_message uuid4 now message exclude bus in
  let eligible :=
    filter (fun a => (a ∉ exclude) /\ a <> Message.sender message)
           (MessageBus.agents bus).*1 in
  (forall r, r ∈ exclude \/ r = Message.sender message
             \/ MessageBus.registered r bus = false ->
             MessageBus.queues_of r out.2 = MessageBus.queues_of r bus)
  /\ (out.1 <= length eligible)%nat
  /\ (MessageBus.running bus = false -> out.1 = 0%nat)
  /\ MessageBus.messages_sent (MessageBus.stats out.2)
     = MessageBus.messages_sent (MessageBus.stats bus) + Z.of_nat out.1.
Proof.
  intros out eligible. subst out eligible. unfold MessageBus.broadcast_message.
  pose proof (broadcast_loop_skips uuid4 now message exclude
                (MessageBus.agents bus).*1 0 bus) as (H1 & H2 & H3 & H4 & H5).
  cbn zeta in *. split; [|split; [lia|split; [done|]]].
  - intros r [Hr|[Hr|Hr]]; [apply H1; tauto..|].
    apply H2. unfold MessageBus.registered in Hr.
    by apply bool_decide_eq_false in Hr.
  - rewrite H5. f_equal. lia.
Qed.

(** ** Accounting *)

Section Accounting.

Variable uuid4 : nat -> string.
Variable now : nat -> datetime.
Variable elapsed : Message.t -> Q.

Lemma count_insert (m : gmap string MessageBus.queues) (r : string)
    (qs : MessageBus.queues) :
  (map_fold MessageBus.add_queued 0 (<[r := qs]> m)
   + MessageBus.total (default MessageBus.empty_queues (m !! r))
   = map_fold MessageBus.add_queued 0 m + MessageBus.total qs)%nat.
Proof.
  assert (Hcomm : forall (m' : gmap string MessageBus.queues) j1 j2 z1 z2 y,
            j1 <> j2 -> m' !! j1 = Some z1 -> m' !! j2 = Some z2 ->
            MessageBus.add_queued j1 z1 (MessageBus.add_queued j2 z2 y) = MessageBus.add_queued j2 z2 (MessageBus.add_queued j1 z1 y)).
  { intros. unfold MessageBus.add_queued. lia. }
  destruct (m !! r) as [qs0|] eqn:E; simpl.
  - rewrite (map_fold_delete_L MessageBus.add_queued 0%nat r qs0 m) by eauto.
    rewrite <- (insert_delete_eq m).
    rewrite map_fold_insert_L; [|eauto|apply lookup_delete_eq].
    unfold MessageBus.add_queued. lia.
  - rewrite map_fold_insert_L by eauto. unfold MessageBus.add_queued.
    change (MessageBus.total MessageBus.empty_queues) with 0%nat. lia.
Qed.

Lemma count_delete (m : gmap string MessageBus.queues) (r : string) :
  (map_fold MessageBus.add_queued 0 (delete r m) <= map_fold MessageBus.add_queued 0 m)%nat.
Proof.
  destruct (m !! r) as [qs0|] eqn:E.
  - rewrite (map_fold_delete_L MessageBus.add_queued 0%nat r qs0 m); [unfold MessageBus.add_queued; lia| |done].
    intros. unfold MessageBus.add_queued. lia.
  - by rewrite delete_id.
Qed.

Lemma deliver_message_counts (m : Message.t) (h : MessageBus.Handler)
    (bus : MessageBus.t) :
  let st := MessageBus.stats bus in
  let st' :=
    MessageBus.stats (MessageBus._deliver_message uuid4 now elapsed m h bus) in
  MessageBus.messages_sent st' = MessageBus.messages_sent st
  /\ MessageBus.messages_delivered st <= MessageBus.messages_delivered st'
  /\ MessageBus.messages_failed st <= MessageBus.messages_failed st'
  /\ MessageBus.messages_delivered st' + MessageBus.messages_failed st'
     = MessageBus.messages_delivered st + MessageBus.messages_failed st + 1.
Proof.
  unfold MessageBus._deliver_message.
  destruct (h m) as [[r|v]|e]; destruct (MessageBus.pending_slot m bus);
    simpl; lia.
Qed.

Lemma accounted_run (operations : list MessageBus.operation)
    (bus : MessageBus.t) :
  MessageBus.accounted bus ->
  MessageBus.accounted (MessageBus.run uuid4 now elapsed operations bus).
Proof.
  apply run_invariant; unfold MessageBus.accounted, MessageBus.total_queue_size.
  - by intros b b' -> _ _ _ _ ->.
  - intros m b Hb. unfold MessageBus.send_message.
    set (r := Message.recipient m).
    pose proof (count_insert (MessageBus.message_queues b) r
                  (MessageBus.queues_of r b)) as Htouch.
    fold (MessageBus.queues_of r b) in Htouch.
    repeat case_match; simpl; try done.
    + lia.
    + rewrite insert_insert_eq.
      pose proof (count_insert (MessageBus.message_queues b) r
                    (MessageBus.set_queue (Message.priority m)
                       (MessageBus.queue (Message.priority m)
                          (MessageBus.queues_of r b) ++ [m])
                       (MessageBus.queues_of r b))) as Hins.
      fold (MessageBus.queues_of r b) in Hins.
      pose proof (total_set_queue (Message.priority m)
                    (MessageBus.queue (Message.priority m)
                       (MessageBus.queues_of r b) ++ [m])
                    (MessageBus.queues_of r b)) as Ht.
      rewrite length_app in Ht. simpl in Ht. lia.
  - intros a h b Hb. unfold MessageBus.deliver_next.
    case_bool_decide; [|done].
    unfold MessageBus._get_next_message.
    pose proof (fun qs => count_insert (MessageBus.message_queues b) a qs)
      as Hins.
    fold (MessageBus.queues_of a b) in Hins.
    destruct (MessageBus.pop_first _ _) as [[m qs']|] eqn:Hpop; cbn [fst snd].
    + destruct (pop_first_highest _ _ _ Hpop) as (p & q & Hhead & -> & _).
      pose proof (total_set_queue p q (MessageBus.queues_of a b)) as Ht.
      rewrite Hhead in Ht. simpl in Ht.
      specialize (Hins (MessageBus.set_queue p q (MessageBus.queues_of a b))).
      pose proof (deliver_message_counts m h
                    (MessageBus.with_message_queues
                       <[a := MessageBus.set_queue p q (MessageBus.queues_of a b)]> b))
        as (Hs & Hd & Hf & Hsum).
      pose proof (deliver_message_frame uuid4 now elapsed m h
                    (MessageBus.with_message_queues
                       <[a := MessageBus.set_queue p q (MessageBus.queues_of a b)]> b))
        as (Hq & _).
      cbn zeta in *. rewrite Hq, Hs. simpl in *. lia.
    + specialize (Hins (MessageBus.queues_of a b)). simpl. lia.
  - done.
  - intros a b Hb. unfold MessageBus.unregister_agent.
    case_match; [|done]. simpl.
    pose proof (count_delete (MessageBus.message_queues b) a). lia.
Qed.

End Accounting.

(** X13.  After any run from a new bus the counters add up: the messages
    counted as delivered and as failed, together with the messages still
    queued for all recipients, are at most [messages_sent].  So the bus
    never hands over a message it did not accept, and never the same
    queued message twice. *)
Theorem deliveries_never_exceed_sends (uuid4 : nat -> string)
    (now : nat -> datetime) (elapsed : Message.t -> Q)
    (max_queue_size : Z) (message_retention : nat)
    (operations : list MessageBus.operation) :
  let bus :=
    MessageBus.run uuid4 now elapsed operations
      (MessageBus.init max_queue_size message_retention) in
  let st := MessageBus.stats bus in
  0 <= MessageBus.messages_delivered st
  /\ 0 <= MessageBus.messages_failed st
  /\ MessageBus.messages_delivered st + MessageBus.messages_failed st
     + Z.of_nat (MessageBus.total_queue_size bus)
     <= MessageBus.messages_sent st.
Proof.
  apply (accounted_run uuid4 now elapsed operations
           (MessageBus.init max_queue_size message_retention)).
  unfold MessageBus.accounted, MessageBus.total_queue_size. simpl.
  rewrite map_fold_empty. lia.
Qed.

(** ** The client of the language model *)

Section ExtractionFacts.

Variable loads : string -> option value.

Lemma scan_array_candidate (content : string) (array_start : nat)
    (rest : string) (i : nat) (bracket_count : Z) (start_found : bool)
    (v : value) :
  LLMClient.scan_array loads content array_start i rest bracket_count
    start_found = Some v ->
  exists j, (i < j)%nat /\ loads (slice content array_start j) = Some v.
Proof.
  revert i bracket_count start_found.
  induction rest as [|char rest IH]; intros i bc sf; simpl; [done|].
  assert (Hnext : forall bc' sf',
    LLMClient.scan_array loads content array_start (S i) rest bc' sf' = Some v ->
    exists j, (i < j)%nat /\ loads (slice content array_start j) = Some v).
  { intros bc' sf' H. destruct (IH _ _ _ H) as (j & Hj & Hv).
    exists j. split; [lia|done]. }
  repeat case_match; eauto.
  intros Hv. exists (i + 1)%nat. split; [lia|done].
Qed.

End ExtractionFacts.

(** X14.  Whatever [_extract_json_from_response] returns comes from the
    text: it is the decoding of the whole text; or of the stripped body of
    the first fenced block; or of a slice that begins at the first opening
    brace; or of a slice that begins at the first opening bracket; or it
    is the degraded fallback, which is returned only for a text that does
    not decode as a whole. *)
Theorem extracted_value_comes_from_the_text (loads : string -> option value)
    (content : string) :
  let v := LLMClient._extract_json_from_response loads content in
  loads content = Some v
  \/ (exists json_start json_end,
        find "```json" 0 content = Some json_start
        /\ find "```" (json_start + 7) content = Some json_end
        /\ loads (strip (slice content (json_start + 7) json_end)) = Some v)
  \/ (exists brace_start j,
        find "{" 0 content = Some brace_start
        /\ (brace_start < j)%nat
        /\ loads (slice content brace_start j) = Some v)
  \/ (exists array_start j,
        find "[" 0 content = Some array_start
        /\ (array_start < j)%nat
        /\ loads (slice content array_start j) = Some v)
  \/ (v = LLMClient.fallback content /\ loads content = None).
Proof.
  intros v. subst v. unfold LLMClient._extract_json_from_response.
  destruct (loads content) as [v|] eqn:Hd; [by left|]. right.
  destruct (LLMClient.fenced_block loads content) as [v|] eqn:Hf.
  { left. unfold LLMClient.fenced_block in Hf.
    destruct (find "```json" 0 content) as [json_start|]; [|done].
    destruct (find "```" _ content) as [json_end|] eqn:He; [|done].
    exists json_start, json_end. done. }
  right.
  destruct (LLMClient.object_scan loads content) as [v|] eqn:Ho.
  { left. unfold LLMClient.object_scan in Ho.
    destruct (find "{" 0 content) as [brace_start|]; [|done].
    destruct (scan_object_candidate _ _ _ _ _ _ _ _ _ _ Ho) as (j & Hj & Hv).
    by exists brace_start, j. }
  right.
  destruct (LLMClient.array_scan loads content) as [v|] eqn:Ha.
  { left. unfold LLMClient.array_scan in Ha.
    destruct (find "[" 0 content) as [array_start|]; [|done].
    destruct (scan_array_candidate _ _ _ _ _ _ _ _ Ha) as (j & Hj & Hv).
    by exists array_start, j. }
  by right.
Qed.


Section GenerationFacts.

Variable default_provider : string.
Variable max_retries : Z.
Variable retry_delay : Q.
Variable _call_anthropic : LLMRequest.t -> nat -> result LLMResponse.t.
Variable _call_openai : LLMRequest.t -> nat -> result LLMResponse.t.
Variable _call_ollama : LLMRequest.t -> nat -> result LLMResponse.t.
Variable provider model : string.
Variable request : LLMRequest.t.

Lemma attempts_success (j : nat) (r : LLMResponse.t) (remaining a : nat) :
  Z.of_nat (a + remaining) = max_retries ->
  (a <= j < a + remaining)%nat ->
  (forall k, (a <= k < j)%nat -> exists e,
     LLMClient.call_provider _call_anthropic _call_openai _call_ollama
       provider request k = Raise e) ->
  LLMClient.call_provider _call_anthropic _call_openai _call_ollama provider
    request j = Ok r ->
  LLMClient.attempts max_retries retry_delay _call_anthropic _call_openai
    _call_ollama remaining a provider model request
  = (Some r, LLMClient.backoff retry_delay a (j - a)).
Proof.
  revert a. induction remaining as [|rem IH]; intros a Hn Hj Hfail Hok; [lia|].
  cbn [LLMClient.attempts].
  destruct (decide (a = j)) as [->|Hne].
  - rewrite Hok. by rewrite Nat.sub_diag.
  - destruct (Hfail a) as [e He]; [lia|]. rewrite He.
    rewrite (proj2 (Z.eqb_neq _ _)) by lia.
    rewrite (IH (S a)); [|lia|lia|intros k Hk; apply Hfail; lia|done].
    replace (j - a)%nat with (S (j - S a)) by lia. done.
Qed.

Lemma attempts_failure (e : exn) (remaining a : nat) :
  Z.of_nat (a + remaining) = max_retries ->
  (0 < remaining)%nat ->
  (forall k, (a <= k < a + remaining)%nat -> exists e',
     LLMClient.call_provider _call_anthropic _call_openai _call_ollama
       provider request k = Raise e') ->
  LLMClient.call_provider _call_anthropic _call_openai _call_ollama provider
    request (a + remaining - 1)%nat = Raise e ->
  LLMClient.attempts max_retries retry_delay _call_anthropic _call_openai
    _call_ollama remaining a provider model request
  = (Some {| LLMResponse.content := "";
             LLMResponse.model := model;
             LLMResponse.provider := provider;
             LLMResponse.success := false;
             LLMResponse.error :=
               Some ("Failed after " +:+ pretty max_retries
                     +:+ " attempts: " +:+ str e) |},
     LLMClient.backoff retry_delay a (remaining - 1)).
Proof.
  revert a. induction remaining as [|rem IH]; intros a Hn Hpos Hfail Hlast; [lia|].
  cbn [LLMClient.attempts].
  destruct (decide (rem = 0%nat)) as [->|Hne].
  - replace (a + 1 - 1)%nat with a in Hlast by lia. rewrite Hlast.
    by rewrite (proj2 (Z.eqb_eq _ _)) by lia.
  - destruct (Hfail a) as [e' He]; [lia|]. rewrite He.
    rewrite (proj2 (Z.eqb_neq _ _)) by lia.
    rewrite (IH (S a)); [|lia|lia|intros k Hk; apply Hfail; lia|].
    + replace (S rem - 1)%nat with (S (rem - 1)) by lia. done.
    + by replace (S a + rem - 1)%nat with (a + S rem - 1)%nat by lia.
Qed.

End GenerationFacts.

(** X16.  [generate_response] makes at most [max_retries] rounds.  It
    returns the response of the first round whose provider call returns,
    after sleeping [retry_delay * 2 ^ k] after each failed round [k]
    before it.  When all [max_retries] rounds raise, it returns a failed
    response with empty content whose error names the number of attempts
    and the exception of the last round, with no sleep after that round.
    With [max_retries <= 0] it makes no round and returns [None].  The
    rate limiter runs once, before the first round. *)
Theorem generate_response_retries (default_provider : string)
    (max_retries : Z) (retry_delay : Q) (rate_limit_requests_per_minute : Z)
    (_call_anthropic _call_openai _call_ollama :
       LLMRequest.t -> nat -> result LLMResponse.t)
    (current_time later : Q) (model : string) (request : LLMRequest.t)
    (limiter : LLMClient.Limiter.t) :
  let provider := LLMClient._determine_provider default_provider model in
  let call :=
    LLMClient.call_provider _call_anthropic _call_openai _call_ollama
      provider request in
  let limited :=
    LLMClient._apply_rate_limiting rate_limit_requests_per_minute
      current_time later limiter in
  let out :=
    LLMClient.generate_response default_provider max_retries retry_delay
      rate_limit_requests_per_minute _call_anthropic _call_openai
      _call_ollama current_time later model request limiter in
  out.2 = limited.2
  /\ (max_retries <= 0 -> out.1 = (None, limited.1))
  /\ (forall j r,
        Z.of_nat j < max_retries ->
        (forall k, (k < j)%nat -> exists e, call k = Raise e) ->
        call j = Ok r ->
        out.1 = (Some r,
                 (limited.1 ++ LLMClient.backoff retry_delay 0 j)%list))
  /\ (forall e,
        0 < max_retries ->
        (forall k, Z.of_nat k < max_retries -> exists e', call k = Raise e') ->
        call (Z.to_nat (max_retries - 1)) = Raise e ->
        out.1
        = (Some {| LLMResponse.content := "";
                   LLMResponse.model := model;
                   LLMResponse.provider := provider;
                   LLMResponse.success := false;
                   LLMResponse.error :=
                     Some ("Failed after " +:+ pretty max_retries
                           +:+ " attempts: " +:+ str e) |},
           (limited.1
            ++ LLMClient.backoff retry_delay 0
                 (Z.to_nat (max_retries - 1)))%list)).
Proof.
  intros provider call limited out. subst out limited.
  unfold LLMClient.generate_response. fold provider.
  destruct (LLMClient._apply_rate_limiting _ _ _ _) as [waited limiter'].
  cbn [fst snd].
  split; [by destruct (LLMClient.attempts _ _ _ _ _ _ _ _ _ _)|].
  split; [|split].
  - intros Hn. replace (Z.to_nat max_retries) with 0%nat by lia.
    cbn. by rewrite app_nil_r.
  - intros j r Hj Hfail Hok.
    rewrite (attempts_success max_retries retry_delay _call_anthropic
               _call_openai _call_ollama provider model request j r);
      [by rewrite Nat.sub_0_r|lia|lia|intros k Hk; apply Hfail; lia|done].
  - intros e Hpos Hfail Hlast.
    rewrite (attempts_failure max_retries retry_delay _call_anthropic
               _call_openai _call_ollama provider model request e);
      [|lia|lia|intros k Hk; apply Hfail; lia|].
    + by replace (Z.to_nat max_retries - 1)%nat
        with (Z.to_nat (max_retries - 1)) by lia.
    + by replace (0 + Z.to_nat max_retries - 1)%nat
        with (Z.to_nat (max_retries - 1)) by lia.
Qed.

(** X17.  After [_apply_rate_limiting] the request count is at most the
    limit (at most one for a limit below one), whatever it was before.
    With the count of the current window below the limit the call does
    not sleep and counts one more request.  With the limit reached it
    always sleeps, for the positive rest of the window, and then starts a
    new window in which this request is the first. *)
Theorem rate_limiter_bounds (rate_limit_requests_per_minute : Z)
    (current_time later : Q) (l : LLMClient.Limiter.t) :
  let out :=
    LLMClient._apply_rate_limiting rate_limit_requests_per_minute
      current_time later l in
  let started := LLMClient.Limiter.rate_limit_window_start l in
  let count :=
    if Qle_bool 60 (current_time - started) then 0
    else LLMClient.Limiter.request_count l in
  LLMClient.Limiter.request_count out.2
    <= Z.max rate_limit_requests_per_minute 1
  /\ (0 <= LLMClient.Limiter.request_count l ->
      1 <= LLMClient.Limiter.request_count out.2)
  /\ LLMClient.Limiter.last_request_time out.2 = current_time
  /\ (count < rate_limit_requests_per_minute ->
      out.1 = []
      /\ LLMClient.Limiter.request_count out.2 = count + 1)
  /\ (rate_limit_requests_per_minute <= count ->
      exists wait_time,
        out.1 = [wait_time]
        /\ (0 < wait_time)%Q
        /\ (started <= current_time -> wait_time <= 60)%Q
        /\ LLMClient.Limiter.request_count out.2 = 1
        /\ LLMClient.Limiter.rate_limit_window_start out.2 = later).
Proof.
  intros out started count. subst out started count.
  unfold LLMClient._apply_rate_limiting.
  destruct l as [last n start]. cbn [LLMClient.Limiter.request_count
    LLMClient.Limiter.rate_limit_window_start
    LLMClient.Limiter.last_request_time].
  destruct (Qle_bool 60 (current_time - start)) eqn:Hw;
    cbn [LLMClient.Limiter.request_count
         LLMClient.Limiter.rate_limit_window_start
         LLMClient.Limiter.last_request_time].
  - assert (Hwait : Qle_bool (60 - (current_time - current_time)) 0 = false).
    { apply not_true_iff_false. rewrite Qle_bool_iff. lra. }
    rewrite Hwait. cbn [negb].
    apply Qle_bool_iff in Hw.
    destruct (rate_limit_requests_per_minute <=? 0) eqn:Hr;
      [apply Z.leb_le in Hr|apply Z.leb_gt in Hr]; cbn.
    + split; [lia|]. split; [lia|]. split; [done|]. split; [lia|].
      intros _. eexists. split; [done|]. split; [lra|]. split; [|done].
      intros. lra.
    + split; [lia|]. split; [lia|]. split; [done|]. split; [done|]. lia.
  - assert (Hlt : (current_time - start < 60)%Q).
    { apply Qnot_le_lt. rewrite <- Qle_bool_iff. by rewrite Hw. }
    assert (Hwait : Qle_bool (60 - (current_time - start)) 0 = false).
    { apply not_true_iff_false. rewrite Qle_bool_iff. lra. }
    rewrite Hwait. cbn [negb].
    destruct (rate_limit_requests_per_minute <=? n) eqn:Hr;
      [apply Z.leb_le in Hr|apply Z.leb_gt in Hr]; cbn.
    + split; [lia|]. split; [lia|]. split; [done|]. split; [lia|].
      intros _. eexists. split; [done|]. split; [lra|]. split; [|done].
      intros. lra.
    + split; [lia|]. split; [lia|]. split; [done|]. split; [done|]. lia.
Qed.

Lemma lower_app (a b : string) :
  LLMClient.lower (a +:+ b) = LLMClient.lower a +:+ LLMClient.lower b.
Proof. induction a as [|c a IH]; simpl; [done|by rewrite IH]. Qed.

Lemma substring_middle (a sub b : string) :
  String.substring (String.length a) (String.length sub) (a +:+ sub +:+ b)
  = sub.
Proof.
  induction a as [|c a IH]; [|done].
  change ("" +:+ sub +:+ b) with (sub +:+ b).
  change (String.length "") with 0%nat.
  induction sub as [|c sub IH]; simpl; [by destruct b|by rewrite IH].
Qed.

Lemma contains_middle (a sub b : string) :
  sub <> "" -> LLMClient.contains sub (a +:+ sub +:+ b) = true.
Proof.
  intros Hsub. unfold LLMClient.contains, find.
  destruct (String.index 0 sub (a +:+ sub +:+ b)) eqn:E; [done|].
  exfalso.
  apply (String.index_correct3 0 (String.length a) _ _ E Hsub); [lia|].
  apply substring_middle.
Qed.

(** X18.  A model name that contains [claude] in any letter case is
    routed to the anthropic provider, whatever else the name contains and
    whatever the default provider is. *)
Theorem claude_models_go_to_anthropic (default_provider pre mid post : string) :
  LLMClient.lower mid = "claude" ->
  LLMClient._determine_provider default_provider (pre +:+ mid +:+ post)
  = "anthropic".
Proof.
  intros Hmid. unfold LLMClient._determine_provider.
  by rewrite !lower_app, Hmid, contains_middle.
Qed.

Lemma claude_models_go_to_anthropic_witness :
  LLMClient._determine_provider "ollama" "my-gpt-ClAuDe-qwen" = "anthropic".
Proof.
  apply (claude_models_go_to_anthropic "ollama" "my-gpt-" "ClAuDe" "-qwen").
  reflexivity.
Defined.

(** ** Protocol helpers *)


Lemma get_dict (d : list (string * value)) (k : string) (default_ x : value) :
  ProtocolHelper.get_ (VDict d) k default_ = Some x ->
  x = default default_ (dict_get k d).
Proof. unfold ProtocolHelper.get_, get. by intros [= <-]. Qed.



(** X20.  An agent response written into a task response by
    [create_task_response] is read back field by field by
    [extract_agent_response_from_message]; read as a task request, the
    same message gives [None]. *)
Theorem task_response_round_trip (message_id : string) (timestamp : datetime)
    (sender recipient : string) (agent_response : AgentResponse.t)
    (task_id : value) (correlation_id : option string) :
  ProtocolHelper.extract_agent_response_from_message
    (ProtocolHelper.create_task_response message_id timestamp sender
       recipient agent_response task_id correlation_id)
  = Some (ProtocolHelper.received agent_response)
  /\ ProtocolHelper.extract_task_from_message
       (ProtocolHelper.create_task_response message_id timestamp sender
          recipient agent_response task_id correlation_id)
     = None.
Proof. done. Qed.

(** X21.  The response message that the bus builds around the return
    value of a handler ([{"response": value}], or an empty content for a
    falsy value) is read by [extract_agent_response_from_message] as
    follows: a dictionary gives its entries, with the defaults for the
    missing ones; a falsy value gives the defaults alone, with
    [success = False]; any other value gives [None]. *)
Theorem wrapped_handler_result_as_agent_response (message : Message.t)
    (v : value) :
  Message.message_type message = TASK_RESPONSE ->
  Message.content message = (if truthy v then [("response", v)] else []) ->
  ProtocolHelper.extract_agent_response_from_message message
  = match v with
    | VDict d =>
        Some {| ReceivedResponse.success :=
                  default (VBool false) (dict_get "success" d);
                ReceivedResponse.result :=
                  default (VDict []) (dict_get "result" d);
                ReceivedResponse.error := default VNone (dict_get "error" d);
                ReceivedResponse.feedback :=
                  default (VList []) (dict_get "feedback" d);
                ReceivedResponse.confidence :=
                  default (VFloat (FFinite 1)) (dict_get "confidence" d);
                ReceivedResponse.execution_time :=
                  default VNone (dict_get "execution_time" d);
                ReceivedResponse.metadata :=
                  default (VDict []) (dict_get "metadata" d);
                ReceivedResponse.suggestions :=
                  default (VList []) (dict_get "suggestions" d) |}
    | _ =>
        if truthy v then None
        else
          Some {| ReceivedResponse.success := VBool false;
                  ReceivedResponse.result := VDict [];
                  ReceivedResponse.error := VNone;
                  ReceivedResponse.feedback := VList [];
                  ReceivedResponse.confidence := VFloat (FFinite 1);
                  ReceivedResponse.execution_time := VNone;
                  ReceivedResponse.metadata := VDict [];
                  ReceivedResponse.suggestions := VList [] |}
    end.
Proof.
  intros Htype Hcontent.
  unfold ProtocolHelper.extract_agent_response_from_message.
  rewrite Htype, Hcontent.
  rewrite bool_decide_eq_false_2 by (by intros ?).
  destruct v as [|b|n|f|s|l|d]; try done.
  - by destruct b.
  - by destruct (truthy (VInt n)).
  - by destruct (truthy (VFloat f)).
  - by destruct (truthy (VStr s)).
  - by destruct l.
  - by destruct d.
Qed.

Lemma wrapped_handler_result_as_agent_response_witness :
  ProtocolHelper.extract_agent_response_from_message wrapped_response = None.
Proof.
  apply (wrapped_handler_result_as_agent_response wrapped_response
           (VStr "ok")); reflexivity.
Defined.

(** X22.  [validate_message_format] accepts what the helpers build: for a
    message of [create_task_request] or [create_task_response] it returns
    without raising, [valid] holds exactly when the sender and the
    recipient are not empty, the issues are the missing ones of the two,
    and the only possible warning is about the size. *)
Theorem helper_built_messages_validate (dumps : value -> result string)
    (str_ : value -> string) (message_id : string) (timestamp : datetime)
    (sender recipient : string) (task : Task.t)
    (agent_response : AgentResponse.t) (task_id : value)
    (priority : TaskPriority) (correlation_id : option string) :
  let request :=
    ProtocolHelper.create_task_request message_id timestamp sender recipient
      task priority correlation_id in
  let response :=
    ProtocolHelper.create_task_response message_id timestamp sender recipient
      agent_response task_id correlation_id in
  let issues :=
    ((if String.eqb sender "" then ["Missing sender"] else [])
     ++ (if String.eqb recipient "" then ["Missing recipient"] else []))%list in
  let size_warnings (message : Message.t) :=
    match dumps (VDict (Message.content message)) with
    | Ok text =>
        if 100000 <? Z.of_nat (String.length text) then
          ["Large message size: " +:+ pretty (String.length text)
           +:+ " bytes"]
        else []
    | Raise _ => ["Could not determine message size"]
    end in
  ProtocolHelper.validate_message_format dumps str_ request
  = Ok {| Validation.valid :=
            negb (String.eqb sender "") && negb (String.eqb recipient "");
          Validation.issues := issues;
          Validation.warnings := size_warnings request;
          Validation.message_id := message_id;
          Validation.message_type := "task_request" |}
  /\ ProtocolHelper.validate_message_format dumps str_ response
     = Ok {| Validation.valid :=
               negb (String.eqb sender "") && negb (String.eqb recipient "");
             Validation.issues := issues;
             Validation.warnings := size_warnings response;
             Validation.message_id := message_id;
             Validation.message_type := "task_response" |}.
Proof.
  cbn zeta. unfold ProtocolHelper.validate_message_format.
  split.
  - cbn -[String.eqb Z.ltb pretty String.length].
    destruct (String.eqb sender ""), (String.eqb recipient "");
      cbn -[Z.ltb pretty String.length];
      by destruct (dumps _) as [text|e]; [destruct (_ <? _)|].
  - cbn -[String.eqb Z.ltb pretty String.length].
    destruct (String.eqb sender ""), (String.eqb recipient "");
      cbn -[Z.ltb pretty String.length];
      by destruct (dumps _) as [text|e]; [destruct (_ <? _)|].
Qed.

(** X23.  For a task request with a ["task"] entry, or a task response
    with a ["response"] entry, [validate_message_format] returns a report
    when the entry is a dictionary, a list or a string, and raises a
    [TypeError] when it is [None], a boolean or a number: the membership
    test on the entry is outside the [try]. *)
Theorem validation_raises_on_scalar_payload (dumps : value -> result string)
    (str_ : value -> string) (message : Message.t) (payload : value) :
  (Message.message_type message = TASK_REQUEST
   /\ dict_get "task" (Message.content message) = Some payload)
  \/ (Message.message_type message = TASK_RESPONSE
      /\ dict_get "response" (Message.content message) = Some payload) ->
  match payload with
  | VDict _ | VList _ | VStr _ =>
      exists v, ProtocolHelper.validate_message_format dumps str_ message
                = Ok v
  | _ =>
      ProtocolHelper.validate_message_format dumps str_ message
      = Raise (MkExn "TypeError" "argument is not iterable")
  end.
Proof.
  unfold ProtocolHelper.validate_message_format.
  intros [[-> Hp]|[-> Hp]]; rewrite Hp;
    destruct payload; cbn [ProtocolHelper.contains_key mbind result_bind];
    try done;
    repeat (match goal with
            | |- context [match ?x with _ => _ end] => destruct x
            end; cbn [mbind result_bind]); eauto.
Qed.

Lemma validation_raises_on_scalar_payload_witness :
  ProtocolHelper.validate_message_format (fun _ => Ok "{}") (fun _ => "None")
    taskless_request
  = Raise (MkExn "TypeError" "argument is not iterable").
Proof.
  apply (validation_raises_on_scalar_payload (fun _ => Ok "{}")
           (fun _ => "None") taskless_request VNone).
  left. split; reflexivity.
Defined.

(** ** The workflow of an agent *)

(** X24.  The status that [process_task] leaves behind: COMPLETED exactly
    for an approved review; FAILED after a rejected review or an
    exception; and IN_PROGRESS, the status set on entry, when the
    workflow stops early because the plan is empty or the execution did
    not succeed.  No call ends in PENDING or CANCELLED. *)
Theorem status_after_process_task
    (orchestrate : Task.t -> value -> result value)
    (execute : Task.t -> value -> value -> result value)
    (review : Task.t -> value -> value -> result ReviewResult.t)
    (agent_id : string) (role : AgentRole) (total_time : Q)
    (task : Task.t) (context : value)
    (response : AgentResponse.t) (status : TaskStatus) :
  BaseAgent.process_task orchestrate execute review agent_id role total_time
    task context
  = Ok (response, status) ->
  match status with
  | COMPLETED =>
      AgentResponse.success response = true
      /\ exists plan execution_result review_result,
           execute task plan context = Ok execution_result
           /\ review task execution_result context = Ok review_result
           /\ ReviewResult.approved review_result = true
  | FAILED =>
      AgentResponse.success response = false
      /\ (AgentResponse.error response = VStr "Quality review failed"
          \/ exists e,
               AgentResponse.error response
               = VStr ("Agent processing failed: " +:+ str e))
  | IN_PROGRESS =>
      response
      = BaseAgent.failed total_time (AgentResponse.error response) (VDict [])
      /\ (AgentResponse.error response
          = VStr "Orchestration failed to create execution plan"
          \/ exists plan execution_result,
               execute task plan context = Ok execution_result
               /\ get execution_result "success" (VBool false)
                  ≫= (fun v => Ok (truthy v)) = Ok false
               /\ get execution_result "error" (VStr "Execution failed")
                  = Ok (AgentResponse.error response))
  | PENDING | CANCELLED => False
  end.
Proof.
  unfold BaseAgent.process_task.
  destruct (_ ≫= _) as [[response' status']|e] eqn:Hbody; cbn [try_except].
  2:{ intros [= <- <-]. split; [done|]. right. eauto. }
  intros [= -> ->]. revert Hbody.
  step; [|done]. step; [|done].
  destruct (truthy _); cbn [negb].
  2:{ intros [= <- <-]. split; [done|]. by left. }
  step; [|done]. step; [|done]. step; [|done].
  destruct (truthy a3) eqn:Ht; cbn [negb].
  2:{ step; [|done]. intros [= <- <-]. split; [done|]. right.
      do 2 eexists. split; [done|].
      match goal with H : get _ "success" _ = _ |- _ => rewrite H end.
      cbn [mbind result_bind]. by rewrite Ht. }
  step; [|done]. step; [|done]. step; [|done].
  intros [= <- <-]. cbn [AgentResponse.success AgentResponse.error].
  destruct (ReviewResult.approved a4) eqn:Happ.
  - split; [done|]. eauto 10.
  - split; [done|]. by left.
Qed.

Lemma status_after_process_task_witness :
  AgentResponse.success planless_response = true.
Proof.
  refine (proj1 (status_after_process_task
                   (BaseOrchestrator.orchestrate json_loads
                      (fun _ => Raise (MkExn "ConnectionError"
                                         "model unreachable"))
                      (fun _ _ => "validate") (fun _ _ _ => "revise")
                      (fun _ _ => Raise (MkExn "ValueError" "no plan")))
                   (BaseExecutor.execute
                      (fun _ plan _ => Ok (VDict [("plan_used", plan)]))
                      "advisor" (1 # 2))
                   (BaseReviewer.review (fun _ _ _ => Ok thorough_review)
                      "advisor")
                   "advisor" DOMAIN_ADVISOR 1 sample_task (VDict [])
                   planless_response COMPLETED _)).
  vm_compute. reflexivity.
Defined.

Lemma automated_checks_need_result (execution_result : value)
    (automated_checks : AutomatedChecks.t) :
  BaseReviewer._perform_automated_checks execution_result
  = Ok automated_checks ->
  AutomatedChecks.issues automated_checks = [] ->
  AutomatedChecks.suggestions automated_checks = []
  /\ exists d result n,
       execution_result = VDict d
       /\ default (VDict []) (dict_get "result" d) = result
       /\ len result = Ok n /\ (0 < n)%nat
       /\ is_Some (dict_get "success" d)
       /\ default VNone (dict_get "error" d) = VNone.
Proof.
  unfold BaseReviewer._perform_automated_checks.
  destruct execution_result as [| | | | | |d]; try done.
  cbn [get mbind result_bind].
  destruct (len _) as [n|] eqn:Hn; [|done]. cbn [mbind result_bind].
  intros [= <-]. cbn [AutomatedChecks.issues AutomatedChecks.suggestions].
  destruct (bool_decide (0 < n)%nat) eqn:H1;
    destruct (bool_decide (is_Some (dict_get "success" d))) eqn:H2;
    destruct (default VNone (dict_get "error" d)) eqn:He;
    cbn; try done.
  intros _. split; [done|].
  apply bool_decide_eq_true in H1, H2.
  exists d, (default (VDict []) (dict_get "result" d)), n. done.
Qed.

(** X25.  A successful response of an agent built from the base
    components carries the value that the task logic returned, which has
    a positive length; the domain review approved and reported no issue,
    so the feedback is the list of its suggestions; the confidence is the
    mean of its score and one; the error is [None] and the status
    COMPLETED. *)
Theorem successful_response_shape (loads : string -> option value)
    (generate_response : LLMRequest.t -> result LLMResponse.t)
    (validation_prompt : Task.t -> value -> string)
    (revision_prompt : value -> value -> Task.t -> string)
    (_create_execution_plan : Task.t -> value -> result value)
    (_execute_task : Task.t -> value -> value -> result value)
    (_review_result : Task.t -> value -> value -> result ReviewResult.t)
    (agent_id : string) (role : AgentRole) (execution_time total_time : Q)
    (task : Task.t) (context : value)
    (response : AgentResponse.t) (status : TaskStatus) :
  BaseAgent.process_task
    (BaseOrchestrator.orchestrate loads generate_response validation_prompt
       revision_prompt _create_execution_plan)
    (BaseExecutor.execute _execute_task agent_id execution_time)
    (BaseReviewer.review _review_result agent_id)
    agent_id role total_time task context
  = Ok (response, status) ->
  AgentResponse.success response = true ->
  exists plan execution_result review_result n,
    _execute_task task plan context = Ok (AgentResponse.result response)
    /\ len (AgentResponse.result response) = Ok n /\ (0 < n)%nat
    /\ BaseExecutor.execute _execute_task agent_id execution_time task plan
         context
       = Ok execution_result
    /\ _review_result task execution_result context = Ok review_result
    /\ ReviewResult.approved review_result = true
    /\ ReviewResult.issues review_result = []
    /\ AgentResponse.feedback response = ReviewResult.suggestions review_result
    /\ AgentResponse.suggestions response
       = ReviewResult.suggestions review_result
    /\ (AgentResponse.confidence response
        == (ReviewResult.score review_result + 1) / 2)%Q
    /\ AgentResponse.error response = VNone
    /\ AgentResponse.execution_time response = Some total_time
    /\ status = COMPLETED.
Proof.
  unfold BaseAgent.process_task.
  destruct (orchestrate_returns loads generate_response validation_prompt
              revision_prompt _create_execution_plan task context)
    as (plan & rest & ->).
  cbn [mbind result_bind get subscript dict_get String.eqb Ascii.eqb
       Bool.eqb default from_option id].
  destruct (truthy plan); cbn [negb try_except]; [|by intros [= <- <-]].
  destruct (execute_returns _execute_task agent_id execution_time task plan
              context) as [(r & Hr & Hex)|(e & He & Hex)]; rewrite Hex.
  2:{ cbn [mbind result_bind get dict_get String.eqb Ascii.eqb Bool.eqb
           default from_option id truthy negb try_except].
      by intros [= <- <-]. }
  cbn [mbind result_bind get dict_get String.eqb Ascii.eqb Bool.eqb
       default from_option id truthy negb].
  set (execution_result := VDict _) in *.
  destruct (review_returns _review_result agent_id task execution_result
              context) as (rr & Hrr & Happroved).
  rewrite Hrr. cbn [mbind result_bind try_except].
  intros [= <- <-]. cbn [AgentResponse.success]. intros Happ.
  destruct (Happroved Happ) as (r0 & a & Hr0 & Ha & Hr0app & Hr0iss & Haiss
                                & Hiss & Hscore).
  destruct (automated_checks_need_result _ _ Ha Haiss)
    as (Hasug & d & res & n & Hd & Hres & Hlen & Hpos & _).
  subst execution_result. injection Hd as <-.
  cbn [dict_get String.eqb Ascii.eqb Bool.eqb default from_option id] in Hres.
  subst res.
  exists plan, (VDict [("result", r);
                       ("execution_time", VFloat (FFinite execution_time));
                       ("success", VBool true);
                       ("metadata",
                        VDict [("agent_id", VStr agent_id);
                               ("task_id", Task.task_id task);
                               ("execution_plan_used", plan)])]), r0, n.
  cbn [AgentResponse.result AgentResponse.feedback AgentResponse.suggestions
       AgentResponse.confidence AgentResponse.error
       AgentResponse.execution_time].
  rewrite Happ, Hiss.
  assert (Hsug : ReviewResult.suggestions rr = ReviewResult.suggestions r0).
  { revert Hrr. unfold BaseReviewer.review. rewrite Hr0, Ha.
    cbn [mbind result_bind try_except]. intros [= <-].
    cbn [ReviewResult.suggestions]. by rewrite Hasug, app_nil_r. }
  rewrite Hsug.
  repeat (split; [done|]). split; [|done].
  rewrite Hscore.
  pose proof (automated_score_one _ _ Ha Haiss) as Hone.
  rewrite Hone. reflexivity.
Qed.

Lemma successful_response_shape_witness :
  AgentResponse.feedback planless_response = ["Name the aggregate roots"].
Proof.
  destruct (successful_response_shape json_loads
              (fun _ => Raise (MkExn "ConnectionError" "model unreachable"))
              (fun _ _ => "validate") (fun _ _ _ => "revise")
              (fun _ _ => Raise (MkExn "ValueError" "no plan"))
              (fun _ plan _ => Ok (VDict [("plan_used", plan)]))
              (fun _ _ _ => Ok thorough_review)
              "advisor" DOMAIN_ADVISOR (1 # 2) 1 sample_task (VDict [])
              planless_response COMPLETED)
    as (plan & execution_result & review_result & n & _ & _ & _ & _ & Hrr
        & _ & _ & Hfeedback & _).
  - vm_compute. reflexivity.
  - reflexivity.
  - injection Hrr as <-. exact Hfeedback.
Defined.

(** X26.  A plan generation that raises does not stop the workflow:
    [orchestrate] returns the dictionary whose plan is
    [{"error": "Orchestration failed: .."}], a plan that is not empty, and
    [process_task] goes on to run the task logic with that plan.  The
    response is then decided by the task logic and the review alone. *)
Theorem failed_planning_still_executes (loads : string -> option value)
    (generate_response : LLMRequest.t -> result LLMResponse.t)
    (validation_prompt : Task.t -> value -> string)
    (revision_prompt : value -> value -> Task.t -> string)
    (_create_execution_plan : Task.t -> value -> result value)
    (_execute_task : Task.t -> value -> value -> result value)
    (_review_result : Task.t -> value -> value -> result ReviewResult.t)
    (agent_id : string) (role : AgentRole) (execution_time total_time : Q)
    (task : Task.t) (context : value) (e : exn) :
  _create_execution_plan task context = Raise e ->
  let plan := VDict [("error", VStr ("Orchestration failed: " +:+ str e))] in
  let outcome :=
    BaseAgent.process_task
      (BaseOrchestrator.orchestrate loads generate_response validation_prompt
         revision_prompt _create_execution_plan)
      (BaseExecutor.execute _execute_task agent_id execution_time)
      (BaseReviewer.review _review_result agent_id)
      agent_id role total_time task context in
  BaseOrchestrator.orchestrate loads generate_response validation_prompt
    revision_prompt _create_execution_plan task context
  = Ok (VDict [("execution_plan", plan); ("estimated_duration", VInt 0);
               ("success", VBool false)])
  /\ match _execute_task task plan context with
     | Ok result =>
         exists execution_result review_result response,
           BaseExecutor.execute _execute_task agent_id execution_time task
             plan context
           = Ok execution_result
           /\ BaseReviewer.review _review_result agent_id task
                execution_result context
              = Ok review_result
           /\ outcome
              = Ok (response,
                    if ReviewResult.approved review_result then COMPLETED
                    else FAILED)
           /\ AgentResponse.success response
              = ReviewResult.approved review_result
           /\ AgentResponse.result response = result
     | Raise e' =>
         outcome
         = Ok (BaseAgent.failed total_time (VStr (str e')) (VDict []),
               IN_PROGRESS)
     end.
Proof.
  intros Hplan plan outcome. subst outcome.
  assert (Ho : BaseOrchestrator.orchestrate loads generate_response
                 validation_prompt revision_prompt _create_execution_plan
                 task context
               = Ok (VDict [("execution_plan", plan);
                            ("estimated_duration", VInt 0);
                            ("success", VBool false)])).
  { unfold BaseOrchestrator.orchestrate. by rewrite Hplan. }
  split; [done|].
  unfold BaseAgent.process_task. rewrite Ho.
  cbn [mbind result_bind get subscript dict_get String.eqb Ascii.eqb
       Bool.eqb default from_option id].
  change (truthy plan) with true. cbn [negb].
  destruct (_execute_task task plan context) as [r|e'] eqn:He;
    unfold BaseExecutor.execute; rewrite He;
    cbn [mbind result_bind try_except].
  - cbn [mbind result_bind get dict_get String.eqb Ascii.eqb Bool.eqb
         default from_option id truthy negb].
    set (execution_result := VDict (("result", r) :: _)).
    destruct (review_returns _review_result agent_id task execution_result
                context) as (rr & Hrr & _).
    rewrite Hrr. subst execution_result.
    cbn [mbind result_bind get dict_get String.eqb Ascii.eqb Bool.eqb
         default from_option id try_except].
    eexists. exists rr. eexists.
    split; [reflexivity|].
    split; [done|]. split; [reflexivity|].
    split; reflexivity.
  - cbn [mbind result_bind get dict_get String.eqb Ascii.eqb Bool.eqb
         default from_option id truthy negb try_except]. reflexivity.
Qed.

Lemma failed_planning_still_executes_witness :
  BaseOrchestrator.orchestrate json_loads
    (fun _ => Raise (MkExn "ConnectionError" "model unreachable"))
    (fun _ _ => "validate") (fun _ _ _ => "revise")
    (fun _ _ => Raise (MkExn "ValueError" "no plan")) sample_task (VDict [])
  = Ok (VDict [("execution_plan",
                VDict [("error", VStr "Orchestration failed: no plan")]);
               ("estimated_duration", VInt 0); ("success", VBool false)]).
Proof.
  refine (proj1 (failed_planning_still_executes json_loads
                   (fun _ => Raise (MkExn "ConnectionError"
                                      "model unreachable"))
                   (fun _ _ => "validate") (fun _ _ _ => "revise")
                   (fun _ _ => Raise (MkExn "ValueError" "no plan"))
                   (fun _ plan _ => Ok (VDict [("plan_used", plan)]))
                   (fun _ _ _ => Ok thorough_review)
                   "advisor" DOMAIN_ADVISOR (1 # 2) 1 sample_task (VDict [])
                   (MkExn "ValueError" "no plan") _)).
  reflexivity.
Defined.

(** ** The domain advisor *)

Lemma dict_set_cons (k : string) (v : value) (d : list (string * value)) :
  exists entry rest, dict_set k v d = entry :: rest.
Proof. destruct d as [|[k' v'] d]; simpl; [eauto|]. case_match; eauto. Qed.

Section DomainAdvisorFacts.

Variable loads : string -> option value.
Variable generate_response : LLMRequest.t -> result LLMResponse.t.
Variable ORCHESTRATOR_SYSTEM_PROMPT : string.
Variable EXECUTOR_SYSTEM_PROMPT : string.
Variable planning_prompt : Task.t -> value -> value -> value -> string.
Variable domain_analysis_prompt : value -> value -> value -> string.
Variable requirements_analysis_prompt : value -> value -> string.
Variable technical_specification_prompt : value -> value -> string.

(** The task logic of the domain advisor returns a dictionary that is not
    empty, for every plan that is a dictionary. *)
Lemma execute_task_returns (task : Task.t) (plan : list (string * value))
    (context : value) :
  exists entry rest,
    DomainAdvisor._execute_task loads generate_response
      EXECUTOR_SYSTEM_PROMPT domain_analysis_prompt
      requirements_analysis_prompt technical_specification_prompt task
      (VDict plan) context
    = Ok (VDict (entry :: rest)).
Proof.
  unfold DomainAdvisor._execute_task. cbn [get mbind result_bind].
  destruct (_ ≫= _) as [v|e] eqn:Hbody; cbn [try_except]; [|eauto].
  revert Hbody. repeat (step; try done).
  intros [= <-].
  match goal with
  | |- context [dict_set ?k ?v ?d] =>
      destruct (dict_set_cons k v d) as (entry & rest & ->)
  end.
  eauto.
Qed.

End DomainAdvisorFacts.

(** X27.  The executor of the domain advisor reports success for every
    plan that is a dictionary, whatever the model does: the task logic
    turns a failure of any of its steps into the dictionary
    [{"error": ..}], which it returns, so [execute] wraps a result that is
    not empty under [success = True] and without a top-level error, and
    the three automated checks of the base reviewer pass with score one.
    A failed analysis is thus left to the domain review to detect. *)
Theorem domain_execution_reports_success (loads : string -> option value)
    (generate_response : LLMRequest.t -> result LLMResponse.t)
    (EXECUTOR_SYSTEM_PROMPT : string)
    (domain_analysis_prompt : value -> value -> value -> string)
    (requirements_analysis_prompt : value -> value -> string)
    (technical_specification_prompt : value -> value -> string)
    (agent_id : string) (execution_time : Q) (task : Task.t)
    (execution_plan context : value) :
  is_dict execution_plan = true ->
  exists result execution_result automated_checks,
    DomainAdvisor._execute_task loads generate_response
      EXECUTOR_SYSTEM_PROMPT domain_analysis_prompt
      requirements_analysis_prompt technical_specification_prompt task
      execution_plan context
    = Ok (VDict result)
    /\ result <> []
    /\ BaseExecutor.execute
         (DomainAdvisor._execute_task loads generate_response
            EXECUTOR_SYSTEM_PROMPT domain_analysis_prompt
            requirements_analysis_prompt technical_specification_prompt)
         agent_id execution_time task execution_plan context
       = Ok execution_result
    /\ dict_get "success" (match execution_result with
                           | VDict d => d
                           | _ => []
                           end)
       = Some (VBool true)
    /\ BaseReviewer._perform_automated_checks execution_result
       = Ok automated_checks
    /\ AutomatedChecks.issues automated_checks = []
    /\ (AutomatedChecks.score automated_checks == 1)%Q.
Proof.
  destruct execution_plan as [| | | | | |plan]; try done. intros _.
  destruct (execute_task_returns loads generate_response
              EXECUTOR_SYSTEM_PROMPT domain_analysis_prompt
              requirements_analysis_prompt technical_specification_prompt
              task plan context) as (entry & rest & Hex).
  exists (entry :: rest). do 2 eexists.
  split; [done|]. split; [done|].
  unfold BaseExecutor.execute. rewrite Hex.
  cbn [mbind result_bind try_except].
  split; [reflexivity|]. split; [reflexivity|].
  split; [reflexivity|]. split; [reflexivity|].
  vm_compute. done.
Qed.

Lemma domain_execution_reports_success_witness :
  exists result,
    DomainAdvisor._execute_task json_loads
      (fun _ => Raise (MkExn "AttributeError" "no response"))
      "executor" (fun _ _ _ => "domains") (fun _ _ => "requirements")
      (fun _ _ => "specifications") sample_task
      DomainAdvisor._create_fallback_plan (VDict [])
    = Ok (VDict result)
    /\ result <> [].
Proof.
  destruct (domain_execution_reports_success json_loads
              (fun _ => Raise (MkExn "AttributeError" "no response"))
              "executor" (fun _ _ _ => "domains") (fun _ _ => "requirements")
              (fun _ _ => "specifications") "advisor" (1 # 2) sample_task
              DomainAdvisor._create_fallback_plan (VDict []))
    as (result & _ & _ & Hresult & Hne & _).
  - reflexivity.
  - exists result. split; [exact Hresult|exact Hne].
Defined.

Ltac model_is_down Hdown :=
  repeat match goal with
         | |- context [mbind _ (?g ?request)] =>
             let response := fresh "response" in
             let Hs := fresh "Hs" in
             destruct (Hdown request) as (response & -> & Hs);
             cbn [mbind result_bind]; rewrite Hs
         end.

(** X28.  With a model service that answers every request with a failed
    response, the domain advisor works from its static fallbacks: for a
    task whose metadata is a dictionary, [orchestrate] returns the
    fallback plan with its duration, resources and quality gates (the
    plan validation defaults to valid), and the task logic run with that
    plan returns the fallback domain model, empty requirement lists and
    the fallback technical specifications. *)
Theorem domain_advisor_without_model (loads : string -> option value)
    (generate_response : LLMRequest.t -> result LLMResponse.t)
    (ORCHESTRATOR_SYSTEM_PROMPT EXECUTOR_SYSTEM_PROMPT : string)
    (planning_prompt : Task.t -> value -> value -> value -> string)
    (domain_analysis_prompt : value -> value -> value -> string)
    (requirements_analysis_prompt : value -> value -> string)
    (technical_specification_prompt : value -> value -> string)
    (validation_prompt : Task.t -> value -> string)
    (revision_prompt : value -> value -> Task.t -> string)
    (task : Task.t) (context : value) :
  (forall request,
     exists response,
       generate_response request = Ok response
       /\ LLMResponse.success response = false) ->
  is_dict (Task.metadata task) = true ->
  BaseOrchestrator.orchestrate loads generate_response validation_prompt
    revision_prompt
    (DomainAdvisor._create_execution_plan loads generate_response
       ORCHESTRATOR_SYSTEM_PROMPT planning_prompt)
    task context
  = Ok (VDict
          [("execution_plan", DomainAdvisor._create_fallback_plan);
           ("estimated_duration", VInt 15);
           ("required_resources",
            strings ["business_requirements"; "domain_context"]);
           ("success_criteria", VList []);
           ("quality_gates",
            strings ["completeness_check"; "consistency_validation"])])
  /\ DomainAdvisor._execute_task loads generate_response
       EXECUTOR_SYSTEM_PROMPT domain_analysis_prompt
       requirements_analysis_prompt technical_specification_prompt task
       DomainAdvisor._create_fallback_plan context
     = Ok (VDict
             [("analysis_type", VStr "general_analysis");
              ("domain_model", DomainAdvisor._create_fallback_domain_model);
              ("functional_requirements", VList []);
              ("non_functional_requirements", VList []);
              ("compliance_requirements", VList []);
              ("user_personas", VList []);
              ("use_cases", VList []);
              ("technical_specifications",
               DomainAdvisor._create_fallback_technical_specs)]).
Proof.
  intros Hdown Hmeta.
  destruct (Task.metadata task) as [| | | | | |metadata] eqn:Hm; try done.
  split.
  - unfold BaseOrchestrator.orchestrate,
      DomainAdvisor._create_execution_plan,
      BaseOrchestrator._validate_execution_plan.
    rewrite Hm. cbn [get mbind result_bind].
    model_is_down Hdown. cbn [mbind result_bind].
    model_is_down Hdown. reflexivity.
  - unfold DomainAdvisor._execute_task,
      DomainAdvisor._perform_domain_analysis,
      DomainAdvisor._perform_requirements_analysis,
      DomainAdvisor._create_technical_specifications.
    rewrite Hm. cbn [get mbind result_bind].
    cbn [DomainAdvisor._create_fallback_plan dict_get String.eqb Ascii.eqb
         Bool.eqb default from_option id].
    model_is_down Hdown. cbn [mbind result_bind].
    model_is_down Hdown. cbn [mbind result_bind].
    model_is_down Hdown. reflexivity.
Qed.

Lemma domain_advisor_without_model_witness :
  DomainAdvisor._execute_task json_loads (fun _ => Ok unavailable_response)
    "executor" (fun _ _ _ => "domains") (fun _ _ => "requirements")
    (fun _ _ => "specifications") sample_task
    DomainAdvisor._create_fallback_plan (VDict [])
  = Ok (VDict
          [("analysis_type", VStr "general_analysis");
           ("domain_model", DomainAdvisor._create_fallback_domain_model);
           ("functional_requirements", VList []);
           ("non_functional_requirements", VList []);
           ("compliance_requirements", VList []);
           ("user_personas", VList []);
           ("use_cases", VList []);
           ("technical_specifications",
            DomainAdvisor._create_fallback_technical_specs)]).
Proof.
  refine (proj2 (domain_advisor_without_model json_loads
                   (fun _ => Ok unavailable_response) "orchestrator"
                   "executor" (fun _ _ _ _ => "plan") (fun _ _ _ => "domains")
                   (fun _ _ => "requirements") (fun _ _ => "specifications")
                   (fun _ _ => "validate") (fun _ _ _ => "revise")
                   sample_task (VDict []) _ _)).
  - intros request. exists unavailable_response. split; reflexivity.
  - reflexivity.
Defined.

(** ** Message content *)

Section ReplaceFacts.

(** [pattern] begins with [p0]; [new] begins with [n0], a character that
    is not in the rest of [pattern], and does not hold [p0]. *)
Variable p0 n0 : ascii.
Variable rest new' : string.
Variable old : string.
Hypothesis new_without_p0 :
  forallb (fun c => negb (Ascii.eqb c p0)) (list_ascii_of_string (String n0 new'))
  = true.
Hypothesis rest_without_n0 :
  forallb (fun c => negb (Ascii.eqb c n0)) (list_ascii_of_string rest) = true.

Lemma contains_cons (pattern : string) (c : ascii) (s : string) :
  LLMClient.contains pattern (String c s)
  = String.prefix pattern (String c s) || LLMClient.contains pattern s.
Proof.
  unfold LLMClient.contains, find. cbn [String.index].
  destruct (String.prefix pattern (String c s)); [done|].
  by destruct (String.index 0 pattern s).
Qed.

Lemma contains_past (piece s : string) :
  forallb (fun c => negb (Ascii.eqb c p0)) (list_ascii_of_string piece) = true ->
  LLMClient.contains (String p0 rest) (piece +:+ s)
  = LLMClient.contains (String p0 rest) s.
Proof.
  induction piece as [|c piece IH]; [done|].
  cbn [list_ascii_of_string forallb]. intros [Hc Hp]%andb_prop.
  change (String c piece +:+ s) with (String c (piece +:+ s)).
  rewrite contains_cons, IH by done.
  cbn [String.prefix]. destruct (ascii_dec p0 c) as [->|_]; [|done].
  by rewrite Ascii.eqb_refl in Hc.
Qed.

(** A piece of text without [n0] that begins the output of the
    replacement begins its input. *)
Lemma prefix_of_replaced (piece s : string) :
  forallb (fun c => negb (Ascii.eqb c n0)) (list_ascii_of_string piece) = true ->
  String.prefix piece (replace_skip old (String n0 new') 0 s) = true ->
  String.prefix piece s = true.
Proof.
  revert s. induction piece as [|b piece IH]; intros s; [by destruct s|].
  cbn [list_ascii_of_string forallb]. intros [Hb Hp]%andb_prop.
  destruct s as [|c s]; [done|]. cbn [replace_skip].
  destruct (String.prefix old (String c s)).
  - change (String n0 new' +:+ ?x) with (String n0 (new' +:+ x)).
    cbn [String.prefix]. destruct (ascii_dec b n0) as [->|_]; [|done].
    by rewrite Ascii.eqb_refl in Hb.
  - cbn [String.prefix]. destruct (ascii_dec b c); [|done]. by apply IH.
Qed.

Lemma replaced_without_pattern (skip : nat) (s : string) :
  covered (String p0 rest) old s = true ->
  LLMClient.contains (String p0 rest)
    (replace_skip old (String n0 new') skip s) = false.
Proof.
  revert skip. induction s as [|c s IH]; intros skip; [done|].
  cbn [covered]. intros [Hc Hs]%andb_prop.
  cbn [replace_skip]. destruct skip as [|skip]; [|by apply IH].
  destruct (String.prefix old (String c s)) eqn:Hold.
  - rewrite contains_past by done. by apply IH.
  - rewrite contains_cons, IH by done. rewrite orb_false_r.
    destruct (String.prefix (String p0 rest) (String c s)) eqn:Hpat;
      [done|].
    cbn [String.prefix] in Hpat |- *.
    destruct (ascii_dec p0 c); [|done].
    apply not_true_iff_false. intros H. apply prefix_of_replaced in H; [|done].
    by rewrite H in Hpat.
Qed.

End ReplaceFacts.

Lemma covered_same (pattern s : string) : covered pattern pattern s = true.
Proof.
  induction s as [|c s IH]; [done|]. cbn [covered]. rewrite IH.
  by destruct (String.prefix pattern (String c s)).
Qed.

Lemma covered_absent (pattern old s : string) :
  LLMClient.contains pattern s = false -> covered pattern old s = true.
Proof.
  induction s as [|c s IH]; [done|].
  rewrite contains_cons. intros [Hp Hs]%orb_false_elim.
  cbn [covered]. rewrite Hp, IH by done. done.
Qed.

Lemma sanitized_string (s : string) :
  LLMClient.contains "<script"
    (replace "</script>" "&lt;/script&gt;" (replace "<script" "&lt;script" s))
  = false
  /\ LLMClient.contains "<script" (replace "<script" "&lt;script" s) = false.
Proof.
  assert (H1 : LLMClient.contains "<script"
                 (replace "<script" "&lt;script" s) = false).
  { apply (replaced_without_pattern "<" "&" "script" "lt;script" "<script");
      [done|done|apply covered_same]. }
  split; [|done].
  apply (replaced_without_pattern "<" "&" "script" "lt;/script&gt;"
           "</script>"); [done|done|by apply covered_absent].
Qed.

Lemma value_nested_ind (P : value -> Prop) :
  P VNone -> (forall b, P (VBool b)) -> (forall n, P (VInt n)) ->
  (forall f, P (VFloat f)) -> (forall s, P (VStr s)) ->
  (forall l, Forall P l -> P (VList l)) ->
  (forall d, Forall (fun e => P e.2) d -> P (VDict d)) ->
  forall v, P v.
Proof.
  intros HNone HBool HInt HFloat HStr HList HDict.
  fix IH 1. intros [|b|n|f|s|l|d].
  - exact HNone.
  - exact (HBool b).
  - exact (HInt n).
  - exact (HFloat f).
  - exact (HStr s).
  - apply HList.
    refine ((fix items (l : list value) : Forall P l :=
               match l with
               | [] => @List.Forall_nil _ P
               | x :: l' => @List.Forall_cons _ P x l' (IH x) (items l')
               end) l).
  - apply HDict.
    refine ((fix entries (d : list (string * value))
               : Forall (fun e => P e.2) d :=
               match d with
               | [] => @List.Forall_nil _ _
               | e :: d' =>
                   @List.Forall_cons _ (fun e => P e.2) e d' (IH e.2)
                     (entries d')
               end) d).
Qed.

Lemma sanitized_script_free (v : value) :
  MessageValidator.script_free (MessageValidator.sanitized v) = true.
Proof.
  induction v as [|b|n|f|s|l IH|d IH] using value_nested_ind; try done.
  - cbn. by rewrite (proj1 (sanitized_string s)).
  - cbn [MessageValidator.sanitized MessageValidator.script_free].
    apply forallb_forall. intros item [x [<- Hx]]%in_map_iff.
    rewrite Forall_forall in IH.
    destruct x as [|b|n|f|s|l'|d']; try done.
    + cbn. by rewrite (proj2 (sanitized_string s)).
    + apply (IH (VDict d')). by apply list_elem_of_In.
  - cbn [MessageValidator.sanitized MessageValidator.script_free].
    apply forallb_forall. intros [k y] [[k' x] [[= <- <-] Hx]]%in_map_iff.
    rewrite Forall_forall in IH. apply (IH (k', x)). by apply list_elem_of_In.
Qed.

(** X29.  [sanitize_content] keeps the keys of the content in their
    order and leaves no opening script tag in the strings it reaches: the
    strings under a key, at any depth of nested dictionaries, and the
    strings that are items of a list under a key.  Values that are not
    strings, dictionaries or lists stay under their keys as they are. *)
Theorem sanitized_content_has_no_script_tag (content : list (string * value)) :
  let clean := MessageValidator.sanitize_content content in
  clean.*1 = content.*1
  /\ Forall (fun entry => MessageValidator.script_free entry.2 = true) clean
  /\ (forall key v,
        (key, v) ∈ content ->
        match v with
        | VStr _ | VDict _ | VList _ => True
        | _ => (key, v) ∈ clean
        end).
Proof.
  intros clean. subst clean. unfold MessageValidator.sanitize_content.
  split; [|split].
  - induction content as [|[k x] content IH]; [done|]. cbn. by rewrite IH.
  - apply Forall_forall. intros [k y] Hin%list_elem_of_In.
    apply in_map_iff in Hin as [[k' x] [[= <- <-] _]].
    apply sanitized_script_free.
  - intros key v Hin.
    destruct v; try done; apply list_elem_of_In, in_map_iff;
      match goal with
      | H : (key, ?x) ∈ content |- _ =>
          exists (key, x); (split; [done|by apply list_elem_of_In])
      end.
Qed.

Lemma replace_absent (old new s : string) :
  LLMClient.contains old s = false -> replace old new s = s.
Proof.
  unfold replace. induction s as [|c s IH]; [done|].
  rewrite contains_cons. intros [Hp Hs]%orb_false_elim.
  cbn [replace_skip]. by rewrite Hp, IH.
Qed.

Lemma sanitized_string_fixed (s : string) :
  let once :=
    replace "</script>" "&lt;/script&gt;" (replace "<script" "&lt;script" s) in
  replace "</script>" "&lt;/script&gt;" (replace "<script" "&lt;script" once)
  = once
  /\ replace "<script" "&lt;script" (replace "<script" "&lt;script" s)
     = replace "<script" "&lt;script" s.
Proof.
  intros once. destruct (sanitized_string s) as [H2 H1]. fold once in H2.
  split; [|by apply replace_absent].
  rewrite (replace_absent "<script") by done.
  apply replace_absent.
  apply (replaced_without_pattern "<" "&" "/script>" "lt;/script&gt;"
           "</script>"); [done|done|apply covered_same].
Qed.

Lemma sanitized_twice (v : value) :
  MessageValidator.sanitized (MessageValidator.sanitized v)
  = MessageValidator.sanitized v.
Proof.
  induction v as [|b|n|f|s|l IH|d IH] using value_nested_ind; try done.
  - cbn [MessageValidator.sanitized].
    by rewrite (proj1 (sanitized_string_fixed s)).
  - cbn [MessageValidator.sanitized]. f_equal.
    rewrite List.map_map. apply List.map_ext_in. intros x Hx.
    rewrite Forall_forall in IH.
    destruct x as [|b|n|f|s|l'|d']; try done.
    + by rewrite (proj2 (sanitized_string_fixed s)).
    + apply (IH (VDict d')). by apply list_elem_of_In.
  - cbn [MessageValidator.sanitized]. f_equal.
    rewrite List.map_map. apply List.map_ext_in. intros [k x] Hx.
    rewrite Forall_forall in IH. f_equal.
    apply (IH (k, x)). by apply list_elem_of_In.
Qed.

(** X30.  Sanitizing twice is sanitizing once: the texts that replace the
    two tags hold neither tag, and the replacement joins no pieces of
    the text into a new tag. *)
Theorem sanitize_content_is_idempotent (content : list (string * value)) :
  MessageValidator.sanitize_content (MessageValidator.sanitize_content content)
  = MessageValidator.sanitize_content content.
Proof.
  unfold MessageValidator.sanitize_content.
  rewrite List.map_map. apply List.map_ext. intros [k x].
  by rewrite sanitized_twice.
Qed.

(** ** Runs of the client on sample data *)

Lemma generate_response_retries_witness :
  (LLMClient.generate_response "anthropic" 3 1 50
     (unconfigured "Anthropic") (unconfigured "OpenAI") flaky_ollama
     200 200 "qwen3:14b" sample_request busy_limiter).1
  = (Some scalar_response, [1; 2]%Q).
Proof.
  refine (proj1 (proj2 (proj2
            (generate_response_retries "anthropic" 3 1 50
               (unconfigured "Anthropic") (unconfigured "OpenAI")
               flaky_ollama 200 200 "qwen3:14b" sample_request
               busy_limiter))) 2%nat scalar_response _ _ _).
  - vm_compute. reflexivity.
  - intros [|[|k]] Hk; [eexists; reflexivity..|lia].
  - reflexivity.
Defined.

Lemma rate_limiter_bounds_witness :
  (LLMClient._apply_rate_limiting 50 130 161 busy_limiter).1 = [30%Q]
  /\ LLMClient.Limiter.request_count
       (LLMClient._apply_rate_limiting 50 130 161 busy_limiter).2
     = 1.
Proof.
  destruct (proj2 (proj2 (proj2 (proj2
              (rate_limiter_bounds 50 130 161 busy_limiter)))))
    as (wait_time & Hslept & _ & _ & Hcount & _).
  - vm_compute. discriminate.
  - split; [reflexivity|exact Hcount].
Defined.
